(** * Blog-collection agent: orchestration loop, tool dispatcher, record
      structuring and browser session, embedded from the Python sources

    Sources embedded here:
    - [core/browser_controller.py]   (session use count, acquire / release)
    - [core/data_extractor.py]       (identifier derivation, field aliases)
    - [pipelines/agent_pipeline.py]  (tool dispatcher, orchestration loop)
    - [tools/tool_definitions.py], [config/settings.py] (constants)
    - [core/web_searcher.py]         (the filter of the search hits)
    - [main.py]                      (the keywords of the text area)

    Conventions of the embedding.
    - A Python [str] is a [string]; a character is a code point below 256,
      so the character classes ([str.isspace], [str.isalnum], [str.lower])
      are those of Python on U+0000..U+00FF.  Message texts written in
      Korean in the sources are carried as the bytes of their literal; no
      statement below depends on them.
    - JSON-like dynamic values are the inductive [json]; floats are left out.
    - [json.dumps v] is represented by the value [v] itself ([ArgDumped],
      [JsonContent]); decoding such a text gives [v] back.  Text that comes
      from outside is decoded by the oracle [json_loads].
    - External collaborators (reasoning service, search provider, Selenium,
      file writer, [json.loads], [ast.literal_eval], [repr], the iteration
      order of a [set]) are fields of the record [Oracles]; stateful ones
      thread an abstract world [W].
    - Effects: a state-and-exception monad [M]; a raised exception keeps the
      state reached so far, as in Python. *)

From Stdlib Require Import String Ascii List ZArith Lia Bool Arith DecimalString.
From Stdlib Require Import Permutation.
Import ListNotations.
Set Warnings "-register-all".
Local Open Scope string_scope.
Local Open Scope list_scope.
Local Open Scope nat_scope.

Infix "^^" := String.append (at level 60, right associativity).

(** ** Python strings *)
Module PyStr.

Definition dq : string := String (ascii_of_nat 34) EmptyString.
Definition bslash : ascii := ascii_of_nat 92.
Definition newline : ascii := ascii_of_nat 10.

(** [str.isspace] on one character (also the class [\s] of [re]). *)
Definition isspace (c : ascii) : bool :=
  let n := nat_of_ascii c in
  ((9 <=? n) && (n <=? 13)) || ((28 <=? n) && (n <=? 32))
  || (n =? 133) || (n =? 160).

(** [str.isalnum] on one character. *)
Definition isalnum (c : ascii) : bool :=
  let n := nat_of_ascii c in
  ((48 <=? n) && (n <=? 57)) || ((65 <=? n) && (n <=? 90))
  || ((97 <=? n) && (n <=? 122))
  || (n =? 170) || (n =? 178) || (n =? 179) || (n =? 181) || (n =? 185)
  || (n =? 186) || ((188 <=? n) && (n <=? 190))
  || ((192 <=? n) && (n <=? 214)) || ((216 <=? n) && (n <=? 246))
  || ((248 <=? n) && (n <=? 255)).

(** [str.lower] on one character. *)
Definition lower_char (c : ascii) : ascii :=
  let n := nat_of_ascii c in
  if ((65 <=? n) && (n <=? 90))
     || ((192 <=? n) && (n <=? 214)) || ((216 <=? n) && (n <=? 222))
  then ascii_of_nat (n + 32) else c.

Fixpoint lower (s : string) : string :=
  match s with
  | EmptyString => EmptyString
  | String c r => String (lower_char c) (lower r)
  end.

Fixpoint filter (p : ascii -> bool) (s : string) : string :=
  match s with
  | EmptyString => EmptyString
  | String c r => if p c then String c (filter p r) else filter p r
  end.

Fixpoint map (f : ascii -> ascii) (s : string) : string :=
  match s with
  | EmptyString => EmptyString
  | String c r => String (f c) (map f r)
  end.

Fixpoint forallb (p : ascii -> bool) (s : string) : bool :=
  match s with
  | EmptyString => true
  | String c r => p c && forallb p r
  end.

(** [s[:n]] *)
Fixpoint take (n : nat) (s : string) : string :=
  match n, s with
  | S k, String c r => String c (take k r)
  | _, _ => EmptyString
  end.

(** [s[n:]] *)
Fixpoint drop (n : nat) (s : string) : string :=
  match n, s with
  | S k, String _ r => drop k r
  | _, _ => s
  end.

Definition startswith (p s : string) : bool := String.prefix p s.

(** [sub in s] *)
Fixpoint contains (sub s : string) : bool :=
  String.prefix sub s
  || match s with
     | EmptyString => false
     | String _ r => contains sub r
     end.

Fixpoint lstrip (s : string) : string :=
  match s with
  | String c r => if isspace c then lstrip r else s
  | EmptyString => EmptyString
  end.

Fixpoint rstrip (s : string) : string :=
  match s with
  | EmptyString => EmptyString
  | String c r =>
      match rstrip r with
      | EmptyString => if isspace c then EmptyString else String c EmptyString
      | t => String c t
      end
  end.

(** [s.strip()] *)
Definition strip (s : string) : string := rstrip (lstrip s).

(** [s.replace(old, new)] for a non-empty [old]: occurrences are replaced
    from the left and do not overlap; [skip] counts the characters of the
    occurrence just replaced that are still to be passed over. *)
Fixpoint replace_aux (old new : string) (skip : nat) (s : string) : string :=
  match s with
  | EmptyString => EmptyString
  | String c r =>
      match skip with
      | S k => replace_aux old new k r
      | O =>
          if String.prefix old s
          then new ^^ replace_aux old new (String.length old - 1) r
          else String c (replace_aux old new 0 r)
      end
  end.

Definition replace (old new s : string) : string := replace_aux old new 0 s.

(** [s.split(sep)[0]] for a one-character separator. *)
Fixpoint split_first (sep : ascii) (s : string) : string :=
  match s with
  | EmptyString => EmptyString
  | String c r => if Ascii.eqb c sep then EmptyString else String c (split_first sep r)
  end.

(** [str(n)] for a length or a count. *)
Definition of_nat (n : nat) : string := NilZero.string_of_uint (Nat.to_uint n).
Definition of_Z (z : Z) : string := NilZero.string_of_int (Z.to_int z).

(** [re.search]: the leftmost position at which the anchored matcher [m]
    succeeds. *)
Fixpoint search {A} (m : string -> option A) (s : string) : option A :=
  match m s with
  | Some a => Some a
  | None =>
      match s with
      | EmptyString => None
      | String _ r => search m r
      end
  end.

(** The longest prefix without a double quote, and what follows it. *)
Fixpoint span_noquote (s : string) : string * string :=
  match s with
  | EmptyString => (EmptyString, EmptyString)
  | String c r =>
      if Ascii.eqb c (ascii_of_nat 34) then (EmptyString, s)
      else let (a, b) := span_noquote r in (String c a, b)
  end.

(** Optional blanks, a colon, optional blanks, a double quote, anchored;
    returns the text after that opening quote. *)
Definition colon_quote (s : string) : option string :=
  match lstrip s with
  | String c r =>
      if Ascii.eqb c ":" then
        match lstrip r with
        | String q t => if Ascii.eqb q (ascii_of_nat 34) then Some t else None
        | EmptyString => None
        end
      else None
  | EmptyString => None
  end.

End PyStr.

(** ** Dynamic values *)
Module Json.

Inductive json : Type :=
| JNull
| JBool (b : bool)
| JInt (z : Z)
| JStr (s : string)
| JList (l : list json)
| JDict (d : list (string * json)).

(** Python truthiness ([if v:], [not v], [a or b]). *)
Definition truthy (v : json) : bool :=
  match v with
  | JNull => false
  | JBool b => b
  | JInt z => negb (Z.eqb z 0)
  | JStr s => negb (String.eqb s EmptyString)
  | JList l => match l with [] => false | _ => true end
  | JDict d => match d with [] => false | _ => true end
  end.

(** [v == "lit"] *)
Definition is_str (lit : string) (v : json) : bool :=
  match v with
  | JStr s => String.eqb s lit
  | _ => false
  end.

(** Dictionaries keep insertion order. *)
Fixpoint lookup (k : string) (d : list (string * json)) : option json :=
  match d with
  | [] => None
  | (k', v) :: r => if String.eqb k' k then Some v else lookup k r
  end.

(** [d.get(k)] *)
Definition get (k : string) (d : list (string * json)) : json :=
  match lookup k d with Some v => v | None => JNull end.

(** [d.get(k, default)] *)
Definition get_default (k : string) (dflt : json) (d : list (string * json)) : json :=
  match lookup k d with Some v => v | None => dflt end.

(** [k in d] *)
Definition has_key (k : string) (d : list (string * json)) : bool :=
  match lookup k d with Some _ => true | None => false end.

(** [d[k] = v] *)
Fixpoint set (k : string) (v : json) (d : list (string * json)) : list (string * json) :=
  match d with
  | [] => [(k, v)]
  | (k', v') :: r => if String.eqb k' k then (k, v) :: r else (k', v') :: set k v r
  end.

End Json.
Export Json.

(** ** Outcomes and exceptions *)

Inductive exn : Type :=
| RuntimeError (msg : string)
| TypeError
| AttributeError
| OtherError (name : string).

Inductive res (A : Type) : Type :=
| Ok (a : A)
| Raise (e : exn).
Arguments Ok {A} a.
Arguments Raise {A} e.

(** ** The browser session of [core/browser_controller.py] *)
Module BrowserController.

(** [driver] stands for [self.driver is not None]; [user_count] is
    [self._browser_instance_user_count]. *)
Record t : Type := mk {
  driver : bool;
  user_count : Z }.

(** [BrowserController.__init__] *)
Definition init : t := mk false 0.

(** [_ensure_browser]; [launch_ok] is the outcome of
    [_init_selenium_driver], consulted only when no driver is running. *)
Definition _ensure_browser (launch_ok : bool) (b : t) : res unit * t :=
  let c := (user_count b + 1)%Z in
  if driver b then (Ok tt, mk true c)
  else if launch_ok then (Ok tt, mk true c)
  else (Raise (RuntimeError "브라우저를 시작할 수 없습니다"), mk false (c - 1)%Z).

(** [_maybe_close_browser(force_close)].  [_close_selenium_driver] swallows
    its own errors, so the assignment [self.driver = None] is reached. *)
Definition _maybe_close_browser (force_close : bool) (b : t) : t :=
  let c := (user_count b - 1)%Z in
  if force_close || ((c <=? 0)%Z && driver b) then mk false c
  else if (c <? 0)%Z then mk (driver b) 0%Z
  else mk (driver b) c.

(** One call on the controller, for sequences of calls. *)
Inductive op : Type :=
| Acquire (launch_ok : bool)
| Release (force_close : bool).

Definition step (b : t) (o : op) : t :=
  match o with
  | Acquire ok => snd (_ensure_browser ok b)
  | Release f => _maybe_close_browser f b
  end.

Definition run (ops : list op) (b : t) : t := fold_left step ops b.


End BrowserController.

(** ** Constants of [config/settings.py] and [tools/tool_definitions.py] *)
Module Settings.

Definition AGENT_MAX_TURNS : nat := 20.

Definition DATA_FIELDS_TO_EXTRACT : list string :=
  [ "blog_id"; "blog_name"; "blog_url"; "recent_post_date"; "first_post_date";
    "total_posts"; "blog_creation_date"; "average_visitors"; "llm_summary" ].

(** The function names of [TOOLS_SPEC], in its order (the finalize tool is
    listed twice there). *)
Definition TOOLS_SPEC : list string :=
  [ "search_web_for_blogs"; "finalize_blog_data_collection";
    "get_webpage_content_and_interact"; "extract_blog_fields_from_text";
    "finalize_blog_data_collection" ].

End Settings.

(** ** [core/data_extractor.py] *)
Module DataExtractor.
Import PyStr.

(** [re.sub(r'^https?://', '', url)] *)
Definition strip_scheme (url : string) : string :=
  if startswith "http://" url then drop 7 url
  else if startswith "https://" url then drop 8 url
  else url.

(** The first three lines of the [try] block of [_derive_blog_id]. *)
Definition blog_id_part (url : string) : string :=
  let domain := split_first "/" (strip_scheme url) in
  let domain := replace "www." EmptyString domain in
  replace "-" "_" (replace "." "_" domain).

(** ["".join(filter(str.isalnum, blog_name.lower().replace(" ", "_")))[:20]] *)
Definition name_part (blog_name : string) : string :=
  take 20 (filter isalnum (replace " " "_" (lower blog_name))).

(** [_derive_blog_id] on a [str] URL and a [str] name. *)
Definition derive_blog_id_str (url blog_name : string) : string :=
  if String.eqb blog_name EmptyString then blog_id_part url
  else blog_id_part url ^^ "_" ^^ name_part blog_name.

(** [_derive_blog_id] on dynamic values: a URL that is not a [str] makes
    [re.sub] raise, a true name that is not a [str] has no [lower]; the
    [except Exception] clause then returns the fallback. *)
Definition _derive_blog_id (url blog_name : json) : string :=
  match url with
  | JStr u =>
      if truthy blog_name then
        match blog_name with
        | JStr n => blog_id_part u ^^ "_" ^^ name_part n
        | _ => "unknown_blog_id"
        end
      else blog_id_part u
  | _ => "unknown_blog_id"
  end.

Definition field_mapping_table : list (string * list string) :=
  [ ("blog_name", ["blog_name"; "title"; "site_title"; "website_name"; "name"; "blog_title"]);
    ("blog_url", ["blog_url"; "url"; "website_url"; "site_url"; "link"]);
    ("recent_post_date", ["recent_post_date"; "latest_post_date"; "last_post_date";
                          "newest_post_date"; "latest_post"]);
    ("first_post_date", ["first_post_date"; "first_post_date_info"; "earliest_post_date";
                         "start_date"; "first_post"]);
    ("total_posts", ["total_posts"; "total_posts_info"; "post_count"; "article_count";
                     "number_of_posts"; "posts_count"]);
    ("blog_creation_date", ["blog_creation_date"; "blog_creation_date_info"; "created_date";
                            "founding_date"; "launch_date"]);
    ("average_visitors", ["average_visitors"; "average_visitors_hint"; "monthly_visitors";
                          "visitor_count"; "traffic"; "page_views"]);
    ("llm_summary", ["llm_summary"; "main_content_summary"; "summary"; "description";
                     "about"; "content_summary"]) ].

Definition NOT_FOUND : json := JStr "Not Found".

(** [str(v)]; [repr] gives the text of lists and dictionaries. *)
Definition py_str (repr : json -> string) (v : json) : string :=
  match v with
  | JStr s => s
  | JNull => "None"
  | JBool true => "True"
  | JBool false => "False"
  | JInt z => of_Z z
  | _ => repr v
  end.

(** The inner [for source_field in possible_source_fields] loop: the value
    under the first source key that is present, [None] when there is none. *)
Fixpoint find_source (raw : list (string * json)) (sources : list string) : json :=
  match sources with
  | [] => JNull
  | k :: r =>
      match lookup k raw with
      | Some v => v
      | None => find_source raw r
      end
  end.

(** [found_value is not None and found_value != ""] *)
Definition usable (v : json) : bool :=
  match v with
  | JNull => false
  | JStr s => negb (String.eqb s EmptyString)
  | _ => true
  end.

Definition in_fields (f : string) : bool :=
  existsb (String.eqb f) Settings.DATA_FIELDS_TO_EXTRACT.

(** One round of [for target_field, possible_source_fields in ...]. *)
Definition map_field (repr : json -> string) (raw : list (string * json))
    (sd : list (string * json)) (entry : string * list string) : list (string * json) :=
  let (target_field, possible_source_fields) := entry in
  if negb (in_fields target_field) then sd
  else
    let found_value := find_source raw possible_source_fields in
    if usable found_value then
      if String.eqb target_field "total_posts"
      then Json.set target_field (JStr (py_str repr found_value)) sd
      else Json.set target_field found_value sd
    else sd.

(** The closing loop that resets missing, [None] or empty fields. *)
Definition fill_missing (sd : list (string * json)) (field : string) : list (string * json) :=
  match lookup field sd with
  | Some v => if usable v then sd else Json.set field NOT_FOUND sd
  | None => Json.set field NOT_FOUND sd
  end.

Definition initial_structure (blog_url : json) : list (string * json) :=
  Json.set "blog_url" blog_url
    (List.map (fun f => (f, NOT_FOUND)) Settings.DATA_FIELDS_TO_EXTRACT).

(** [structure_blog_info] *)
Definition structure_blog_info (repr : json -> string) (raw : json) (blog_url : json)
  : list (string * json) :=
  let structured_data := initial_structure blog_url in
  match raw with
  | JDict d =>
      let sd := fold_left (map_field repr d) field_mapping_table structured_data in
      let sd := Json.set "blog_id"
                  (JStr (_derive_blog_id blog_url (get_default "blog_name" (JStr "Unknown") sd))) sd in
      fold_left fill_missing Settings.DATA_FIELDS_TO_EXTRACT sd
  | _ =>
      let sd := Json.set "blog_name" (JStr "Data Extraction Error") structured_data in
      Json.set "blog_id"
        (JStr (_derive_blog_id blog_url (JStr "Data Extraction Error"))) sd
  end.

(** The identifier derivation as the specification words it: strip the
    scheme, strip a leading [www.], replace every host character that is
    not alphanumeric by an underscore, append the slug of the name. *)
Definition strip_www_prefix (host : string) : string :=
  if startswith "www." host then drop 4 host else host.

Definition underscore_nonalnum (c : ascii) : ascii :=
  if isalnum c then c else "_"%char.

Definition reference_blog_id (url blog_name : string) : string :=
  let host := strip_www_prefix (split_first "/" (strip_scheme url)) in
  let host_part := PyStr.map underscore_nonalnum host in
  if String.eqb blog_name EmptyString then host_part
  else host_part ^^ "_" ^^ take 20 (filter isalnum (lower blog_name)).

(** The host of a URL as both derivations cut it out. *)
Definition host_of (url : string) : string := split_first "/" (strip_scheme url).

(** The characters of a host on which the code and the reference
    derivation treat a host alike. *)
Definition plain_host_char (c : ascii) : bool :=
  isalnum c || Ascii.eqb c "." || Ascii.eqb c "-" || Ascii.eqb c "_".

(** What a round of the mapping loop writes under its target. *)
Definition coerced (repr : json -> string) (target_field : string) (v : json) : json :=
  if String.eqb target_field "total_posts" then JStr (py_str repr v) else v.

(** What the closing loop leaves under a key it visits. *)
Definition filled (o : option json) : option json :=
  match o with
  | Some v => if usable v then Some v else Some NOT_FOUND
  | None => Some NOT_FOUND
  end.

End DataExtractor.

(** ** [pipelines/agent_pipeline.py]: data *)
Module Pipeline.
Import PyStr.

(** A record of the Collection Store is a dictionary. *)
Definition record : Type := list (string * json).

(** The [arguments] text of a tool call: text received from outside, or
    [json.dumps v] written by the pipeline itself. *)
Inductive arguments : Type :=
| ArgText (s : string)
| ArgDumped (v : json).

(** A tool-call identifier: one given by the reasoning service, or
    [call_from_content_<abs(hash(json.dumps(args)))>]. *)
Inductive call_id : Type :=
| CallId (s : string)
| CallFromContent (args : json).

Record tool_call : Type := mk_call {
  tc_id : call_id;
  tc_name : string;
  tc_arguments : arguments }.

(** The [content] of a tool turn: plain text, or [json.dumps v]. *)
Inductive content : Type :=
| TextContent (s : string)
| JsonContent (v : json).

Inductive message : Type :=
| SystemMsg (text : string)
| UserMsg (text : string)
| AssistantMsg (text : option string) (tool_calls : list tool_call)
| ToolMsg (tool_call_id : call_id) (name : string) (c : content).

(** The envelope returned by [BrowserController.browse_website]; of the
    [data] dictionary only the keys the pipeline reads are kept. *)
Record browse_result : Type := mk_browse {
  br_status : string;
  br_final_url : string;
  br_page_title : string;
  br_action_performed : json;
  br_text_content : option string;
  br_used_selector : option string;
  br_message : option string;
  br_error_message : string }.

(** What the run leaves behind for an observer: status lines of the
    pipeline and calls on its collaborators, in order. *)
Inductive event : Type :=
| EvTurn (turn_count : nat)
| EvTool (tool_name : string) (tool_args : json)
| EvToolResult (tool_name : string)
| EvCapReached
| EvAcquire
| EvRelease (force_close : bool)
| EvSave (data : list record) (filename_prefix : string).

(** Outcome of [ast.literal_eval]. *)
Inductive literal : Type :=
| LitValue (v : json)
| LitInvalid
| LitError (e : exn).

(** The collaborators.  [W] is the state of the outside world.
    [search_links] gives the [url] entries of the hits of
    [WebSearcher.search_links], which are [str] by its construction;
    [chat_with_ollama_for_tools] gives the [content] of the assistant
    message ([None] when the service wrote no text) and its [tool_calls];
    [keyword_from_user_text] is the pattern loop of the keyword recovery on
    one user text; [set_order] lists the distinct members of a [set] built
    from the given insertions, in the order its iteration yields them. *)
Record Oracles (W : Type) : Type := mk_oracles {
  json_loads : string -> option json;
  literal_eval : string -> literal;
  py_repr : json -> string;
  keyword_from_user_text : string -> option string;
  set_order : list json -> list json;
  improved_system_prompt : string;
  extraction_prompt : string;
  launch_driver : W -> bool * W;
  sync_browse_website : string -> json -> json -> json -> W -> browse_result * W;
  chat_with_ollama_for_tools : list message -> bool -> W -> (option string * list tool_call) * W;
  search_links : json -> W -> list string * W;
  write_file : list record -> string -> W -> option string * W }.

Arguments json_loads {W} _ _.
Arguments literal_eval {W} _ _.
Arguments py_repr {W} _ _.
Arguments keyword_from_user_text {W} _ _.
Arguments set_order {W} _ _.
Arguments improved_system_prompt {W} _.
Arguments extraction_prompt {W} _.
Arguments launch_driver {W} _ _.
Arguments sync_browse_website {W} _ _ _ _ _ _.
Arguments chat_with_ollama_for_tools {W} _ _ _ _.
Arguments search_links {W} _ _ _.
Arguments write_file {W} _ _ _ _.

(** The mutable state a run works on. *)
Record St (W : Type) : Type := mk_st {
  world : W;
  browser : BrowserController.t;
  messages_history : list message;
  final_structured_blog_data : list record;
  log : list event }.

Arguments mk_st {W} _ _ _ _ _.
Arguments world {W} _.
Arguments browser {W} _.
Arguments messages_history {W} _.
Arguments final_structured_blog_data {W} _.
Arguments log {W} _.

(** How one turn of the loop ends. *)
Inductive flow : Type :=
| Continue
| Break
| Return (v : option string).

(** *** Regular expressions of the pipeline *)

(** After the opening brace of a fenced block: the shortest text ending in
    a closing brace that is followed by optional blanks and a fence. *)
Fixpoint lazy_to_fence (s : string) : option string :=
  match s with
  | EmptyString => None
  | String c r =>
      if Ascii.eqb c "}" && startswith "```" (lstrip r)
      then Some (String c EmptyString)
      else option_map (String c) (lazy_to_fence r)
  end.

Definition markdown_at (s : string) : option string :=
  if startswith "```json" s then
    match lstrip (drop 7 s) with
    | String c r =>
        if Ascii.eqb c "{" then option_map (String c) (lazy_to_fence r) else None
    | EmptyString => None
    end
  else None.

(** Group 1 of the search for a fenced json block in [s]. *)
Definition markdown_json (s : string) : option string := search markdown_at s.

(** The prefix of [s] that ends at its last closing brace. *)
Fixpoint upto_last_brace (s : string) : option string :=
  match s with
  | EmptyString => None
  | String c r =>
      match upto_last_brace r with
      | Some t => Some (String c t)
      | None => if Ascii.eqb c "}" then Some (String c EmptyString) else None
      end
  end.

Definition braces_at (s : string) : option string :=
  match s with
  | String c r => if Ascii.eqb c "{" then upto_last_brace s else None
  | EmptyString => None
  end.

(** Group 1 of the search for an opening brace up to the last closing one. *)
Definition brace_span (s : string) : option string := search braces_at s.

(** The [text_content] pattern: the key in double quotes, a colon, an
    opening double quote, then the group.  The group starts with a greedy
    run of characters other than a double quote, which also takes every
    backslash, so its escape alternative never applies and the group is
    that run. *)
Definition text_content_at (s : string) : option string :=
  let key := dq ^^ "text_content" ^^ dq in
  if startswith key s then
    match colon_quote (drop (String.length key) s) with
    | Some t => Some (fst (span_noquote t))
    | None => None
    end
  else None.

Definition text_match (s : string) : option string := search text_content_at s.

(** The url pattern: the key [original_url] or [url] in double quotes, a
    colon, then a non-empty run without a double quote, closed by one. *)
Definition url_value (s : string) : option string :=
  match colon_quote s with
  | Some t =>
      let (v, rest) := span_noquote t in
      match v, rest with
      | String _ _, String _ _ => Some v
      | _, _ => None
      end
  | None => None
  end.

Definition url_at (s : string) : option string :=
  let k1 := dq ^^ "original_url" ^^ dq in
  let k2 := dq ^^ "url" ^^ dq in
  if startswith k1 s then url_value (drop (String.length k1) s)
  else if startswith k2 s then url_value (drop (String.length k2) s)
  else None.

Definition url_match (s : string) : option string := search url_at s.

(** [text.replace('\\n', '\n').replace('\\"', '"')] *)
Definition unescape (s : string) : string :=
  replace (String bslash dq) dq
    (replace (String bslash "n") (String newline EmptyString) s).

(** *** Operators on dynamic values *)

(** [v.get(k)]: only a dictionary has [get]. *)
Definition dyn_get (k : string) (v : json) : res json :=
  match v with
  | JDict d => Ok (Json.get k d)
  | _ => Raise AttributeError
  end.

Definition dyn_get_default (k : string) (dflt : json) (v : json) : res json :=
  match v with
  | JDict d => Ok (Json.get_default k dflt d)
  | _ => Raise AttributeError
  end.

(** [k in v] *)
Definition dyn_in (k : string) (v : json) : res bool :=
  match v with
  | JDict d => Ok (Json.has_key k d)
  | JList l => Ok (existsb (is_str k) l)
  | JStr s => Ok (contains k s)
  | _ => Raise TypeError
  end.

(** [v[k]] for a string key. *)
Definition dyn_index (k : string) (v : json) : res json :=
  match v with
  | JDict d =>
      match Json.lookup k d with
      | Some x => Ok x
      | None => Raise (OtherError "KeyError")
      end
  | _ => Raise TypeError
  end.

(** [a or b] *)
Definition dyn_or (a b : json) : json := if truthy a then a else b.

(** Readers of a log and of a history. *)
Definition is_turn (e : event) : bool :=
  match e with EvTurn _ => true | _ => false end.

Definition is_forced_release (e : event) : bool :=
  match e with EvRelease true => true | _ => false end.

Definition is_tool_event (name : string) (e : event) : bool :=
  match e with EvTool n _ => String.eqb n name | _ => false end.

Definition is_tool_message (m : message) : bool :=
  match m with ToolMsg _ _ _ => true | _ => false end.

(** The number of forced releases a state has logged, and the number of
    tool turns in its history. *)
Definition forced_of {W} (st : St W) : nat :=
  List.length (List.filter is_forced_release (log st)).

Definition results_of {W} (st : St W) : nat :=
  List.length (List.filter is_tool_message (messages_history st)).

(** 1 when a turn, or the loop, ended in the [return] of a successful
    finalize, 0 otherwise. *)
Definition returned (r : res flow) : nat :=
  match r with
  | Ok (Return _) => 1
  | _ => 0
  end.

Section WithOracles.
Context {W : Type} (O : Oracles W).

(** [json.loads] of an [arguments] text or of a tool turn's content. *)
Definition loads_arguments (a : arguments) : option json :=
  match a with
  | ArgText s => json_loads O s
  | ArgDumped v => Some v
  end.

Definition loads_content (c : content) : option json :=
  match c with
  | TextContent s => json_loads O s
  | JsonContent v => Some v
  end.

Definition fmt (v : json) : string := DataExtractor.py_str (py_repr O) v.

(** [robust_json_parse] (the same local function at both places): the
    decoded value, [None] ([JNull]) when every step fails; an error of
    [ast.literal_eval] other than [ValueError] and [SyntaxError] escapes. *)
Definition robust_json_parse (json_string : string) : res json :=
  match json_loads O json_string with
  | Some v => Ok v
  | None =>
      match json_loads O (replace "'" dq json_string) with
      | Some v => Ok v
      | None =>
          match literal_eval O json_string with
          | LitValue v => Ok v
          | LitError e => Raise e
          | LitInvalid =>
              match brace_span json_string with
              | Some g =>
                  match json_loads O (replace "'" dq g) with
                  | Some v => Ok v
                  | None => Ok JNull
                  end
              | None => Ok JNull
              end
          end
      end
  end.

(** *** The state-and-exception monad *)

Definition M (A : Type) : Type := St W -> res A * St W.

Definition ret {A} (a : A) : M A := fun st => (Ok a, st).

Definition raise {A} (e : exn) : M A := fun st => (Raise e, st).

Definition bind {A B} (m : M A) (f : A -> M B) : M B :=
  fun st =>
    match m st with
    | (Ok a, st') => f a st'
    | (Raise e, st') => (Raise e, st')
    end.

(** [try: m  except Exception as e: h e] *)
Definition try_except {A} (m : M A) (h : exn -> M A) : M A :=
  fun st =>
    match m st with
    | (Ok a, st') => (Ok a, st')
    | (Raise e, st') => h e st'
    end.

Definition lift {A} (r : res A) : M A := fun st => (r, st).

Definition emit (e : event) : M unit :=
  fun st => (Ok tt, mk_st (world st) (browser st) (messages_history st)
                      (final_structured_blog_data st) (log st ++ [e])).

Definition get_history : M (list message) := fun st => (Ok (messages_history st), st).

Definition get_collected : M (list record) :=
  fun st => (Ok (final_structured_blog_data st), st).

Definition append_message (m : message) : M unit :=
  fun st => (Ok tt, mk_st (world st) (browser st) (messages_history st ++ [m])
                      (final_structured_blog_data st) (log st)).

Definition append_record (r : record) : M unit :=
  fun st => (Ok tt, mk_st (world st) (browser st) (messages_history st)
                      (final_structured_blog_data st ++ [r]) (log st)).

(** A call on a collaborator that only reads and advances the world. *)
Definition ask {A} (f : W -> A * W) : M A :=
  fun st => let (a, w) := f (world st) in
            (Ok a, mk_st w (browser st) (messages_history st)
                     (final_structured_blog_data st) (log st)).

Notation "x <- m ;; k" := (bind m (fun x => k))
  (at level 100, m at next level, right associativity).
Notation "m ;;; k" := (bind m (fun _ => k))
  (at level 100, right associativity).

(** *** The browser session as the pipeline drives it *)

Definition _ensure_browser : M unit :=
  fun st =>
    let b := browser st in
    let (ok, w) := if BrowserController.driver b then (true, world st)
                   else launch_driver O (world st) in
    let (r, b') := BrowserController._ensure_browser ok b in
    (r, mk_st w b' (messages_history st) (final_structured_blog_data st)
          (log st ++ [EvAcquire])).

Definition _maybe_close_browser (force_close : bool) : M unit :=
  fun st =>
    (Ok tt, mk_st (world st) (BrowserController._maybe_close_browser force_close (browser st))
              (messages_history st) (final_structured_blog_data st)
              (log st ++ [EvRelease force_close])).

(** [BrowserController.browse_website] with [close_browser=False]: a failed
    acquisition becomes an error envelope; the [finally] clause releases. *)
Definition browse_website (url : string) (action selector input_text : json)
  : M browse_result :=
  let failed (e : exn) :=
    mk_browse "error" url EmptyString
      (if truthy action then action else JStr "get_content")
      None None None
      (match e with
       | RuntimeError m => "RuntimeError - " ^^ m
       | TypeError => "TypeError"
       | AttributeError => "AttributeError"
       | OtherError n => n
       end) in
  r <- try_except
         (_ensure_browser ;;;
          ask (sync_browse_website O url action selector input_text))
         (fun e => ret (failed e)) ;;
  _maybe_close_browser false ;;;
  ret r.

(** [DataWriter.save_data] *)
Definition save_data (data : list record) (filename_prefix : string) : M (option string) :=
  emit (EvSave data filename_prefix) ;;;
  match data with
  | [] => ret None
  | _ => ask (write_file O data filename_prefix)
  end.

(** *** [_execute_tool_call], branch by branch *)

Definition nl : string := String newline EmptyString.

Definition error_result (msg : string) : json :=
  JDict [("status", JStr "error"); ("message", JStr msg)].

(** [tool_name == "search_web_for_blogs"] *)
Definition exec_search (tool_args : json) : M json :=
  keyword <- lift (dyn_get "keyword" tool_args) ;;
  if negb (truthy keyword) then
    ret (error_result "search_web_for_blogs 도구에 'keyword' 인자가 필요합니다.")
  else
    search_results <- ask (search_links O keyword) ;;
    let urls := List.filter (fun u => negb (String.eqb u EmptyString)) search_results in
    ret (JDict [("status", JStr "success");
                ("found_urls", JList (List.map JStr urls));
                ("summary", JStr (of_nat (List.length urls)
                                  ^^ "개의 잠재적 블로그 URL을 찾았습니다."))]).

(** Keyword recovery, first pass: the inner loop over the tool calls of one
    assistant turn. *)
Fixpoint keyword_in_calls (calls : list tool_call) : res (option json) :=
  match calls with
  | [] => Ok None
  | tc :: r =>
      if String.eqb (tc_name tc) "search_web_for_blogs" then
        match loads_arguments (tc_arguments tc) with
        | None => keyword_in_calls r
        | Some args =>
            match dyn_get "keyword" args with
            | Raise e => Raise e
            | Ok k => if truthy k then Ok (Some k) else keyword_in_calls r
            end
        end
      else keyword_in_calls r
  end.

(** First pass over [reversed(messages_history)]. *)
Fixpoint keyword_from_calls (reversed_history : list message) : res json :=
  match reversed_history with
  | [] => Ok (JStr "unknown_keyword")
  | AssistantMsg _ calls :: r =>
      match keyword_in_calls calls with
      | Raise e => Raise e
      | Ok (Some k) => if is_str "unknown_keyword" k then keyword_from_calls r else Ok k
      | Ok None => keyword_from_calls r
      end
  | _ :: r => keyword_from_calls r
  end.

(** Second pass over [messages_history[:3]]; the patterns, which use
    characters outside the range embedded here, are [keyword_from_user_text]. *)
Fixpoint keyword_from_users (first_messages : list message) : json :=
  match first_messages with
  | [] => JStr "unknown_keyword"
  | UserMsg t :: r =>
      match keyword_from_user_text O t with
      | Some c => if String.eqb c "unknown_keyword" then keyword_from_users r else JStr c
      | None => keyword_from_users r
      end
  | _ :: r => keyword_from_users r
  end.

Definition recover_keyword (source_keyword : json) (history : list message) : res json :=
  if is_str "unknown_keyword" source_keyword
     && match history with [] => false | _ => true end
  then
    match keyword_from_calls (rev history) with
    | Raise e => Raise e
    | Ok k =>
        if is_str "unknown_keyword" k then Ok (keyword_from_users (firstn 3 history))
        else Ok k
    end
  else Ok source_keyword.

Definition content_quality_note (text_length : nat) : string :=
  if text_length <? 200 then
    nl ^^ nl ^^ "⚠️ CONTENT WARNING: The provided text is quite short ("
    ^^ of_nat text_length ^^ " characters). This may indicate:" ^^ nl
    ^^ "1. Poor content extraction due to dynamic loading" ^^ nl
    ^^ "2. Incorrect CSS selectors used for content extraction" ^^ nl
    ^^ "3. Access restrictions, login required, or content behind paywall" ^^ nl
    ^^ "4. The page may not contain the expected blog content" ^^ nl
    ^^ "5. Mobile/responsive version with limited content display" ^^ nl ^^ nl
    ^^ "Please extract what information you can, but note any limitations in your response. If blog information cannot be reliably extracted due to insufficient content, indicate this clearly."
  else if text_length <? 500 then
    nl ^^ nl ^^ "⚠️ Note: The provided text is relatively short ("
    ^^ of_nat text_length
    ^^ " characters). Extract available information but be aware of potential content limitations."
  else EmptyString.

Definition extraction_user_prompt (original_url source_keyword : json)
    (text_length : nat) (text_content : string) : string :=
  "Extract information from this text from URL '" ^^ fmt original_url ^^ "':"
  ^^ content_quality_note text_length ^^ nl ^^ nl
  ^^ "Source keyword: " ^^ fmt source_keyword ^^ nl
  ^^ "Text length: " ^^ of_nat text_length ^^ " characters" ^^ nl
  ^^ "URL: " ^^ fmt original_url ^^ nl ^^ nl
  ^^ "Text content:" ^^ nl ^^ text_content.

Definition raw_llm_output (extracted_json_string : string) : json :=
  JStr (take 500 extracted_json_string
        ^^ (if 500 <? String.length extracted_json_string then "..." else EmptyString)).

(** The [try] block of the extraction branch, up to the structured record;
    [None] stands for the [json.JSONDecodeError] raised when nothing
    decodes. *)
Definition decode_extraction (extracted_json_string : string) : res (option json) :=
  let json_str_to_parse :=
    match markdown_json extracted_json_string with
    | Some g => g
    | None => extracted_json_string
    end in
  match robust_json_parse json_str_to_parse with
  | Raise e => Raise e
  | Ok JNull =>
      match robust_json_parse extracted_json_string with
      | Raise e => Raise e
      | Ok JNull => Ok None
      | Ok v => Ok (Some v)
      end
  | Ok v => Ok (Some v)
  end.

(** [tool_name == "extract_blog_fields_from_text"] *)
Definition exec_extract (tool_args : json) : M json :=
  text_content <- lift (dyn_get "text_content" tool_args) ;;
  u1 <- lift (dyn_get "original_url" tool_args) ;;
  u2 <- lift (dyn_get "url" tool_args) ;;
  let original_url := dyn_or u1 u2 in
  source_keyword <- lift (dyn_get_default "source_keyword" (JStr "unknown_keyword") tool_args) ;;
  history <- get_history ;;
  source_keyword <- lift (recover_keyword source_keyword history) ;;
  if negb (truthy text_content) then
    ret (error_result "extract_blog_fields_from_text 도구에 'text_content' 인자가 필요합니다.")
  else if negb (truthy original_url) then
    ret (error_result
           "extract_blog_fields_from_text 도구에 'original_url' 또는 'url' 인자가 필요합니다.")
  else
    match text_content with
    | JStr text =>
        let text_content_stripped := strip text in
        let text_length := String.length text_content_stripped in
        if text_length =? 0 then
          ret (JDict [("status", JStr "error");
                      ("message", JStr ("Empty text content provided for " ^^ fmt original_url
                         ^^ ". Cannot extract blog information from empty text."));
                      ("suggestion", JStr "Try browsing the URL again with different selectors or check if the page loaded correctly.")])
        else if text_length <? 50 then
          ret (JDict [("status", JStr "error");
                      ("message", JStr ("Text content too short for reliable extraction from "
                         ^^ fmt original_url ^^ " (" ^^ of_nat text_length ^^ " characters)."));
                      ("text_preview", JStr (take 100 text_content_stripped));
                      ("suggestion", JStr "The extracted text is too short to contain meaningful blog information. Try using different CSS selectors or browse a different URL.")])
        else
          llm_response <- ask (chat_with_ollama_for_tools O
                                 [SystemMsg (extraction_prompt O);
                                  UserMsg (extraction_user_prompt original_url source_keyword
                                             text_length text)]
                                 false) ;;
          match fst llm_response with
          | None => raise TypeError
          | Some extracted_json_string =>
              match decode_extraction extracted_json_string with
              | Ok (Some extracted_info_dict) =>
                  let sd := DataExtractor.structure_blog_info (py_repr O)
                              extracted_info_dict original_url in
                  let sd := if truthy (Json.get "source_keyword" sd) then sd
                            else Json.set "source_keyword" source_keyword sd in
                  append_record sd ;;;
                  ret (JDict
                    [("status", JStr "success");
                     ("message", JStr ("Successfully extracted and structured data for "
                                       ^^ fmt original_url ^^ "."));
                     ("extracted_blog_name", Json.get_default "blog_name" (JStr "Unknown") sd);
                     ("extraction_summary", JDict
                        [("blog_name", Json.get_default "blog_name" (JStr "Unknown") sd);
                         ("blog_id", Json.get_default "blog_id" (JStr "Unknown") sd);
                         ("recent_post_date",
                            Json.get_default "recent_post_date" (JStr "Not Found") sd);
                         ("total_posts", Json.get_default "total_posts" (JStr "Not Found") sd);
                         ("source_keyword",
                            Json.get_default "source_keyword" (JStr "unknown_keyword") sd)])])
              | Ok None =>
                  ret (JDict [("status", JStr "error");
                              ("message", JStr ("Failed to parse JSON from LLM's extraction for "
                                                ^^ fmt original_url ^^ "."));
                              ("raw_llm_output", raw_llm_output extracted_json_string)])
              | Raise _ =>
                  ret (JDict [("status", JStr "error");
                              ("message", JStr ("Error structuring extracted data for "
                                                ^^ fmt original_url ^^ ": error"));
                              ("raw_llm_output", raw_llm_output extracted_json_string)])
              end
          end
    | _ => raise AttributeError
    end.

(** The recursive call [self._execute_tool_call("extract_blog_fields_from_text", ...)]:
    the status line of the entry, then the extraction branch. *)
Definition execute_extract_call (tool_args : json) : M json :=
  emit (EvTool "extract_blog_fields_from_text" tool_args) ;;;
  exec_extract tool_args.

(** The classification written into [content_quality]. *)
Definition quality_status (text_length : nat) : string :=
  if 300 <=? text_length then "good"
  else if 100 <=? text_length then "short"
  else if 0 <? text_length then "very_short"
  else "empty".

Definition content_quality_warning (text_length : nat) : string :=
  if text_length =? 0 then "⚠️ 빈 컨텐츠가 추출되었습니다."
  else if text_length <? 100 then
    "⚠️ 매우 짧은 컨텐츠가 추출되었습니다 (" ^^ of_nat text_length ^^ " 문자)."
  else if text_length <? 300 then
    "⚠️ 짧은 컨텐츠가 추출되었습니다 (" ^^ of_nat text_length ^^ " 문자)."
  else EmptyString.

(** [len(text_content.strip()) if text_content else 0] *)
Definition measured_length (text_content : string) : nat :=
  String.length (strip text_content).

Definition opt_str (o : option string) (dflt : string) : json :=
  match o with Some s => JStr s | None => JStr dflt end.

(** The dictionary the fetch branch returns on success. *)
Definition fetch_result (url : string) (fields_to_extract : json) (raw : browse_result)
  : json :=
  let text_length :=
    measured_length (match br_text_content raw with Some t => t | None => EmptyString end) in
  let result :=
    [("status", JStr "success");
     ("url", JStr url);
     ("final_url", JStr (br_final_url raw));
     ("page_title", JStr (br_page_title raw));
     ("action_performed", br_action_performed raw);
     ("requested_fields", fields_to_extract);
     ("content_quality", JDict
        [("text_length", JInt (Z.of_nat text_length));
         ("quality_status", JStr (quality_status text_length));
         ("warning", JStr (content_quality_warning text_length));
         ("used_selector", opt_str (br_used_selector raw) "unknown")])] in
  match br_text_content raw with
  | Some t =>
      let result := Json.set "text_content" (JStr t) result in
      if text_length <? 100 then
        let result :=
          Json.set "content_extraction_note"
            (JStr ("추출된 컨텐츠가 매우 짧습니다 (" ^^ of_nat text_length
                   ^^ " 문자). 이 URL에서 다른 셀렉터를 시도하거나 다른 URL을 찾아보는 것을 고려하세요. 페이지 제목: '"
                   ^^ br_page_title raw ^^ "'")) result in
        if contains "blog.naver.com" url then
          JDict (Json.set "naver_blog_note"
                   (JStr "네이버 블로그에서 컨텐츠 추출이 어려울 수 있습니다. 모바일 버전이 아닌 데스크탑 버전 URL을 사용하고 있는지 확인하세요. 또는 다른 블로그 플랫폼을 시도해보세요.")
                   result)
        else JDict result
      else JDict result
  | None =>
      match br_message raw with
      | Some m => JDict (Json.set "message" (JStr m) result)
      | None => JDict result
      end
  end.

(** The arguments of the forced extraction call. *)
Definition escalation_args (u text_content : string) : json :=
  JDict [("text_content", JStr (take 5000 text_content)); ("original_url", JStr u)].

(** The forced call of the extraction tool on good content, inside its
    [try ... except Exception]. *)
Definition auto_extract (u text_content : string) : M unit :=
  try_except
    (execute_extract_call (escalation_args u text_content) ;;; ret tt)
    (fun _ => ret tt).

(** [raw_result.get("data", {}).get("text_content", "")] *)
Definition fetched_text (raw_result : browse_result) : string :=
  match br_text_content raw_result with
  | Some t => t
  | None => EmptyString
  end.

(** The fetch branch from [if raw_result["status"] == "success":] on. *)
Definition after_browse (u : string) (fields_to_extract : json) (raw_result : browse_result)
  : M json :=
  if String.eqb (br_status raw_result) "success" then
    let text_content := fetched_text raw_result in
    let text_length := measured_length text_content in
    (if text_length =? 0 then ret tt
     else if text_length <? 100 then ret tt
     else if text_length <? 300 then ret tt
     else auto_extract u text_content) ;;;
    ret (fetch_result u fields_to_extract raw_result)
  else
    ret (JDict [("status", JStr "error");
                ("url", JStr u);
                ("message", JStr ("웹사이트 접근 실패: " ^^ br_error_message raw_result))]).

(** [action_type], [selector] and [input_text] of [action_details]. *)
Definition action_of (action_details : json) : res (json * json * json) :=
  if truthy action_details then
    match dyn_get "action_type" action_details,
          dyn_get "selector" action_details,
          dyn_get "input_text" action_details with
    | Ok a, Ok s, Ok i => Ok (a, s, i)
    | _, _, _ => Raise AttributeError
    end
  else Ok (JNull, JNull, JNull).

(** [tool_name == "get_webpage_content_and_interact"] *)
Definition exec_fetch (tool_args : json) : M json :=
  url <- lift (dyn_get "url" tool_args) ;;
  fields_to_extract <- lift (dyn_get_default "fields_to_extract"
                               (JList (List.map JStr Settings.DATA_FIELDS_TO_EXTRACT))
                               tool_args) ;;
  action_details <- lift (dyn_get "action_details" tool_args) ;;
  if negb (truthy url) then
    ret (error_result "get_webpage_content_and_interact 도구에 'url' 인자가 필요합니다.")
  else
    match url with
    | JStr u =>
        if negb (startswith "http://" u || startswith "https://" u) then
          ret (JDict [("status", JStr "error");
                      ("url", url);
                      ("message", JStr ("Invalid URL format: " ^^ u
                                        ^^ ". URL must start with http:// or https://"))])
        else
          action <- lift (action_of action_details) ;;
          let '(action_type, selector, input_text) := action in
          raw_result <- browse_website u action_type selector input_text ;;
          after_browse u fields_to_extract raw_result
    | _ => raise AttributeError
    end.

(** [', '.join(v)] *)
Definition py_join (v : json) : res string :=
  let strs (l : list json) :=
    fold_right (fun x acc =>
                  match x, acc with
                  | JStr t, Some r => Some (t :: r)
                  | _, _ => None
                  end) (Some []) l in
  match v with
  | JList l =>
      match strs l with
      | Some r => Ok (String.concat ", " r)
      | None => Raise TypeError
      end
  | JStr t => Ok (String.concat ", "
                    (List.map (fun c => String c EmptyString) (list_ascii_of_string t)))
  | JDict d => Ok (String.concat ", " (List.map fst d))
  | _ => Raise TypeError
  end.

(** The text of [v[:n]] inside an f-string. *)
Definition py_slice_text (n : nat) (v : json) : res string :=
  match v with
  | JStr t => Ok (take n t)
  | JList l => Ok (py_repr O (JList (firstn n l)))
  | _ => Raise TypeError
  end.

(** [json.loads] of the [content] of a reply of the reasoning service, in
    a [try] that catches [json.JSONDecodeError] only: [None] is not a text. *)
Definition loads_reply (reply : option string) : res (option json) :=
  match reply with
  | None => Raise TypeError
  | Some t => Ok (json_loads O t)
  end.

Definition reply_text (reply : option string) : json :=
  match reply with Some t => JStr t | None => JNull end.

(** [tool_name == "analyze_blog_quality"] *)
Definition exec_analyze (tool_args : json) : M json :=
  blog_url <- lift (dyn_get "blog_url" tool_args) ;;
  content_sample <- lift (dyn_get_default "content_sample" (JStr EmptyString) tool_args) ;;
  evaluation_criteria <- lift (dyn_get_default "evaluation_criteria"
                                 (JList [JStr "authority"; JStr "freshness";
                                         JStr "depth"; JStr "relevance"]) tool_args) ;;
  if negb (truthy blog_url) then
    ret (error_result "analyze_blog_quality 도구에 'blog_url' 인자가 필요합니다.")
  else
    criteria <- lift (py_join evaluation_criteria) ;;
    sample <- lift (py_slice_text 1000 content_sample) ;;
    let quality_analysis_prompt :=
      "Analyze the quality of this blog based on the following criteria: " ^^ criteria ^^ nl
      ^^ "Blog URL: " ^^ fmt blog_url ^^ nl
      ^^ "Content Sample: " ^^ sample ^^ "..." ^^ nl
      ^^ "Return as JSON format." in
    quality_response <- ask (chat_with_ollama_for_tools O [UserMsg quality_analysis_prompt] false) ;;
    decoded <- lift (loads_reply (fst quality_response)) ;;
    match decoded with
    | Some quality_data =>
        recommendation <- lift (dyn_get_default "recommendation" (JStr "extract") quality_data) ;;
        ret (JDict [("status", JStr "success");
                    ("blog_url", blog_url);
                    ("quality_analysis", quality_data);
                    ("recommendation", recommendation)])
    | None =>
        ret (JDict [("status", JStr "success");
                    ("blog_url", blog_url);
                    ("quality_analysis",
                       JDict [("raw_analysis", reply_text (fst quality_response))]);
                    ("recommendation", JStr "extract")])
    end.

(** [tool_name == "smart_search_refinement"] *)
Definition exec_refine (tool_args : json) : M json :=
  original_keyword <- lift (dyn_get "original_keyword" tool_args) ;;
  search_results_quality <- lift (dyn_get "search_results_quality" tool_args) ;;
  target_blog_types <- lift (dyn_get_default "target_blog_types" (JList []) tool_args) ;;
  if negb (truthy original_keyword) || negb (truthy search_results_quality) then
    ret (error_result
           "smart_search_refinement 도구에 'original_keyword'와 'search_results_quality' 인자가 필요합니다.")
  else
    types <- lift (if truthy target_blog_types then py_join target_blog_types else Ok "Any") ;;
    let refinement_prompt :=
      "Original keyword: " ^^ fmt original_keyword ^^ nl
      ^^ "Search results quality: " ^^ fmt search_results_quality ^^ nl
      ^^ "Target blog types: " ^^ types ^^ nl
      ^^ "Return as JSON with 'suggested_keywords' array and 'search_strategy' description." in
    refinement_response <- ask (chat_with_ollama_for_tools O [UserMsg refinement_prompt] false) ;;
    decoded <- lift (loads_reply (fst refinement_response)) ;;
    match decoded with
    | Some refinement_data =>
        ret (JDict [("status", JStr "success");
                    ("original_keyword", original_keyword);
                    ("search_refinements", refinement_data)])
    | None =>
        ret (JDict [("status", JStr "success");
                    ("original_keyword", original_keyword);
                    ("search_refinements",
                       JDict [("raw_suggestions", reply_text (fst refinement_response))])])
    end.

(** [tool_name == "finalize_blog_data_collection"] *)
Definition exec_finalize (tool_args : json) : M json :=
  all_done <- lift (dyn_get_default "all_tasks_completed" (JBool false) tool_args) ;;
  quality_score <- lift (dyn_get_default "quality_score" (JInt 0) tool_args) ;;
  recommendations <- lift (dyn_get_default "recommendations" (JList []) tool_args) ;;
  collected <- get_collected ;;
  analysis <-
    match collected with
    | first :: _ =>
        let final_analysis_prompt :=
          "Analyze the collected blog data quality and completeness:" ^^ nl
          ^^ "Total blogs collected: " ^^ of_nat (List.length collected) ^^ nl
          ^^ "Sample data: " ^^ py_repr O (JDict first) ^^ nl
          ^^ "Return JSON with analysis results." in
        final_analysis <- ask (chat_with_ollama_for_tools O [UserMsg final_analysis_prompt] false) ;;
        decoded <- lift (loads_reply (fst final_analysis)) ;;
        match decoded with
        | Some analysis_data =>
            score <- lift (dyn_get_default "overall_success_rate" quality_score analysis_data) ;;
            ret (score, analysis_data)
        | None =>
            ret (quality_score, JDict [("raw_analysis", reply_text (fst final_analysis))])
        end
    | [] => ret (JInt 0, JDict [("message", JStr "수집된 데이터가 없습니다.")])
    end ;;
  let (computed_quality_score, analysis_data) := analysis in
  ret (JDict [("status", JStr "success");
              ("final_blog_count", JInt (Z.of_nat (List.length collected)));
              ("all_done_by_llm", all_done);
              ("quality_score", computed_quality_score);
              ("quality_analysis", analysis_data);
              ("recommendations", recommendations);
              ("message", JStr (match collected with
                                | [] => "수집된 블로그 데이터가 없습니다."
                                | _ => "모든 블로그 데이터가 성공적으로 저장되었습니다. 품질 점수: "
                                       ^^ fmt computed_quality_score ^^ "/10"
                                end))]).

(** [_execute_tool_call]: the status line of the entry, then the branch of
    the tool; the result is the dictionary whose [json.dumps] is returned. *)
Definition _execute_tool_call (tool_name : string) (tool_args : json) : M json :=
  emit (EvTool tool_name tool_args) ;;;
  if String.eqb tool_name "search_web_for_blogs" then exec_search tool_args
  else if String.eqb tool_name "get_webpage_content_and_interact" then exec_fetch tool_args
  else if String.eqb tool_name "extract_blog_fields_from_text" then exec_extract tool_args
  else if String.eqb tool_name "analyze_blog_quality" then exec_analyze tool_args
  else if String.eqb tool_name "smart_search_refinement" then exec_refine tool_args
  else if String.eqb tool_name "finalize_blog_data_collection" then exec_finalize tool_args
  else ret (error_result ("알 수 없는 도구 '" ^^ tool_name ^^ "' 입니다.")).

(** *** The Response Interpreter inside [run_agent_for_keywords] *)

(** The scan of [reversed(messages_history)] for the URL of the latest
    successful fetch; [None] is [JNull]. *)
Fixpoint recent_url (reversed_history : list message) : res json :=
  match reversed_history with
  | [] => Ok JNull
  | ToolMsg _ name c :: r =>
      if String.eqb name "get_webpage_content_and_interact" then
        match loads_content c with
        | None => recent_url r
        | Some tool_result =>
            match dyn_get "status" tool_result with
            | Raise e => Raise e
            | Ok status =>
                if is_str "success" status then
                  match dyn_get "url" tool_result, dyn_get "final_url" tool_result with
                  | Ok a, Ok b => Ok (dyn_or a b)
                  | Raise e, _ => Raise e
                  | _, Raise e => Raise e
                  end
                else recent_url r
            end
        end
      else recent_url r
  | _ :: r => recent_url r
  end.

(** Steps 1 and 2: a fenced json block, then the whole trimmed text when it
    starts with an opening brace. *)
Definition parse_steps_1_2 (content : string) : res json :=
  let content_cleaned_for_json := strip content in
  match
    match markdown_json content_cleaned_for_json with
    | Some json_str_from_content => robust_json_parse json_str_from_content
    | None => Ok JNull
    end
  with
  | Raise e => Raise e
  | Ok parsed =>
      if negb (truthy parsed) && startswith "{" content_cleaned_for_json
      then robust_json_parse content_cleaned_for_json
      else Ok parsed
  end.

Definition truncate_2000 (text_content : string) : string :=
  if 2000 <? String.length text_content
  then take 2000 text_content ^^ "...[TRUNCATED]"
  else text_content.

(** Step 3, entered when nothing was parsed and the text names the
    extraction tool: the special handling by regular expressions. *)
Definition narrow_fallback (content : string) (history : list message) (parsed : json)
  : res json :=
  match recent_url (rev history) with
  | Raise e => Raise e
  | Ok recent =>
      match text_match content with
      | Some g =>
          let text_content := truncate_2000 (unescape g) in
          let original_url :=
            match url_match content with
            | Some u => JStr u
            | None => if truthy recent then recent else JStr "unknown_url"
            end in
          Ok (JDict [("name", JStr "extract_blog_fields_from_text");
                     ("parameters", JDict [("text_content", JStr text_content);
                                           ("original_url", original_url)])])
      | None => Ok parsed
      end
  end.

Definition parse_content (content : string) (history : list message) : res json :=
  match parse_steps_1_2 content with
  | Raise e => Raise e
  | Ok parsed =>
      if negb (truthy parsed) && contains "extract_blog_fields_from_text" content
      then narrow_fallback content history parsed
      else Ok parsed
  end.

Definition is_valid_tool (name : json) : bool :=
  existsb (fun tool_spec => is_str tool_spec name) Settings.TOOLS_SPEC.

(** The tool calls made from a parsed object: one call when it has a
    [name] among the known tools and [parameters], none otherwise. *)
Definition calls_from_parsed (parsed : json) : res (list tool_call) :=
  if truthy parsed then
    match dyn_in "name" parsed with
    | Raise e => Raise e
    | Ok false => Ok []
    | Ok true =>
        match dyn_in "parameters" parsed with
        | Raise e => Raise e
        | Ok false => Ok []
        | Ok true =>
            match dyn_index "name" parsed, dyn_index "parameters" parsed with
            | Ok tool_name_from_content, Ok tool_args_from_content =>
                match tool_name_from_content with
                | JStr n =>
                    if is_valid_tool tool_name_from_content
                    then Ok [mk_call (CallFromContent tool_args_from_content) n
                               (ArgDumped tool_args_from_content)]
                    else Ok []
                | _ => Ok []
                end
            | Raise e, _ => Raise e
            | _, Raise e => Raise e
            end
        end
    end
  else Ok [].

(** What the loop takes as this turn's [tool_calls]. *)
Definition interpret (reply : option string) (tool_calls : list tool_call)
    (history : list message) : res (list tool_call) :=
  match tool_calls, reply with
  | [], Some content =>
      if String.eqb content EmptyString then Ok []
      else
        match parse_content content history with
        | Raise e => Raise e
        | Ok parsed => calls_from_parsed parsed
        end
  | _, _ => Ok tool_calls
  end.

(** *** The orchestration loop *)

(** [for tool_call in tool_calls]: [Continue] when the list is exhausted,
    [Return v] when a successful finalize ends the run. *)
Fixpoint dispatch (tool_calls : list tool_call) : M flow :=
  match tool_calls with
  | [] => ret Continue
  | tool_call :: rest =>
      let tool_id := tc_id tool_call in
      let tool_name := tc_name tool_call in
      match loads_arguments (tc_arguments tool_call) with
      | None =>
          append_message
            (ToolMsg tool_id tool_name
               (TextContent ("오류: 도구 '" ^^ tool_name ^^ "'의 인자 파싱 실패."))) ;;;
          dispatch rest
      | Some tool_args =>
          tool_result <- _execute_tool_call tool_name tool_args ;;
          append_message (ToolMsg tool_id tool_name (JsonContent tool_result)) ;;;
          emit (EvToolResult tool_name) ;;;
          status <- lift (dyn_get "status" tool_result) ;;
          if String.eqb tool_name "finalize_blog_data_collection" && is_str "success" status
          then
            collected <- get_collected ;;
            match collected with
            | _ :: _ =>
                output_filepath <- save_data collected "agent_blog_data" ;;
                _maybe_close_browser true ;;;
                ret (Return output_filepath)
            | [] =>
                _maybe_close_browser true ;;;
                ret (Return None)
            end
          else dispatch rest
      end
  end.

(** One round of [for turn_count in range(max_turns)]. *)
Definition turn (turn_count : nat) : M flow :=
  emit (EvTurn turn_count) ;;;
  history <- get_history ;;
  assistant_response_message <- ask (chat_with_ollama_for_tools O history true) ;;
  append_message (AssistantMsg (fst assistant_response_message)
                    (snd assistant_response_message)) ;;;
  history <- get_history ;;
  tool_calls <- lift (interpret (fst assistant_response_message)
                        (snd assistant_response_message) history) ;;
  match tool_calls with
  | [] => ret Break
  | _ => dispatch tool_calls
  end.

(** The [for] loop: [remaining] rounds are left, the next is [turn_count]. *)
Fixpoint turns (remaining : nat) (turn_count : nat) : M flow :=
  match remaining with
  | 0 => ret Continue
  | S k =>
      f <- turn turn_count ;;
      match f with
      | Continue => turns k (S turn_count)
      | Break => ret Break
      | Return v => ret (Return v)
      end
  end.

(** The body of the outer [try].  The module never imports [subprocess],
    so the handler of a failed first acquisition fails on the name
    [subprocess.PIPE]; its own [except Exception] turns that into a
    [RuntimeError].  After the loop, by exhaustion or by [break], the
    status line of the turn cap is written. *)
Definition try_body (max_turns : nat) : M flow :=
  try_except _ensure_browser
    (fun _ => raise (RuntimeError "Playwright 환경 설정 실패: name 'subprocess' is not defined")) ;;;
  f <- turns max_turns 0 ;;
  match f with
  | Return v => ret (Return v)
  | _ => emit EvCapReached ;;; ret f
  end.

(** What [set.update(found_urls)] inserts before it stops: the members of
    an iterable, up to the first one that cannot be hashed. *)
Definition hashable (v : json) : bool :=
  match v with
  | JList _ | JDict _ => false
  | _ => true
  end.

Fixpoint hashable_prefix (l : list json) : list json :=
  match l with
  | [] => []
  | v :: r => if hashable v then v :: hashable_prefix r else []
  end.

Definition insertions (found_urls : json) : list json :=
  match found_urls with
  | JList l => hashable_prefix l
  | JStr t => List.map (fun c => JStr (String c EmptyString)) (list_ascii_of_string t)
  | JDict d => List.map (fun kv => JStr (fst kv)) d
  | _ => []
  end.

(** The scan of the history for the URLs of successful searches: every
    insertion into [urls_found_in_history], in order. *)
Fixpoint urls_in_history (history : list message) : res (list json) :=
  match history with
  | [] => Ok []
  | ToolMsg _ name c :: r =>
      if String.eqb name "search_web_for_blogs" then
        match loads_content c with
        | None => urls_in_history r
        | Some search_tool_result =>
            match dyn_get "status" search_tool_result,
                  dyn_get "found_urls" search_tool_result with
            | Ok status, Ok found_urls =>
                match urls_in_history r with
                | Raise e => Raise e
                | Ok more =>
                    if is_str "success" status && truthy found_urls
                    then Ok (insertions found_urls ++ more)
                    else Ok more
                end
            | Raise e, _ => Raise e
            | _, Raise e => Raise e
            end
        end
      else urls_in_history r
  | _ :: r => urls_in_history r
  end.

(** The record written for a URL that was found and never extracted. *)
Definition placeholder (url_item : json) : record :=
  [("blog_name", JStr "추출 실패 - URL만 확보");
   ("url", url_item);
   ("blog_id", JStr "extraction-failed-url-only");
   ("post_title", JStr "N/A");
   ("recent_post_date", JStr "N/A");
   ("total_posts", JStr "N/A")].

Definition set_collected (data : list record) : M unit :=
  fun st => (Ok tt, mk_st (world st) (browser st) (messages_history st) data (log st)).

(** The code after the [try] statement. *)
Definition after_try : M (option string) :=
  collected <- get_collected ;;
  match collected with
  | _ :: _ => save_data collected "agent_blog_data_partial"
  | [] =>
      history <- get_history ;;
      found <- lift (urls_in_history history) ;;
      match set_order O found with
      | [] => ret None
      | urls_found_in_history =>
          let data := List.map placeholder urls_found_in_history in
          set_collected data ;;;
          save_data data "agent_blog_data_urls_only"
      end
  end.

Definition user_query (initial_keywords : list string) : string :=
  "다음 키워드에 대한 블로그 정보를 수집해주세요: " ^^ String.concat ", " initial_keywords
  ^^ ". 각 블로그에서 " ^^ String.concat ", " Settings.DATA_FIELDS_TO_EXTRACT
  ^^ " 정보를 추출해야 합니다.".

(** [run_agent_for_keywords] with the turn cap as a parameter.  A run starts
    from a fresh history and an empty store; browser and world are those
    of the state it is given. *)
Definition run_agent (max_turns : nat) (initial_keywords : list string) : M (option string) :=
  fun st0 =>
    let st1 := mk_st (world st0) (browser st0)
                 [SystemMsg (improved_system_prompt O); UserMsg (user_query initial_keywords)]
                 [] (log st0) in
    let (outcome, st2) := try_body max_turns st1 in
    let (_, st3) := _maybe_close_browser true st2 in
    match outcome with
    | Ok (Return v) => (Ok v, st3)
    | Raise (RuntimeError _) => (Ok None, st3)
    | Ok _ | Raise _ => after_try st3
    end.

Definition run_agent_for_keywords (initial_keywords : list string) : M (option string) :=
  run_agent Settings.AGENT_MAX_TURNS initial_keywords.

(** A computation leaves the observation [p] of the state as it was. *)
Definition preserves {X A} (p : St W -> X) (m : M A) : Prop :=
  forall st, p (snd (m st)) = p st.

(** A computation of the loop forces one release when it ends in the
    [return] of a successful finalize, and none otherwise. *)
Definition counts (m : M flow) : Prop :=
  forall st, forced_of (snd (m st)) = forced_of st + returned (fst (m st)).

End WithOracles.

(** Readers of a tool result. *)
Definition status_of (r : json) : json :=
  match r with
  | JDict d => Json.get "status" d
  | _ => JNull
  end.

Definition quality_of (r : json) : json :=
  match r with
  | JDict d =>
      match Json.get "content_quality" d with
      | JDict q => Json.get "quality_status" q
      | _ => JNull
      end
  | _ => JNull
  end.

(** The call the narrow fallback synthesizes from the text value [g] of
    the [text_content] pattern. *)
Definition synthesized_call (content : string) (recent : json) (g : string) : tool_call :=
  let args :=
    JDict [("text_content", JStr (truncate_2000 (unescape g)));
           ("original_url",
              match url_match content with
              | Some u => JStr u
              | None => if truthy recent then recent else JStr "unknown_url"
              end)] in
  mk_call (CallFromContent args) "extract_blog_fields_from_text" (ArgDumped args).

(** The fields of a placeholder record. *)
Definition is_placeholder (r : record) : Prop :=
  Json.get "blog_id" r = JStr "extraction-failed-url-only"
  /\ Json.get "blog_name" r = JStr "추출 실패 - URL만 확보"
  /\ Json.get "post_title" r = JStr "N/A"
  /\ Json.get "recent_post_date" r = JStr "N/A"
  /\ Json.get "total_posts" r = JStr "N/A".

(** *** What a history holds, for the two scans of the loop *)

(** A tool turn of the fetch tool whose content decodes to the dictionary
    [d] with the status [success]. *)
Definition successful_fetch {W} (O : Oracles W) (m : message) (d : list (string * json))
  : Prop :=
  exists id c,
    m = ToolMsg id "get_webpage_content_and_interact" c
    /\ loads_content O c = Some (JDict d)
    /\ is_str "success" (Json.get "status" d) = true.

(** A turn that is no successful fetch: any turn but a tool turn of the
    fetch tool, or such a turn whose content does not decode, or decodes
    to a dictionary with another status.  (A content that decodes to
    something else than a dictionary makes the scan fail.) *)
Definition no_fetch {W} (O : Oracles W) (m : message) : Prop :=
  match m with
  | ToolMsg _ name c =>
      name = "get_webpage_content_and_interact" ->
      match loads_content O c with
      | None => True
      | Some (JDict d) => is_str "success" (Json.get "status" d) = false
      | Some _ => False
      end
  | _ => True
  end.

(** [latest_fetch_url O history recent]: [recent] is what the latest
    successful fetch of [history] recorded as its address, its [url] or,
    when that is empty, its [final_url]; it is [None] when the history
    holds no successful fetch. *)
Inductive latest_fetch_url {W} (O : Oracles W) : list message -> json -> Prop :=
| no_fetch_at_all (history : list message) :
    Forall (no_fetch O) history ->
    latest_fetch_url O history JNull
| fetch_then_none (before : list message) (m : message) (d : list (string * json))
    (after : list message) :
    successful_fetch O m d ->
    Forall (no_fetch O) after ->
    latest_fetch_url O (before ++ m :: after)
      (dyn_or (Json.get "url" d) (Json.get "final_url" d)).

(** A tool turn of the search tool whose content decodes to a dictionary
    with the status [success] and the non-empty list [urls] of addresses
    under [found_urls]. *)
Definition successful_search {W} (O : Oracles W) (m : message) (urls : list string) : Prop :=
  exists id c d,
    m = ToolMsg id "search_web_for_blogs" c
    /\ loads_content O c = Some (JDict d)
    /\ is_str "success" (Json.get "status" d) = true
    /\ Json.get "found_urls" d = JList (List.map JStr urls)
    /\ urls <> [].

(** A turn that is no successful search: any turn but a tool turn of the
    search tool, or such a turn whose content does not decode, or decodes
    to a dictionary with another status or without addresses. *)
Definition no_search {W} (O : Oracles W) (m : message) : Prop :=
  match m with
  | ToolMsg _ name c =>
      name = "search_web_for_blogs" ->
      match loads_content O c with
      | None => True
      | Some (JDict d) =>
          is_str "success" (Json.get "status" d) && truthy (Json.get "found_urls" d) = false
      | Some _ => False
      end
  | _ => True
  end.

(** [search_urls O history us]: [us] lists the addresses of the successful
    searches of [history], search after search, in the order of the
    history. *)
Inductive search_urls {W} (O : Oracles W) : list message -> list string -> Prop :=
| search_urls_end : search_urls O [] []
| search_urls_found (m : message) (urls : list string) (rest : list message)
    (more : list string) :
    successful_search O m urls ->
    search_urls O rest more ->
    search_urls O (m :: rest) (urls ++ more)
| search_urls_pass (m : message) (rest : list message) (more : list string) :
    no_search O m ->
    search_urls O rest more ->
    search_urls O (m :: rest) more.

(** An outcome of the [try] block after which the run goes on to save what
    it has: anything but the [return] of a finalize and a [RuntimeError]. *)
Definition falls_through (outcome : res flow) : bool :=
  match outcome with
  | Ok (Return _) => false
  | Raise (RuntimeError _) => false
  | _ => true
  end.

End Pipeline.

(** ** Scripted collaborators, for concrete runs *)
Module Scenario.
Import PyStr Pipeline.

(** A [set] of strings that iterates in the order of first insertion. *)
Fixpoint distinct (seen : list string) (l : list json) : list json :=
  match l with
  | [] => []
  | JStr t :: r =>
      if existsb (String.eqb t) seen then distinct seen r
      else JStr t :: distinct (t :: seen) r
  | v :: r => v :: distinct seen r
  end.

(** The world is the number of turns of the reasoning service so far.
    [script n] is its reply at turn [n]; [sub_reply] is its reply to the
    prompts the tools send; [decode] is [json.loads] on outside text;
    [hits] is what every search finds; [page] is what every fetch sees. *)
Definition scripted (script : nat -> option string * list tool_call)
    (sub_reply : option string) (decode : string -> option json)
    (hits : list string) (page : browse_result) : Oracles nat :=
  mk_oracles nat
    decode
    (fun _ => LitInvalid)
    (fun _ => "?")
    (fun _ => None)
    (distinct [])
    "system prompt"
    "extraction prompt"
    (fun w => (true, w))
    (fun _ _ _ _ w => (page, w))
    (fun _ tools w => if tools then (script w, S w) else ((sub_reply, []), w))
    (fun _ w => (hits, w))
    (fun _ filename_prefix w => (Some (filename_prefix ^^ ".csv"), w)).

Definition start : St nat := mk_st 0 BrowserController.init [] [] [].

Definition no_decode : string -> option json := fun _ => None.

Definition page_with (text : string) : browse_result :=
  mk_browse "success" "https://example.com/blog1" "Example" (JStr "get_content")
    (Some text) None None EmptyString.

Fixpoint repeat_char (c : ascii) (n : nat) : string :=
  match n with
  | 0 => EmptyString
  | S k => String c (repeat_char c k)
  end.

Definition structured (name : string) (args : json) : option string * list tool_call :=
  (None, [mk_call (CallId "call_1") name (ArgDumped args)]).

(** The service only ever writes text that asks for nothing. *)
Definition idle : Oracles nat :=
  scripted (fun _ => (Some "I am still thinking about it.", [])) None no_decode []
    (page_with EmptyString).

(** The service asks for the finalize tool at its first turn. *)
Definition finalizing : Oracles nat :=
  scripted (fun _ => structured "finalize_blog_data_collection"
                       (JDict [("collected_blogs_summary", JList []);
                               ("all_tasks_completed", JBool true)]))
    None no_decode [] (page_with EmptyString).

(** The service asks for an extraction; asked to extract, it writes no
    text at all. *)
Definition extract_args : json :=
  JDict [("text_content", JStr (repeat_char "a" 60));
         ("original_url", JStr "https://example.com/blog1")].

Definition silent_extraction : Oracles nat :=
  scripted (fun _ => structured "extract_blog_fields_from_text" extract_args)
    None no_decode [] (page_with EmptyString).

(** The service asks for a fetch; the page holds [text]; asked to extract,
    the service writes no text at all. *)
Definition fetch_args : json :=
  JDict [("url", JStr "https://example.com/blog1");
         ("fields_to_extract", JList [JStr "blog_name"])].

Definition fetching (text : string) : Oracles nat :=
  scripted (fun _ => structured "get_webpage_content_and_interact" fetch_args)
    None no_decode [] (page_with text).

(** The service asks for a search at every turn; the search finds [hits]. *)
Definition searching (hits : list string) : Oracles nat :=
  scripted (fun _ => structured "search_web_for_blogs" (JDict [("keyword", JStr "example")]))
    None no_decode hits (page_with EmptyString).

(** The end-to-end scenario of the specification: a search, then a fetch
    of 400 characters, then nothing more; asked to extract, the service
    answers with a name. *)
Definition answer : string := "{name: Test Blog}".

Definition end_to_end : Oracles nat :=
  scripted (fun n => match n with
                     | 0 => structured "search_web_for_blogs" (JDict [("keyword", JStr "example")])
                     | 1 => structured "get_webpage_content_and_interact" fetch_args
                     | _ => (Some "Done.", [])
                     end)
    (Some answer)
    (fun t => if String.eqb t answer then Some (JDict [("blog_name", JStr "Test Blog")]) else None)
    ["https://example.com/blog1"] (page_with (repeat_char "a" 400)).

(** The text a recovered extraction request is read from. *)
Definition request_without_url : string :=
  "extract_blog_fields_from_text " ^^ dq ^^ "text_content" ^^ dq ^^ ": " ^^ dq ^^ "hello world".

Definition request_with_url : string :=
  request_without_url ^^ dq ^^ ", " ^^ dq ^^ "url" ^^ dq ^^ ": " ^^ dq
  ^^ "https://example.com/blog1" ^^ dq.

(** The state a run starts its [try] block from. *)
Definition fresh (O : Oracles nat) : St nat :=
  mk_st 0 BrowserController.init
    [SystemMsg (improved_system_prompt O); UserMsg (user_query ["example"])] [] [].

(** The state the code after the loop starts from when one search found
    [hits] and the cap was one turn. *)
Definition after_one_search (hits : list string) : St nat :=
  snd (_maybe_close_browser true
         (snd (try_body (searching hits) 1 (fresh (searching hits))))).

(** The service asks for a fetch; asked to extract, it writes text that is
    no JSON. *)
Definition garbled (text : string) : Oracles nat :=
  scripted (fun _ => structured "get_webpage_content_and_interact" fetch_args)
    (Some "I could not find anything.") no_decode [] (page_with text).

(** The service asks for a search at its first two turns and stops at the
    third; the first search finds the first two addresses, the second the
    last two. *)
Definition blog1 : string := "https://example.com/blog1".
Definition blog2 : string := "https://example.com/blog2".
Definition blog3 : string := "https://example.com/blog3".

Definition searching_twice : Oracles nat :=
  mk_oracles nat
    no_decode
    (fun _ => LitInvalid)
    (fun _ => "?")
    (fun _ => None)
    (distinct [])
    "system prompt"
    "extraction prompt"
    (fun w => (true, w))
    (fun _ _ _ _ w => (page_with EmptyString, w))
    (fun _ tools w =>
       if tools then
         (match w with
          | 0 | 1 => structured "search_web_for_blogs" (JDict [("keyword", JStr "example")])
          | _ => (Some "Done.", [])
          end, S w)
       else ((None, []), w))
    (fun _ w => (match w with 1 => [blog1; blog2] | _ => [blog2; blog3] end, w))
    (fun _ filename_prefix w => (Some (filename_prefix ^^ ".csv"), w)).

(** A history in which a page was fetched, and a later fetch failed. *)
Definition fetched_history : list message :=
  [SystemMsg "system prompt";
   UserMsg "find blogs";
   ToolMsg (CallId "call_1") "get_webpage_content_and_interact"
     (JsonContent (JDict [("status", JStr "success"); ("url", JStr blog1);
                          ("final_url", JStr blog2)]));
   AssistantMsg (Some "One more page.") [];
   ToolMsg (CallId "call_2") "get_webpage_content_and_interact"
     (JsonContent (JDict [("status", JStr "error"); ("url", JStr blog3)]))].

End Scenario.

(** ** Observations of a run *)
Module Observers.
Import Pipeline.

(** The number of events of a log that [f] selects. *)
Definition count_of {W} (f : event -> bool) (st : St W) : nat :=
  List.length (List.filter f (log st)).

(** A call of the writer on an empty list. *)
Definition is_empty_save (e : event) : bool :=
  match e with
  | EvSave [] _ => true
  | _ => false
  end.

(** A selection of events that takes none of those the tools, the session
    and the writer on a non-empty list log. *)
Definition quiet (f : event -> bool) : Prop :=
  (forall n a, f (EvTool n a) = false)
  /\ (forall n, f (EvToolResult n) = false)
  /\ f EvAcquire = false
  /\ (forall b, f (EvRelease b) = false)
  /\ f EvCapReached = false
  /\ (forall r l p, f (EvSave (r :: l) p) = false).

(** A computation only ever appends to the store of collected records. *)
Definition extends_store {W A} (m : @M W A) : Prop :=
  forall st, exists l,
    final_structured_blog_data (snd (m st)) = final_structured_blog_data st ++ l.

(** A computation leaves the store alone or appends one record to it. *)
Definition adds_at_most_one {W A} (m : @M W A) : Prop :=
  forall st,
    final_structured_blog_data (snd (m st)) = final_structured_blog_data st
    \/ exists r,
         final_structured_blog_data (snd (m st)) = final_structured_blog_data st ++ [r].

(** The characters a recovered value cannot hold. *)
Definition not_quote (c : ascii) : bool := negb (Ascii.eqb c (ascii_of_nat 34)).

(** The characters the host part of an identifier cannot hold. *)
Definition host_id_char (c : ascii) : bool :=
  negb (Ascii.eqb c "." || Ascii.eqb c "-" || Ascii.eqb c "/").

(** [found_value is not None and found_value != ""] for every field of a
    record. *)
Definition complete (sd : list (string * json)) : Prop :=
  forall f, In f Settings.DATA_FIELDS_TO_EXTRACT ->
            exists v, Json.lookup f sd = Some v /\ DataExtractor.usable v = true.

(** An assistant turn from which the keyword recovery takes nothing. *)
Definition names_no_keyword {W} (O : Oracles W) (m : message) : Prop :=
  match m with
  | AssistantMsg _ calls => keyword_in_calls O calls = Ok None
  | _ => True
  end.

End Observers.

(** ** [core/web_searcher.py] *)
Module WebSearcher.
Import PyStr.

Definition WebSearchError : exn := OtherError "WebSearchError".

(** The dictionary built for one hit [r] of the provider. *)
Definition result_item (r : list (string * json)) : list (string * json) :=
  [("title", Json.get_default "title" (JStr "No title") r);
   ("url", Json.get_default "href" (JStr EmptyString) r);
   ("snippet", Json.get_default "body" (JStr "No snippet") r)].

(** [result_item["url"] and result_item["url"].startswith(('http://', 'https://'))];
    a true value that is no [str] has no [startswith]. *)
Definition valid_url (url : json) : res bool :=
  if truthy url then
    match url with
    | JStr u => Ok (startswith "http://" u || startswith "https://" u)
    | _ => Raise AttributeError
    end
  else Ok false.

(** [for r in ddgs_results]: a hit that is no dictionary has no [get]. *)
Fixpoint collect (ddgs_results : list json) : res (list (list (string * json))) :=
  match ddgs_results with
  | [] => Ok []
  | JDict r :: rest =>
      let item := result_item r in
      match valid_url (Json.get "url" item) with
      | Raise e => Raise e
      | Ok keep =>
          match collect rest with
          | Raise e => Raise e
          | Ok results => Ok (if keep then item :: results else results)
          end
      end
  | _ :: _ => Raise AttributeError
  end.

Section WithProvider.
Context {W : Type}.

(** [ddgs_text] is [DDGS().text(query, ...)] with the fixed options of the
    call, on the state [W] of the outside world. *)
Variable ddgs_text : string -> W -> res json * W.

(** [WebSearcher.search_links] as it is written, under its two decorators
    (their module [utils.error_handler] is not among the sources).  Every
    exception inside the [try] block becomes a [WebSearchError]; the test
    of the query stands before the block. *)
Definition search_links (query : json) (w : W) : res (list (list (string * json))) * W :=
  if negb (truthy query) then (Ok [], w)
  else
    match query with
    | JStr q =>
        if String.eqb (strip q) EmptyString then (Ok [], w)
        else
          let (answer, w') := ddgs_text q w in
          match answer with
          | Raise _ => (Raise WebSearchError, w')
          | Ok ddgs_results =>
              if truthy ddgs_results then
                match ddgs_results with
                | JList l =>
                    match collect l with
                    | Ok results => (Ok results, w')
                    | Raise _ => (Raise WebSearchError, w')
                    end
                | _ => (Raise WebSearchError, w')
                end
              else (Ok [], w')
          end
    | _ => (Raise AttributeError, w)
    end.

End WithProvider.

(** [[res["url"] for res in search_results if res.get("url")]] of the
    search branch of the pipeline, on the hits of [search_links]. *)
Definition urls_for_pipeline (search_results : list (list (string * json))) : list json :=
  List.map (Json.get "url")
    (List.filter (fun item => truthy (Json.get "url" item)) search_results).

Definition web_url (u : string) : bool :=
  startswith "http://" u || startswith "https://" u.

End WebSearcher.

(** ** [main.py]: the keywords of the text area *)
Module MainUI.
Import PyStr.

(** [s.split(sep)] for a one-character separator. *)
Fixpoint split (sep : ascii) (s : string) : list string :=
  match s with
  | EmptyString => [EmptyString]
  | String c r =>
      if Ascii.eqb c sep then EmptyString :: split sep r
      else
        match split sep r with
        | piece :: pieces => String c piece :: pieces
        | [] => [String c EmptyString]
        end
  end.

(** [[kw.strip() for kw in line.split(',') if kw.strip()]] *)
Definition keywords_from_line (line : string) : list string :=
  List.map strip
    (List.filter (fun kw => negb (String.eqb (strip kw) EmptyString)) (split "," line)).

(** The loop over [keywords_input_area.strip().split('\n')]. *)
Definition keywords_list (keywords_input_area : string) : list string :=
  flat_map keywords_from_line (split newline (strip keywords_input_area)).

(** What a press of the start button leads to. *)
Inductive action : Type :=
| WarnNoInput
| WarnNoValidKeyword
| StartAgent (keywords : list string).

Definition on_start (keywords_input_area : string) : action :=
  if String.eqb (strip keywords_input_area) EmptyString then WarnNoInput
  else
    match keywords_list keywords_input_area with
    | [] => WarnNoValidKeyword
    | keywords => StartAgent keywords
    end.

(** A keyword as the agent receives it. *)
Definition clean (kw : string) : Prop :=
  kw <> EmptyString /\ strip kw = kw
  /\ forallb (fun c => negb (Ascii.eqb c ",")) kw = true
  /\ forallb (fun c => negb (Ascii.eqb c newline)) kw = true.

End MainUI.

(** ** [core/browser_controller.py]: the text of a page *)
Module PageText.
Import PyStr.

(** What a document answers to [find_elements(By.CSS_SELECTOR, selector)]
    followed by [elements[0].text]: the text of the first match, [None]
    when nothing matches, or the failure of one of the two.  The document
    is taken not to change while it is read. *)
Definition document : Type := string -> res (option string).

Definition primary_selectors : list string :=
  [".se-main-container"; "#postViewArea"; ".se_component"].

(** The loop over [primary_selectors]. *)
Fixpoint best_primary (page : document) (selectors : list string) (body_text : string)
  : string :=
  match selectors with
  | [] => body_text
  | selector :: rest =>
      match page selector with
      | Ok (Some text) =>
          let content := strip text in
          if (50 <=? String.length content)
             && (String.length body_text <? String.length content)
          then best_primary page rest content
          else best_primary page rest body_text
      | _ => best_primary page rest body_text
      end
  end.

(** [_extract_naver_blog_content]: the function ends after its first
    stage, so without a sufficient text it returns [None]. *)
Definition _extract_naver_blog_content (page : document) : option string :=
  let body_text := best_primary page primary_selectors EmptyString in
  if 50 <=? String.length (strip body_text) then Some body_text else None.

(** The loop of [_try_extract_from_iframes]; a frame is its document, or
    the failure to switch to it.  Inside the loop a [None] from the
    extraction fails on [strip], which the handler of the loop catches. *)
Fixpoint scan_frames (frames : list (res document)) (best_content : string) : string :=
  match frames with
  | [] => best_content
  | frame :: rest =>
      match frame with
      | Raise _ => scan_frames rest best_content
      | Ok page =>
          match _extract_naver_blog_content page with
          | None => scan_frames rest best_content
          | Some iframe_content =>
              let best :=
                if String.length (strip best_content) <? String.length (strip iframe_content)
                then iframe_content else best_content in
              if 200 <? String.length (strip best) then best
              else scan_frames rest best
          end
      end
  end.

Definition _try_extract_from_iframes (frames : res (list (res document))) : string :=
  match frames with
  | Ok l => scan_frames l EmptyString
  | Raise _ => EmptyString
  end.

#[local] Set Warnings "-abstract-large-number".
Definition max_len : nat := 6000.

(** [body_text[:max_len] + f"... (content truncated at {max_len} chars)"]
    when the text is longer than [max_len]. *)
Definition limit (body_text : string) : string :=
  if max_len <? String.length body_text
  then take max_len body_text ^^ "... (content truncated at " ^^ of_nat max_len ^^ " chars)"
  else body_text.

(** The branch of [_sync_browse_website] taken when no action is asked
    for, up to the value stored as [text_content]; [url] is the address
    after the rewrite of a mobile address, [body] the text of the [body] element.  A raised
    exception is what the handler of the function turns into the error
    envelope. *)
Definition page_text (url : string) (page : document)
    (frames : res (list (res document))) (body : res string) : res string :=
  match
    if contains "blog.naver.com" url then
      match _extract_naver_blog_content page with
      | None => Raise AttributeError
      | Some body_text =>
          if String.length (strip body_text) <? 50 then
            let iframe_content := _try_extract_from_iframes frames in
            if negb (String.eqb iframe_content EmptyString)
               && (String.length (strip body_text) <? String.length (strip iframe_content))
            then Ok iframe_content
            else Ok body_text
          else Ok body_text
      end
    else body
  with
  | Ok body_text => Ok (limit body_text)
  | Raise e => Raise e
  end.

End PageText.

(** ** Further scripted collaborators *)
Module Situations.
Import PyStr Pipeline Scenario.

(** No browser can be started; the reasoning service is silent. *)
Definition no_browser : Oracles nat :=
  mk_oracles nat
    no_decode
    (fun _ => LitInvalid)
    (fun _ => "?")
    (fun _ => None)
    (distinct [])
    "system prompt"
    "extraction prompt"
    (fun w => (false, w))
    (fun _ _ _ _ w => (page_with EmptyString, w))
    (fun _ _ w => ((None, []), w))
    (fun _ w => ([], w))
    (fun _ filename_prefix w => (Some (filename_prefix ^^ ".csv"), w)).

(** A history in which the assistant asked for a search, and the search
    was answered. *)
Definition searched_history : list message :=
  [SystemMsg "system prompt";
   UserMsg "find blogs";
   AssistantMsg None
     [mk_call (CallId "call_1") "search_web_for_blogs"
        (ArgDumped (JDict [("keyword", JStr "python blog")]))];
   ToolMsg (CallId "call_1") "search_web_for_blogs"
     (JsonContent (JDict [("status", JStr "success"); ("found_urls", JList [])]))].

End Situations.

(* ================================================================== *)
(** * Properties *)
(* ================================================================== *)

Module BrowserFacts.
Import BrowserController.






(** C5 (failing input).  A forced release takes the first branch of
    [_maybe_close_browser], so the clamp of the [elif] is never reached:
    on a fresh controller one forced release leaves the count at -1, and
    so does the sequence acquire, forced release, forced release, which is
    what a run ending in a successful finalize issues. *)
Theorem C5_forced_release_goes_negative :
  user_count (run [Release true] init) = (-1)%Z
  /\ user_count (run [Acquire true; Release true; Release true] init) = (-1)%Z.
Proof. split; reflexivity. Qed.

End BrowserFacts.

Module PyStrFacts.
Import PyStr.

Lemma prefix_cons (a c : ascii) (p r : string) :
  String.prefix (String a p) (String c r) = Ascii.eqb a c && String.prefix p r.
Proof.
  simpl. destruct (ascii_dec a c) as [->|N].
  - now rewrite Ascii.eqb_refl.
  - apply Ascii.eqb_neq in N. now rewrite N.
Qed.

Lemma prefix_empty (s : string) : String.prefix EmptyString s = true.
Proof. now destruct s. Qed.

(** Replacing one character by another is a character-wise map. *)
Lemma replace_char (a b : ascii) (s : string) :
  replace (String a EmptyString) (String b EmptyString) s
  = PyStr.map (fun c => if Ascii.eqb a c then b else c) s.
Proof.
  unfold replace. induction s as [|c r IH]; [reflexivity|].
  cbn [replace_aux PyStr.map String.length Nat.sub].
  rewrite prefix_cons, prefix_empty, andb_true_r.
  destruct (Ascii.eqb a c); cbn; now rewrite IH.
Qed.

(** A text without an occurrence of [old] is left alone. *)
Lemma replace_absent (old new s : string) :
  contains old s = false -> replace old new s = s.
Proof.
  unfold replace. induction s as [|c r IH]; intros H; [reflexivity|].
  cbn [contains] in H. apply orb_false_elim in H as [H1 H2].
  cbn [replace_aux]. rewrite H1. now rewrite IH.
Qed.

Lemma filter_map_same (p : ascii -> bool) (f : ascii -> ascii) (s : string) :
  (forall c, p (f c) = p c) ->
  (forall c, p c = true -> f c = c) ->
  filter p (PyStr.map f s) = filter p s.
Proof.
  intros Hp Hf. induction s as [|c r IH]; [reflexivity|].
  cbn. rewrite Hp. destruct (p c) eqn:E; [rewrite (Hf c E)|]; now rewrite IH.
Qed.

Lemma map_map (f g : ascii -> ascii) (s : string) :
  PyStr.map g (PyStr.map f s) = PyStr.map (fun c => g (f c)) s.
Proof. induction s as [|c r IH]; [reflexivity|]. cbn. now rewrite IH. Qed.

Lemma map_ext_forallb (p : ascii -> bool) (f g : ascii -> ascii) (s : string) :
  (forall c, p c = true -> f c = g c) ->
  forallb p s = true -> PyStr.map f s = PyStr.map g s.
Proof.
  intros H. induction s as [|c r IH]; [reflexivity|].
  cbn. intros E. apply andb_prop in E as [E1 E2].
  now rewrite (H c E1), IH.
Qed.

Lemma forallb_drop (p : ascii -> bool) (n : nat) (s : string) :
  forallb p s = true -> forallb p (drop n s) = true.
Proof.
  revert s. induction n as [|n IH]; intros [|c r] H; try assumption.
  cbn in *. apply andb_prop in H as [_ H]. now apply IH.
Qed.

End PyStrFacts.

Module DataExtractorFacts.
Import PyStr PyStrFacts DataExtractor.

Lemma startswith_www (h : string) :
  startswith "www." h = true -> h = "www." ^^ drop 4 h.
Proof.
  unfold startswith. intros H.
  do 4 (destruct h as [|? h]; [discriminate H|];
        rewrite prefix_cons in H; apply andb_prop in H as [E H];
        apply Ascii.eqb_eq in E; subst).
  reflexivity.
Qed.

Lemma replace_www_prefix (r : string) :
  replace "www." EmptyString ("www." ^^ r) = replace "www." EmptyString r.
Proof.
  unfold replace.
  change ("www." ^^ r) with (String "w" (String "w" (String "w" (String "." r)))).
  cbn [replace_aux]. rewrite !prefix_cons, prefix_empty. reflexivity.
Qed.

Lemma remove_www (h : string) :
  contains "www." (strip_www_prefix h) = false ->
  replace "www." EmptyString h = strip_www_prefix h.
Proof.
  unfold strip_www_prefix. destruct (startswith "www." h) eqn:E; intros H.
  - rewrite (startswith_www h E) at 1. rewrite replace_www_prefix.
    now apply replace_absent.
  - now apply replace_absent.
Qed.

Lemma dots_and_dashes (h : string) :
  forallb plain_host_char h = true ->
  replace "-" "_" (replace "." "_" h) = PyStr.map underscore_nonalnum h.
Proof.
  intros H. rewrite !replace_char, map_map.
  apply (map_ext_forallb plain_host_char); [|assumption].
  intros c Hc. unfold plain_host_char in Hc. unfold underscore_nonalnum.
  destruct (isalnum c) eqn:A.
  - destruct (Ascii.eqb "." c) eqn:D.
    + apply Ascii.eqb_eq in D. subst c. discriminate.
    + destruct (Ascii.eqb "-" c) eqn:D2; [|reflexivity].
      apply Ascii.eqb_eq in D2. subst c. discriminate.
  - cbn in Hc. apply orb_prop in Hc as [Hc|Hc].
    + apply orb_prop in Hc as [Hc|Hc]; apply Ascii.eqb_eq in Hc; subst c; reflexivity.
    + apply Ascii.eqb_eq in Hc. subst c. reflexivity.
Qed.

Lemma slug_ignores_spaces (n : string) :
  filter isalnum (replace " " "_" n) = filter isalnum n.
Proof.
  rewrite replace_char. apply filter_map_same.
  - intros c. destruct (Ascii.eqb " " c) eqn:E; [|reflexivity].
    apply Ascii.eqb_eq in E. now subst c.
  - intros c Hc. destruct (Ascii.eqb " " c) eqn:E; [|reflexivity].
    apply Ascii.eqb_eq in E. subst c. discriminate.
Qed.

(** C9 (amended).  The identifier is a function of the URL and the name;
    whenever the host of the URL is made of alphanumeric characters, dots,
    dashes and underscores and holds no [www.] beyond a leading one, the
    code's derivation equals the reference derivation (scheme stripped,
    leading [www.] stripped, non-alphanumeric host characters replaced by
    an underscore, slug of the first 20 alphanumeric characters of the
    lowercased name appended). *)
Theorem C9_derivation_agrees_on_plain_hosts (url blog_name : string) :
  forallb plain_host_char (host_of url) = true ->
  contains "www." (strip_www_prefix (host_of url)) = false ->
  _derive_blog_id (JStr url) (JStr blog_name) = derive_blog_id_str url blog_name
  /\ derive_blog_id_str url blog_name = reference_blog_id url blog_name.
Proof.
  intros Hplain Hwww. split.
  - unfold _derive_blog_id, derive_blog_id_str. cbn [truthy].
    now destruct (String.eqb blog_name EmptyString).
  - unfold derive_blog_id_str, reference_blog_id, blog_id_part, name_part.
    fold (host_of url).
    rewrite (remove_www _ Hwww), slug_ignores_spaces.
    rewrite dots_and_dashes; [reflexivity|].
    unfold strip_www_prefix. destruct (startswith "www." (host_of url)).
    + now apply forallb_drop.
    + assumption.
Qed.

(** The theorem of C9 on a plain host with a leading [www.]. *)
Lemma C9_witness :
  _derive_blog_id (JStr "https://www.example.com/blog1") (JStr "Test Blog")
  = derive_blog_id_str "https://www.example.com/blog1" "Test Blog"
  /\ derive_blog_id_str "https://www.example.com/blog1" "Test Blog"
     = reference_blog_id "https://www.example.com/blog1" "Test Blog".
Proof.
  apply (C9_derivation_agrees_on_plain_hosts "https://www.example.com/blog1" "Test Blog");
    reflexivity.
Defined.

(** C9 (as stated) fails: a port keeps its colon, and a [www.] inside the
    host is deleted, where the reference derivation writes underscores. *)
Lemma C9_counterexample :
  _derive_blog_id (JStr "http://example.com:8080/x") (JStr "My Blog")
    = "example_com:8080_myblog"
  /\ reference_blog_id "http://example.com:8080/x" "My Blog" = "example_com_8080_myblog"
  /\ _derive_blog_id (JStr "http://example.com:8080/x") (JStr "My Blog")
     <> reference_blog_id "http://example.com:8080/x" "My Blog"
  /\ _derive_blog_id (JStr "https://blog.www.example.com/") (JStr "My Blog")
     = "blog_example_com_myblog"
  /\ reference_blog_id "https://blog.www.example.com/" "My Blog"
     = "blog_www_example_com_myblog".
Proof. repeat split; try reflexivity. vm_compute. discriminate. Qed.

(** *** The alias table *)

Lemma lookup_set_same (k : string) (v : json) (d : list (string * json)) :
  lookup k (Json.set k v d) = Some v.
Proof.
  induction d as [|[k' v'] r IH]; cbn.
  - now rewrite String.eqb_refl.
  - destruct (String.eqb k' k) eqn:E; cbn.
    + now rewrite String.eqb_refl.
    + now rewrite E.
Qed.

Lemma lookup_set_other (k k' : string) (v : json) (d : list (string * json)) :
  k <> k' -> lookup k' (Json.set k v d) = lookup k' d.
Proof.
  intros N. induction d as [|[k0 v0] r IH]; cbn.
  - apply String.eqb_neq in N. now rewrite N.
  - destruct (String.eqb k0 k) eqn:E; cbn.
    + apply String.eqb_eq in E. subst k0.
      apply String.eqb_neq in N. now rewrite N.
    + now rewrite IH.
Qed.

Lemma map_field_same repr raw sd t srcs :
  in_fields t = true ->
  lookup t (map_field repr raw sd (t, srcs))
  = if usable (find_source raw srcs) then Some (coerced repr t (find_source raw srcs))
    else lookup t sd.
Proof.
  intros F. unfold map_field, coerced. rewrite F. cbn [negb].
  destruct (usable (find_source raw srcs)); [|reflexivity].
  destruct (String.eqb t "total_posts"); apply lookup_set_same.
Qed.

Lemma map_field_other repr raw sd t srcs k :
  t <> k -> lookup k (map_field repr raw sd (t, srcs)) = lookup k sd.
Proof.
  intros N. unfold map_field.
  destruct (negb (in_fields t)); [reflexivity|].
  destruct (usable (find_source raw srcs)); [|reflexivity].
  destruct (String.eqb t "total_posts"); now apply lookup_set_other.
Qed.

Lemma fold_map_field_other repr raw table sd k :
  ~ In k (List.map fst table) ->
  lookup k (fold_left (map_field repr raw) table sd) = lookup k sd.
Proof.
  revert sd. induction table as [|[t srcs] tl IH]; intros sd N; [reflexivity|].
  cbn [fold_left]. rewrite IH.
  - apply map_field_other. intros ->. apply N. now left.
  - intros I. apply N. now right.
Qed.

Lemma fold_map_field_same repr raw table sd t srcs :
  NoDup (List.map fst table) ->
  In (t, srcs) table ->
  in_fields t = true ->
  lookup t (fold_left (map_field repr raw) table sd)
  = if usable (find_source raw srcs) then Some (coerced repr t (find_source raw srcs))
    else lookup t sd.
Proof.
  revert sd. induction table as [|[t0 s0] tl IH]; intros sd D I F; [destruct I|].
  cbn [List.map fst] in D. inversion D as [|? ? Hnot Htl]; subst.
  cbn [fold_left]. destruct I as [E|I].
  - inversion E; subst. rewrite fold_map_field_other by assumption.
    now apply map_field_same.
  - rewrite (IH _ Htl I F).
    rewrite map_field_other; [reflexivity|].
    intros ->. apply Hnot. apply (in_map fst) in I. exact I.
Qed.

Lemma filled_idem (o : option json) : filled (filled o) = filled o.
Proof.
  destruct o as [v|]; cbn; [|reflexivity].
  destruct (usable v) eqn:E; cbn; [now rewrite E | reflexivity].
Qed.

Lemma fill_missing_lookup sd f k :
  lookup k (fill_missing sd f)
  = if String.eqb f k then filled (lookup k sd) else lookup k sd.
Proof.
  unfold fill_missing. destruct (String.eqb f k) eqn:E.
  - apply String.eqb_eq in E. subst f.
    destruct (lookup k sd) as [v|] eqn:L; cbn.
    + destruct (usable v); [exact L | apply lookup_set_same].
    + apply lookup_set_same.
  - apply String.eqb_neq in E.
    destruct (lookup f sd) as [v|]; [destruct (usable v)|];
      try reflexivity; now apply lookup_set_other.
Qed.

Lemma fold_fill_missing fields sd k :
  lookup k (fold_left fill_missing fields sd)
  = if existsb (fun f => String.eqb f k) fields then filled (lookup k sd) else lookup k sd.
Proof.
  revert sd. induction fields as [|f fs IH]; intros sd; [reflexivity|].
  cbn [fold_left existsb]. rewrite IH, fill_missing_lookup.
  destruct (String.eqb f k); cbn [orb].
  - destruct (existsb _ fs); [apply filled_idem | reflexivity].
  - reflexivity.
Qed.

Lemma find_source_unusable raw srcs :
  (forall k x, In k srcs -> lookup k raw = Some x -> usable x = false) ->
  usable (find_source raw srcs) = false.
Proof.
  induction srcs as [|k r IH]; intros H; [reflexivity|].
  cbn [find_source]. destruct (lookup k raw) as [x|] eqn:L.
  - apply (H k x); [now left | exact L].
  - apply IH. intros k' x' I. apply H. now right.
Qed.

Lemma table_keys_nodup : NoDup (List.map fst field_mapping_table).
Proof.
  cbn. repeat constructor; cbn; intros H;
    repeat (destruct H as [H|H]; [discriminate H|]); exact H.
Qed.

Lemma table_keys_are_fields t srcs :
  In (t, srcs) field_mapping_table ->
  in_fields t = true /\ t <> "blog_id"
  /\ existsb (fun f => String.eqb f t) Settings.DATA_FIELDS_TO_EXTRACT = true.
Proof.
  cbn. intros H.
  repeat (destruct H as [H|H];
          [inversion H; subst; repeat split; try reflexivity; discriminate|]).
  destruct H.
Qed.

(** The value of an aliased field after [structure_blog_info], from the
    value found by the scan of its source keys. *)
Lemma structured_field repr d blog_url t srcs :
  In (t, srcs) field_mapping_table ->
  lookup t (structure_blog_info repr (JDict d) blog_url)
  = filled (if usable (find_source d srcs)
            then Some (coerced repr t (find_source d srcs))
            else lookup t (initial_structure blog_url)).
Proof.
  intros I. destruct (table_keys_are_fields t srcs I) as (F & Nid & Ex).
  unfold structure_blog_info.
  rewrite fold_fill_missing, Ex.
  rewrite lookup_set_other by (intros E; apply Nid; now symmetry).
  now rewrite (fold_map_field_same repr d _ _ t srcs table_keys_nodup I F).
Qed.

Lemma initial_lookup blog_url t srcs :
  In (t, srcs) field_mapping_table ->
  lookup t (initial_structure blog_url)
  = Some (if String.eqb t "blog_url" then blog_url else NOT_FOUND).
Proof.
  cbn. intros H.
  repeat (destruct H as [H|H]; [inversion H; subst; reflexivity|]).
  destruct H.
Qed.

(** [find_source] is the value under the first source key that is present. *)
Lemma find_source_first raw before k after x :
  (forall k', In k' before -> lookup k' raw = None) ->
  lookup k raw = Some x ->
  find_source raw (before ++ k :: after) = x.
Proof.
  induction before as [|b r IH]; intros Hb Hk; cbn [app find_source].
  - now rewrite Hk.
  - rewrite (Hb b) by now left. apply IH; [|exact Hk].
    intros k' I. apply Hb. now right.
Qed.

(** C8 (amended).  For every field [t] of the alias table with its ordered
    source keys [srcs], and every decoded mapping [d], let [v] be the value
    under the first source key present in [d].  If [v] is non-empty the
    field is [v] (its [str] for [total_posts]).  If no source key holds a
    non-empty value the field is the sentinel [Not Found], except
    [blog_url], which keeps the URL the record was requested for. *)
Theorem C8_field_from_first_present_alias
    (repr : json -> string) (d : list (string * json)) (blog_url : json)
    (t : string) (srcs : list string) :
  In (t, srcs) field_mapping_table ->
  let sd := structure_blog_info repr (JDict d) blog_url in
  let v := find_source d srcs in
  (usable v = true -> t <> "total_posts" -> Json.get t sd = v)
  /\ (usable v = true -> t = "total_posts" -> py_str repr v <> EmptyString ->
      Json.get t sd = JStr (py_str repr v))
  /\ ((forall k x, In k srcs -> lookup k d = Some x -> usable x = false) ->
      t <> "blog_url" -> Json.get t sd = NOT_FOUND)
  /\ ((forall k x, In k srcs -> lookup k d = Some x -> usable x = false) ->
      t = "blog_url" -> usable blog_url = true -> Json.get t sd = blog_url).
Proof.
  intros I sd v. subst sd v. unfold Json.get.
  rewrite (structured_field repr d blog_url t srcs I), (initial_lookup blog_url t srcs I).
  repeat split.
  - intros U N. rewrite U. unfold coerced.
    apply String.eqb_neq in N. rewrite N. cbn [filled]. now rewrite U.
  - intros U E N. rewrite U. unfold coerced. subst t. cbn [String.eqb Ascii.eqb Bool.eqb].
    cbn [filled usable]. apply String.eqb_neq in N. now rewrite N.
  - intros H N. rewrite (find_source_unusable d srcs H).
    apply String.eqb_neq in N. now rewrite N.
  - intros H E U. rewrite (find_source_unusable d srcs H). subst t.
    cbn [String.eqb Ascii.eqb Bool.eqb filled]. now rewrite U.
Qed.

(** The theorem of C8 on a mapping that names the blog by [title]. *)
Lemma C8_witness :
  Json.get "blog_name"
    (structure_blog_info (fun _ => "?")
       (JDict [("title", JStr "Test Blog"); ("post_count", JInt 42)])
       (JStr "https://example.com/blog1"))
  = JStr "Test Blog".
Proof.
  refine (proj1 (C8_field_from_first_present_alias (fun _ => "?")
                   [("title", JStr "Test Blog"); ("post_count", JInt 42)]
                   (JStr "https://example.com/blog1")
                   "blog_name"
                   ["blog_name"; "title"; "site_title"; "website_name"; "name"; "blog_title"]
                   _) _ _).
  - left. reflexivity.
  - reflexivity.
  - discriminate.
Defined.

(** C8 (as stated) fails for [blog_url]: with no accepted source key in
    the mapping the field is the requested URL, not the sentinel. *)
Lemma C8_counterexample :
  let sd := structure_blog_info (fun _ => "?") (JDict []) (JStr "https://example.com/blog1") in
  find_source [] ["blog_url"; "url"; "website_url"; "site_url"; "link"] = JNull
  /\ Json.get "blog_url" sd = JStr "https://example.com/blog1"
  /\ Json.get "blog_url" sd <> NOT_FOUND.
Proof. repeat split. discriminate. Qed.

End DataExtractorFacts.

Module PipelineFacts.
Import PyStr Pipeline.

Section Facts.
Context {W : Type} (O : Oracles W).

(** *** What computations leave untouched *)

Lemma preserves_ret {X A} (p : St W -> X) (a : A) : preserves p (ret a).
Proof. intros st. reflexivity. Qed.

Lemma preserves_raise {X A} (p : St W -> X) (e : exn) : preserves p (raise (A:=A) e).
Proof. intros st. reflexivity. Qed.

Lemma preserves_lift {X A} (p : St W -> X) (r : res A) : preserves p (lift r).
Proof. intros st. reflexivity. Qed.

Lemma preserves_get_history {X} (p : St W -> X) : preserves p get_history.
Proof. intros st. reflexivity. Qed.

Lemma preserves_get_collected {X} (p : St W -> X) : preserves p get_collected.
Proof. intros st. reflexivity. Qed.

Lemma preserves_bind {X A B} (p : St W -> X) (m : @M W A) (f : A -> @M W B) :
  preserves p m -> (forall a, preserves p (f a)) -> preserves p (bind m f).
Proof.
  intros Hm Hf st. unfold bind. specialize (Hm st).
  destruct (m st) as [[a|e] st'] eqn:E; cbn in Hm.
  - now rewrite Hf.
  - exact Hm.
Qed.

Lemma preserves_try_except {X A} (p : St W -> X) (m : @M W A) (h : exn -> @M W A) :
  preserves p m -> (forall e, preserves p (h e)) -> preserves p (try_except m h).
Proof.
  intros Hm Hh st. unfold try_except. specialize (Hm st).
  destruct (m st) as [[a|e] st'] eqn:E; cbn in Hm.
  - exact Hm.
  - now rewrite Hh.
Qed.

(** The log. *)
Lemma log_ask {A} (f : W -> A * W) : preserves log (ask f).
Proof. intros st. unfold ask. now destruct (f (world st)). Qed.

Lemma log_append_record (r : record) : preserves log (append_record (W:=W) r).
Proof. intros st. reflexivity. Qed.

Lemma log_append_message (m : message) : preserves log (append_message (W:=W) m).
Proof. intros st. reflexivity. Qed.

Lemma log_set_collected (d : list record) : preserves log (set_collected (W:=W) d).
Proof. intros st. reflexivity. Qed.

(** The history. *)
Lemma history_ask {A} (f : W -> A * W) : preserves messages_history (ask f).
Proof. intros st. unfold ask. now destruct (f (world st)). Qed.

Lemma history_append_record (r : record) :
  preserves messages_history (append_record (W:=W) r).
Proof. intros st. reflexivity. Qed.

Lemma history_emit (e : event) : preserves messages_history (emit (W:=W) e).
Proof. intros st. reflexivity. Qed.

Lemma history_ensure : preserves messages_history (_ensure_browser O).
Proof.
  intros st. unfold _ensure_browser.
  destruct (BrowserController.driver (browser st)); [|destruct (launch_driver O (world st))];
    destruct (BrowserController._ensure_browser _ _); reflexivity.
Qed.

Lemma history_close (f : bool) : preserves messages_history (_maybe_close_browser (W:=W) f).
Proof. intros st. reflexivity. Qed.

(** The number of forced releases. *)
Lemma forced_app (l : list event) (e : event) :
  List.length (List.filter is_forced_release (l ++ [e]))
  = List.length (List.filter is_forced_release l) + (if is_forced_release e then 1 else 0).
Proof.
  rewrite filter_app, length_app. cbn [List.filter].
  now destruct (is_forced_release e).
Qed.

Lemma forced_of_log {A} (m : @M W A) : preserves log m -> preserves forced_of m.
Proof. intros H st. unfold forced_of. now rewrite H. Qed.

Lemma forced_emit (e : event) :
  is_forced_release e = false -> preserves forced_of (emit (W:=W) e).
Proof.
  intros H st. unfold forced_of, emit. cbn [snd log].
  rewrite forced_app, H. apply Nat.add_0_r.
Qed.

Lemma forced_ensure : preserves forced_of (_ensure_browser O).
Proof.
  intros st. unfold _ensure_browser, forced_of.
  destruct (BrowserController.driver (browser st)); [|destruct (launch_driver O (world st))];
    destruct (BrowserController._ensure_browser _ _); cbn [snd log];
    rewrite forced_app; apply Nat.add_0_r.
Qed.

Lemma forced_release_unforced : preserves forced_of (_maybe_close_browser (W:=W) false).
Proof.
  intros st. unfold _maybe_close_browser, forced_of. cbn [snd log].
  rewrite forced_app. apply Nat.add_0_r.
Qed.

Lemma forced_release_forced (st : St W) :
  forced_of (snd (_maybe_close_browser true st)) = forced_of st + 1.
Proof. unfold _maybe_close_browser, forced_of. cbn [snd log]. apply forced_app. Qed.

Create HintDb pres.
Hint Resolve preserves_ret preserves_raise preserves_lift preserves_get_history
  preserves_get_collected log_ask log_append_record log_append_message log_set_collected
  history_ask history_append_record history_emit history_ensure history_close
  forced_ensure forced_release_unforced : pres.
Hint Extern 1 (preserves forced_of (emit _)) => (apply forced_emit; reflexivity) : pres.
Hint Extern 2 (preserves forced_of _) => (apply forced_of_log; solve [auto with pres]) : pres.

Ltac pres_step :=
  match goal with
  | |- preserves _ (bind _ _) => apply preserves_bind; [|intros]
  | |- preserves _ (try_except _ _) => apply preserves_try_except; [|intros]
  | |- preserves _ (if ?b then _ else _) => destruct b
  | |- preserves _ (match ?x with _ => _ end) => destruct x
  | |- preserves _ (let (_, _) := ?x in _) => destruct x
  | |- preserves _ _ => solve [auto with pres]
  end.

(** The extraction branch writes nothing to the log and no message. *)
Lemma log_exec_extract (tool_args : json) : preserves log (exec_extract O tool_args).
Proof. unfold exec_extract. repeat pres_step. Qed.

Lemma history_exec_extract (tool_args : json) :
  preserves messages_history (exec_extract O tool_args).
Proof. unfold exec_extract. repeat pres_step. Qed.

Lemma log_exec_search (tool_args : json) : preserves log (exec_search O tool_args).
Proof. unfold exec_search. repeat pres_step. Qed.

Lemma history_exec_search (tool_args : json) :
  preserves messages_history (exec_search O tool_args).
Proof. unfold exec_search. repeat pres_step. Qed.

Lemma log_exec_analyze (tool_args : json) : preserves log (exec_analyze O tool_args).
Proof. unfold exec_analyze. repeat pres_step. Qed.

Lemma history_exec_analyze (tool_args : json) :
  preserves messages_history (exec_analyze O tool_args).
Proof. unfold exec_analyze. repeat pres_step. Qed.

Lemma log_exec_refine (tool_args : json) : preserves log (exec_refine O tool_args).
Proof. unfold exec_refine. repeat pres_step. Qed.

Lemma history_exec_refine (tool_args : json) :
  preserves messages_history (exec_refine O tool_args).
Proof. unfold exec_refine. repeat pres_step. Qed.

Lemma log_exec_finalize (tool_args : json) : preserves log (exec_finalize O tool_args).
Proof. unfold exec_finalize. repeat pres_step. Qed.

Lemma history_exec_finalize (tool_args : json) :
  preserves messages_history (exec_finalize O tool_args).
Proof. unfold exec_finalize. repeat pres_step. Qed.

Hint Resolve log_exec_extract history_exec_extract log_exec_search history_exec_search
  log_exec_analyze history_exec_analyze log_exec_refine history_exec_refine
  log_exec_finalize history_exec_finalize : pres.

Lemma forced_execute_extract_call (tool_args : json) :
  preserves forced_of (execute_extract_call O tool_args).
Proof. unfold execute_extract_call. repeat pres_step. Qed.

Lemma history_execute_extract_call (tool_args : json) :
  preserves messages_history (execute_extract_call O tool_args).
Proof. unfold execute_extract_call. repeat pres_step. Qed.

Hint Resolve forced_execute_extract_call history_execute_extract_call : pres.

Lemma forced_exec_fetch (tool_args : json) : preserves forced_of (exec_fetch O tool_args).
Proof.
  unfold exec_fetch, after_browse, auto_extract, browse_website. repeat pres_step.
Qed.

Lemma history_exec_fetch (tool_args : json) :
  preserves messages_history (exec_fetch O tool_args).
Proof.
  unfold exec_fetch, after_browse, auto_extract, browse_website. repeat pres_step.
Qed.

Hint Resolve forced_exec_fetch history_exec_fetch : pres.

(** No tool forces a release, and no tool writes a message. *)
Lemma forced_execute_tool_call (tool_name : string) (tool_args : json) :
  preserves forced_of (_execute_tool_call O tool_name tool_args).
Proof. unfold _execute_tool_call. repeat pres_step. Qed.

Lemma history_execute_tool_call (tool_name : string) (tool_args : json) :
  preserves messages_history (_execute_tool_call O tool_name tool_args).
Proof. unfold _execute_tool_call. repeat pres_step. Qed.

Lemma forced_save_data (data : list record) (filename_prefix : string) :
  preserves forced_of (save_data O data filename_prefix).
Proof. unfold save_data. repeat pres_step. Qed.

Lemma forced_after_try : preserves forced_of (after_try O).
Proof.
  pose proof forced_save_data.
  unfold after_try. repeat pres_step; auto.
Qed.

Lemma save_data_returns (data : list record) (filename_prefix : string) (st : St W) :
  exists v, fst (save_data O data filename_prefix st) = Ok v.
Proof.
  unfold save_data, bind, emit, ask, ret. destruct data as [|r l]; cbn.
  - now exists None.
  - destruct (write_file O _ _ _) as [v w]. now exists v.
Qed.

(** *** The forced extraction *)

(** The forced call always comes back, and leaves the state the extraction
    reached. *)
Lemma auto_extract_spec (u text_content : string) (st : St W) :
  auto_extract O u text_content st
  = (Ok tt, snd (execute_extract_call O (escalation_args u text_content) st)).
Proof.
  unfold auto_extract, try_except, bind.
  destruct (execute_extract_call O _ st) as [[r|e] st1]; reflexivity.
Qed.

(** It logs its entry and nothing else. *)
Lemma execute_extract_call_log (tool_args : json) (st : St W) :
  log (snd (execute_extract_call O tool_args st))
  = log st ++ [EvTool "extract_blog_fields_from_text" tool_args].
Proof.
  unfold execute_extract_call, bind, emit.
  match goal with
  | |- context [exec_extract O tool_args ?s] =>
      pose proof (log_exec_extract tool_args s) as H;
      destruct (exec_extract O tool_args s) as [[r|e] st1]
  end; exact H.
Qed.

(** *** The fetch branch *)

Lemma quality_status_bands (n : nat) :
  (n = 0 -> quality_status n = "empty")
  /\ (1 <= n <= 99 -> quality_status n = "very_short")
  /\ (100 <= n <= 299 -> quality_status n = "short")
  /\ (300 <= n -> quality_status n = "good").
Proof.
  unfold quality_status.
  destruct (300 <=? n) eqn:E3; [apply Nat.leb_le in E3 | apply Nat.leb_gt in E3];
  destruct (100 <=? n) eqn:E1; [apply Nat.leb_le in E1 | apply Nat.leb_gt in E1
                               | apply Nat.leb_le in E1 | apply Nat.leb_gt in E1];
  destruct (0 <? n) eqn:E0; [apply Nat.ltb_lt in E0 | apply Nat.ltb_ge in E0
                            | apply Nat.ltb_lt in E0 | apply Nat.ltb_ge in E0
                            | apply Nat.ltb_lt in E0 | apply Nat.ltb_ge in E0
                            | apply Nat.ltb_lt in E0 | apply Nat.ltb_ge in E0];
  repeat split; intros; try reflexivity; lia.
Qed.

Lemma fetch_result_readers (u : string) (fields : json) (raw : browse_result) :
  status_of (fetch_result u fields raw) = JStr "success"
  /\ quality_of (fetch_result u fields raw)
     = JStr (quality_status (measured_length (fetched_text raw))).
Proof.
  unfold fetch_result, fetched_text.
  destruct (br_text_content raw) as [t|].
  - destruct (measured_length t <? 100); [destruct (contains "blog.naver.com" u)|];
      split; reflexivity.
  - destruct (br_message raw); split; reflexivity.
Qed.

(** The log and the result of the fetch branch after a successful visit. *)
Lemma after_browse_success (u : string) (fields : json) (raw : browse_result) (st : St W) :
  br_status raw = "success" ->
  after_browse O u fields raw st
  = (Ok (fetch_result u fields raw),
     if 300 <=? measured_length (fetched_text raw)
     then snd (execute_extract_call O (escalation_args u (fetched_text raw)) st)
     else st).
Proof.
  intros Hs. unfold after_browse. rewrite Hs. cbn [String.eqb Ascii.eqb Bool.eqb].
  set (n := measured_length (fetched_text raw)).
  destruct (300 <=? n) eqn:E3.
  - apply Nat.leb_le in E3.
    replace (n =? 0) with false by (symmetry; apply Nat.eqb_neq; lia).
    replace (n <? 100) with false by (symmetry; apply Nat.ltb_ge; lia).
    replace (n <? 300) with false by (symmetry; apply Nat.ltb_ge; lia).
    unfold bind. now rewrite auto_extract_spec.
  - apply Nat.leb_gt in E3.
    destruct (n =? 0); [reflexivity|].
    destruct (n <? 100); [reflexivity|].
    replace (n <? 300) with true by (symmetry; apply Nat.ltb_lt; lia).
    reflexivity.
Qed.

(** C3 (amended).  After a successful visit the fetch branch returns its
    result with the classification of the text by its length after
    trimming surrounding blanks: 0 is [empty], 1 to 99 is [very_short],
    100 to 299 is [short], 300 and more is [good]; and the log gains
    exactly one entry of the extraction tool, with the first 5000
    characters of the fetched text as its text argument, when that length
    is at least 300, and no entry at all otherwise. *)
Theorem C3_fetch_classifies_trimmed_length
    (u : string) (fields : json) (raw : browse_result) (st : St W) :
  br_status raw = "success" ->
  let n := String.length (strip (fetched_text raw)) in
  let out := after_browse O u fields raw st in
  fst out = Ok (fetch_result u fields raw)
  /\ quality_of (fetch_result u fields raw) = JStr (quality_status n)
  /\ (n = 0 -> quality_status n = "empty")
  /\ (1 <= n <= 99 -> quality_status n = "very_short")
  /\ (100 <= n <= 299 -> quality_status n = "short")
  /\ (300 <= n -> quality_status n = "good")
  /\ log (snd out)
     = log st ++ (if 300 <=? n
                  then [EvTool "extract_blog_fields_from_text"
                          (JDict [("text_content", JStr (take 5000 (fetched_text raw)));
                                  ("original_url", JStr u)])]
                  else []).
Proof.
  intros Hs n out. subst out.
  rewrite (after_browse_success u fields raw st Hs).
  fold (measured_length (fetched_text raw)) in n. cbn [fst snd].
  split; [reflexivity|].
  split; [apply fetch_result_readers|].
  destruct (quality_status_bands n) as (B0 & B1 & B2 & B3).
  repeat (split; [assumption|]).
  fold n. destruct (300 <=? n).
  - apply execute_extract_call_log.
  - now rewrite app_nil_r.
Qed.

(** C10.  When the fetched text is good, the fetch branch returns the same
    successful result, with its content-quality entry, whatever the forced
    extraction did: an error result and a raised exception alike leave it
    untouched; only the state the extraction reached is carried on. *)
Theorem C10_extraction_outcome_does_not_reach_fetch_result
    (u : string) (fields : json) (raw : browse_result) (st st1 : St W)
    (outcome : res json) :
  br_status raw = "success" ->
  300 <= measured_length (fetched_text raw) ->
  execute_extract_call O (escalation_args u (fetched_text raw)) st = (outcome, st1) ->
  after_browse O u fields raw st = (Ok (fetch_result u fields raw), st1)
  /\ status_of (fetch_result u fields raw) = JStr "success"
  /\ quality_of (fetch_result u fields raw) = JStr "good".
Proof.
  intros Hs Hn He.
  rewrite (after_browse_success u fields raw st Hs).
  apply Nat.leb_le in Hn. rewrite Hn, He. cbn [snd].
  split; [reflexivity|].
  destruct (fetch_result_readers u fields raw) as [S Q].
  split; [exact S|]. rewrite Q. unfold quality_status. now rewrite Hn.
Qed.

(** The fetch branch of the dispatcher, from its entry to the visit: with
    a [str] URL of a recognized scheme and usable action details it logs
    its entry, visits the page and goes on with [after_browse]. *)
Lemma execute_fetch_reaches_browse
    (d : list (string * json)) (u : string) (action : json * json * json) (st : St W) :
  Json.get "url" d = JStr u ->
  startswith "http://" u || startswith "https://" u = true ->
  action_of (Json.get "action_details" d) = Ok action ->
  _execute_tool_call O "get_webpage_content_and_interact" (JDict d) st
  = bind (browse_website O u (fst (fst action)) (snd (fst action)) (snd action))
      (after_browse O u
         (Json.get_default "fields_to_extract"
            (JList (List.map JStr Settings.DATA_FIELDS_TO_EXTRACT)) d))
      (snd (emit (EvTool "get_webpage_content_and_interact" (JDict d)) st)).
Proof.
  intros Hu Hs Ha.
  assert (Ht : truthy (JStr u) = true).
  { destruct u; [discriminate Hs | reflexivity]. }
  unfold _execute_tool_call. unfold bind at 1. cbn [emit fst snd].
  cbn [String.eqb Ascii.eqb Bool.eqb andb].
  unfold exec_fetch, bind, lift, dyn_get, dyn_get_default.
  rewrite Hu, Ht, Hs, Ha. cbn [negb].
  destruct action as [[a s] i]. reflexivity.
Qed.

(** *** The narrow fallback of the Response Interpreter *)

Lemma names_tool_not_empty (content : string) :
  contains "extract_blog_fields_from_text" content = true ->
  String.eqb content EmptyString = false.
Proof. destruct content; [discriminate | reflexivity]. Qed.

(** The scan for the latest fetched address passes over the turns that
    are no successful fetch. *)
Lemma recent_url_skip (later rest : list message) :
  Forall (no_fetch O) later -> recent_url O (later ++ rest) = recent_url O rest.
Proof.
  induction 1 as [|m later Hm _ IH]; [reflexivity|].
  cbn [app recent_url]. destruct m as [t|t|t calls|id name c]; try exact IH.
  cbn [no_fetch] in Hm.
  destruct (String.eqb name "get_webpage_content_and_interact") eqn:E; [|exact IH].
  apply String.eqb_eq in E. specialize (Hm E).
  destruct (loads_content O c) as [v|]; [|exact IH].
  destruct v as [| | | | |d]; try contradiction.
  cbn [dyn_get]. now rewrite Hm.
Qed.

(** The scan finds the address of the latest successful fetch of the
    history, and [None] when there is none. *)
Lemma recent_url_spec (history : list message) (recent : json) :
  latest_fetch_url O history recent -> recent_url O (rev history) = Ok recent.
Proof.
  intros [h H | before m d after (id & c & -> & Hc & Hs) H].
  - rewrite <- (app_nil_r (rev h)).
    rewrite recent_url_skip by now apply Forall_rev. reflexivity.
  - rewrite rev_app_distr. cbn [rev]. rewrite <- app_assoc. cbn [app].
    rewrite recent_url_skip by now apply Forall_rev.
    cbn [recent_url]. rewrite String.eqb_refl, Hc. cbn [dyn_get]. now rewrite Hs.
Qed.

(** C6 (amended).  When the earlier strategies parsed nothing and the text
    names the extraction tool, the fallback synthesizes exactly one
    extraction call if the [text_content] value is recoverable from the
    text, and none if it is not.  The [url] value is not required: the
    call carries the [url] value of the text when there is one, otherwise
    the address [recent] of the latest successful fetch of the history
    (the [url] of that tool turn, or its [final_url]), and [unknown_url]
    when the history holds no successful fetch or that fetch recorded no
    address. *)
Theorem C6_fallback_depends_on_text_only
    (content : string) (history : list message) (parsed recent : json) :
  parse_steps_1_2 O content = Ok parsed ->
  truthy parsed = false ->
  contains "extract_blog_fields_from_text" content = true ->
  latest_fetch_url O history recent ->
  interpret O (Some content) [] history
  = Ok (match text_match content with
        | Some g =>
            let args :=
              JDict [("text_content", JStr (truncate_2000 (unescape g)));
                     ("original_url",
                        match url_match content with
                        | Some u => JStr u
                        | None => if truthy recent then recent else JStr "unknown_url"
                        end)] in
            [mk_call (CallFromContent args) "extract_blog_fields_from_text" (ArgDumped args)]
        | None => []
        end).
Proof.
  intros Hp Hf Hn Hr. apply recent_url_spec in Hr. unfold interpret.
  rewrite (names_tool_not_empty content Hn).
  unfold parse_content. rewrite Hp, Hf, Hn. cbn [negb andb].
  unfold narrow_fallback. rewrite Hr.
  destruct (text_match content) as [g|].
  - reflexivity.
  - unfold calls_from_parsed. now rewrite Hf.
Qed.

(** *** The turn loop *)

(** C1 (amended).  When the reasoning service answers the first turn with
    a no-op text turn (no tool calls, and nothing the interpreter recovers
    from the text), the loop stops at that turn whatever the cap: exactly
    one turn is logged and one assistant message appended, and the run
    goes on through the status line of the turn cap, the exit it shares
    with exhaustion. *)
Theorem C1_noop_turn_stops_the_loop
    (k : nat) (st st1 : St W) (reply : option string) (w' : W) :
  _ensure_browser O st = (Ok tt, st1) ->
  chat_with_ollama_for_tools O (messages_history st1) true (world st1) = ((reply, []), w') ->
  interpret O reply [] (messages_history st1 ++ [AssistantMsg reply []]) = Ok [] ->
  try_body O (S k) st
  = (Ok Break,
     mk_st w' (browser st1) (messages_history st1 ++ [AssistantMsg reply []])
       (final_structured_blog_data st1) (log st1 ++ [EvTurn 0; EvCapReached])).
Proof.
  intros He Hc Hi.
  unfold try_body, try_except, bind. rewrite He.
  cbn [turns]. unfold bind, turn, bind, emit, get_history, ask, append_message, lift.
  cbn [world browser messages_history final_structured_blog_data log].
  rewrite Hc. cbn [fst snd world browser messages_history final_structured_blog_data log].
  rewrite Hi. unfold ret. cbn. now rewrite <- app_assoc.
Qed.

(** *** Forced releases along a run *)

Lemma counts_bind {A} (m : @M W A) (k : A -> @M W flow) :
  preserves forced_of m -> (forall a, counts (k a)) -> counts (bind m k).
Proof.
  intros Hm Hk st. unfold bind. specialize (Hm st).
  destruct (m st) as [[a|e] st1]; cbn [fst snd] in *.
  - rewrite Hk. now rewrite Hm.
  - rewrite Hm. cbn. now rewrite Nat.add_0_r.
Qed.

Lemma counts_ret (f : flow) : (forall v, f <> Return v) -> counts (ret (W:=W) f).
Proof.
  intros H st. cbn. destruct f as [| |v]; cbn; try now rewrite Nat.add_0_r.
  now destruct (H v).
Qed.

Lemma counts_close_return (v : option string) :
  counts (bind (_maybe_close_browser (W:=W) true) (fun _ => ret (Return v))).
Proof. intros st. unfold bind. cbn [fst snd ret returned]. apply forced_release_forced. Qed.

Lemma counts_dispatch (tool_calls : list tool_call) : counts (dispatch O tool_calls).
Proof.
  induction tool_calls as [|tc rest IH]; cbn [dispatch].
  - apply counts_ret. discriminate.
  - destruct (loads_arguments O (tc_arguments tc)) as [tool_args|].
    + apply counts_bind; [apply forced_execute_tool_call | intros tool_result].
      apply counts_bind; [auto with pres | intros _].
      apply counts_bind; [auto with pres | intros _].
      apply counts_bind; [auto with pres | intros status].
      destruct (String.eqb (tc_name tc) "finalize_blog_data_collection"
                && is_str "success" status); [|exact IH].
      apply counts_bind; [auto with pres | intros collected].
      destruct collected as [|r l].
      * apply counts_close_return.
      * apply counts_bind; [apply forced_save_data | intros out].
        apply counts_close_return.
    + apply counts_bind; [auto with pres | intros _]. exact IH.
Qed.

Lemma counts_turn (turn_count : nat) : counts (turn O turn_count).
Proof.
  unfold turn.
  apply counts_bind; [auto with pres | intros _].
  apply counts_bind; [auto with pres | intros history].
  apply counts_bind; [auto with pres | intros reply].
  apply counts_bind; [auto with pres | intros _].
  apply counts_bind; [auto with pres | intros history'].
  apply counts_bind; [auto with pres | intros tool_calls].
  destruct tool_calls as [|tc rest].
  - apply counts_ret. discriminate.
  - apply counts_dispatch.
Qed.

Lemma counts_turns (remaining turn_count : nat) : counts (turns O remaining turn_count).
Proof.
  revert turn_count. induction remaining as [|k IH]; intros turn_count; cbn [turns].
  - apply counts_ret. discriminate.
  - intros st. unfold bind. pose proof (counts_turn turn_count st) as Ht.
    destruct (turn O turn_count st) as [[[| |v]|e] st1]; cbn [fst snd returned] in *.
    + rewrite IH. rewrite Ht. now rewrite Nat.add_0_r.
    + exact Ht.
    + exact Ht.
    + exact Ht.
Qed.

Lemma counts_try_body (max_turns : nat) : counts (try_body O max_turns).
Proof.
  unfold try_body.
  apply counts_bind.
  { apply preserves_try_except; [apply forced_ensure | intros e; apply preserves_raise]. }
  intros _ st. unfold bind. pose proof (counts_turns max_turns 0 st) as Ht.
  destruct (turns O max_turns 0 st) as [[[| |v]|e] st1]; cbn [fst snd returned emit ret] in *;
    try exact Ht;
    unfold forced_of in *; cbn [log]; rewrite forced_app; cbn; lia.
Qed.

(** X25.  Every run forces the release of the browser once in its [finally]
    clause, and once more when it leaves through the [return] of a
    successful finalize: one forced release on the exits by turn cap, early
    stop and exception, two on the finalize exit. *)
Lemma forced_releases_of_a_run
    (max_turns : nat) (initial_keywords : list string) (st0 : St W) :
  let st1 := mk_st (world st0) (browser st0)
               [SystemMsg (improved_system_prompt O); UserMsg (user_query initial_keywords)]
               [] (log st0) in
  forced_of (snd (run_agent O max_turns initial_keywords st0))
  = forced_of st0 + returned (fst (try_body O max_turns st1)) + 1.
Proof.
  intros st1. unfold run_agent. fold st1.
  pose proof (counts_try_body max_turns st1) as Hb.
  destruct (try_body O max_turns st1) as [outcome st2]. cbn [fst snd] in Hb.
  pose proof (forced_release_forced st2) as Hc.
  destruct (_maybe_close_browser true st2) as [r st3]. cbn [snd] in Hc.
  change (forced_of st1) with (forced_of st0) in Hb.
  destruct outcome as [[| |v]|[m| | |n]]; cbn [fst snd returned] in *;
    try rewrite forced_after_try; lia.
Qed.

(** *** Tool results along a turn *)

Lemma results_append_tool (id : call_id) (name : string) (c : content) (st : St W) :
  results_of (snd (append_message (ToolMsg id name c) st)) = results_of st + 1.
Proof.
  unfold results_of, append_message. cbn [snd messages_history].
  rewrite filter_app, length_app. reflexivity.
Qed.

Lemma results_of_history (st st' : St W) :
  messages_history st' = messages_history st -> results_of st' = results_of st.
Proof. unfold results_of. now intros ->. Qed.

(** X26.  When every invocation of a turn comes back and none is a successful
    finalize, the history gains exactly one tool turn per invocation,
    undecodable arguments and unknown tools included. *)
Lemma dispatch_answers_every_call (tool_calls : list tool_call) (st : St W) :
  fst (dispatch O tool_calls st) = Ok Continue ->
  results_of (snd (dispatch O tool_calls st)) = results_of st + List.length tool_calls.
Proof.
  revert st. induction tool_calls as [|tc rest IH]; intros st; cbn [dispatch List.length].
  - intros _. cbn. now rewrite Nat.add_0_r.
  - destruct (loads_arguments O (tc_arguments tc)) as [tool_args|].
    + unfold bind, lift, get_collected.
      pose proof (history_execute_tool_call (tc_name tc) tool_args st) as Hh.
      destruct (_execute_tool_call O (tc_name tc) tool_args st) as [[tool_result|e] st1];
        [|discriminate].
      cbn [snd] in Hh.
      pose proof (results_append_tool (tc_id tc) (tc_name tc) (JsonContent tool_result) st1) as Ha.
      unfold append_message in *. cbn [snd emit] in *.
      cbn [world browser messages_history final_structured_blog_data log] in *.
      match goal with
      | |- context [dyn_get "status" tool_result] =>
          destruct (dyn_get "status" tool_result) as [status|e]; [|discriminate]
      end.
      set (st3 := mk_st (world st1) (browser st1)
                    (messages_history st1
                     ++ [ToolMsg (tc_id tc) (tc_name tc) (JsonContent tool_result)])
                    (final_structured_blog_data st1)
                    (log st1 ++ [EvToolResult (tc_name tc)])).
      assert (H3 : results_of st3 = results_of st + 1).
      { rewrite <- (results_of_history st st1 Hh), <- Ha. reflexivity. }
      destruct (String.eqb (tc_name tc) "finalize_blog_data_collection"
                && is_str "success" status).
      * cbv beta. change (final_structured_blog_data st3) with (final_structured_blog_data st1).
        destruct (final_structured_blog_data st1) as [|r l].
        -- cbn. discriminate.
        -- match goal with
           | |- context [save_data O ?d ?p ?s] =>
               destruct (save_data_returns d p s) as [v Hv];
               destruct (save_data O d p s) as [out st4]
           end.
           cbn [fst] in Hv. subst out. cbn. discriminate.
      * intros Hc. rewrite (IH st3 Hc). lia.
    + unfold bind.
      pose proof (results_append_tool (tc_id tc) (tc_name tc)
                    (TextContent ("오류: 도구 '" ^^ tc_name tc ^^ "'의 인자 파싱 실패.")) st) as Ha.
      unfold append_message in *. cbn [snd] in *.
      match goal with
      | |- context [dispatch O rest ?s] => set (st2 := s) in *
      end.
      intros Hc. rewrite (IH st2 Hc). lia.
Qed.

(** *** The recovery of bare URLs *)

Lemma placeholders_spec (l : list json) :
  Forall is_placeholder (List.map placeholder l)
  /\ List.map (Json.get "url") (List.map placeholder l) = l.
Proof.
  induction l as [|x r [IH1 IH2]]; split; cbn [List.map].
  - constructor.
  - reflexivity.
  - constructor; [repeat split | exact IH1].
  - now rewrite IH2.
Qed.

Lemma hashable_prefix_strings (l : list string) :
  hashable_prefix (List.map JStr l) = List.map JStr l.
Proof. induction l as [|u r IH]; [reflexivity|]. cbn. now rewrite IH. Qed.

(** The scan of the history after the loop yields the addresses of the
    successful searches of the history, search after search. *)
Lemma urls_in_history_spec (history : list message) (us : list string) :
  search_urls O history us -> urls_in_history O history = Ok (List.map JStr us).
Proof.
  induction 1 as [|m urls rest more (id & c & d & -> & Hc & Hs & Hf & Hne) _ IH
                  |m rest more Hm _ IH].
  - reflexivity.
  - cbn [urls_in_history]. rewrite String.eqb_refl, Hc. cbn [dyn_get].
    rewrite IH, Hs, Hf.
    assert (T : truthy (JList (List.map JStr urls)) = true) by now destruct urls.
    rewrite T. cbn [andb insertions].
    now rewrite hashable_prefix_strings, map_app.
  - cbn [urls_in_history]. destruct m as [t|t|t calls|id name c]; try exact IH.
    cbn [no_search] in Hm.
    destruct (String.eqb name "search_web_for_blogs") eqn:E; [|exact IH].
    apply String.eqb_eq in E. specialize (Hm E).
    destruct (loads_content O c) as [v|]; [|exact IH].
    destruct v as [| | | | |d]; try contradiction.
    cbn [dyn_get]. now rewrite IH, Hm.
Qed.

(** The code after the loop on an empty store: one placeholder record per
    distinct address the scan of the history yields. *)
Lemma after_try_placeholders (st : St W) (us : list string) :
  final_structured_blog_data st = [] ->
  urls_in_history O (messages_history st) = Ok (List.map JStr us) ->
  us <> [] ->
  Permutation (set_order O (List.map JStr us)) (List.map JStr (nodup string_dec us)) ->
  let out := after_try O st in
  exists data : list record,
    final_structured_blog_data (snd out) = data
    /\ log (snd out) = log st ++ [EvSave data "agent_blog_data_urls_only"]
    /\ fst out = Ok (fst (write_file O data "agent_blog_data_urls_only" (world st)))
    /\ List.length data = List.length (nodup string_dec us)
    /\ Permutation (List.map (Json.get "url") data) (List.map JStr (nodup string_dec us))
    /\ Forall is_placeholder data.
Proof.
  intros Hc Hu Hne Hp out.
  exists (List.map placeholder (set_order O (List.map JStr us))).
  destruct (placeholders_spec (set_order O (List.map JStr us))) as [Hall Hurl].
  assert (Hlen : List.length (set_order O (List.map JStr us))
                 = List.length (nodup string_dec us)).
  { rewrite (Permutation_length Hp). apply length_map. }
  assert (Hnz : set_order O (List.map JStr us) <> []).
  { intros E. rewrite E in Hlen. cbn in Hlen.
    destruct us as [|u r]; [now apply Hne|].
    assert (In u (nodup string_dec (u :: r))) as I by (apply nodup_In; now left).
    destruct (nodup string_dec (u :: r)); [destruct I | discriminate Hlen]. }
  subst out. unfold after_try, bind, get_collected, get_history, lift.
  rewrite Hc, Hu.
  destruct (set_order O (List.map JStr us)) as [|x xs] eqn:Es; [now destruct Hnz|].
  unfold set_collected, save_data, bind, emit, ask.
  cbn [List.map world browser messages_history final_structured_blog_data log].
  destruct (write_file O _ _ (world st)) as [path w1] eqn:Ew.
  cbn [fst snd final_structured_blog_data log].
  change (placeholder x :: List.map placeholder xs) with (List.map placeholder (x :: xs)).
  repeat split.
  - rewrite length_map. exact Hlen.
  - change (Permutation (List.map (Json.get "url") (List.map placeholder (x :: xs)))
              (List.map JStr (nodup string_dec us))).
    rewrite Hurl. exact Hp.
  - exact Hall.
Qed.

(** C7 (amended).  Let a run leave its [try] block by the turn cap, by an
    assistant turn without calls or by an exception that is no
    [RuntimeError], with an empty store, and let [us] be the addresses of
    the successful searches of its history, search after search (a tool
    turn of the search tool with the status [success] and a non-empty
    [found_urls]).  Then, after the forced release, the run persists
    exactly one placeholder record per distinct address of [us] under the
    prefix [agent_blog_data_urls_only] and returns what the writer
    returns; each record carries the identifier
    [extraction-failed-url-only], the name sentinel and [N/A] in
    [post_title], [recent_post_date] and [total_posts].  The iteration of
    the [set] of addresses is assumed to list its distinct members. *)
Theorem C7_one_placeholder_per_distinct_url
    (max_turns : nat) (initial_keywords : list string) (st0 st2 : St W)
    (outcome : res flow) (us : list string) :
  try_body O max_turns
    (mk_st (world st0) (browser st0)
       [SystemMsg (improved_system_prompt O); UserMsg (user_query initial_keywords)]
       [] (log st0))
  = (outcome, st2) ->
  falls_through outcome = true ->
  final_structured_blog_data st2 = [] ->
  search_urls O (messages_history st2) us ->
  us <> [] ->
  Permutation (set_order O (List.map JStr us)) (List.map JStr (nodup string_dec us)) ->
  let out := run_agent O max_turns initial_keywords st0 in
  exists data : list record,
    final_structured_blog_data (snd out) = data
    /\ log (snd out)
       = log st2 ++ [EvRelease true; EvSave data "agent_blog_data_urls_only"]
    /\ fst out = Ok (fst (write_file O data "agent_blog_data_urls_only" (world st2)))
    /\ List.length data = List.length (nodup string_dec us)
    /\ Permutation (List.map (Json.get "url") data) (List.map JStr (nodup string_dec us))
    /\ Forall is_placeholder data.
Proof.
  intros Hb Hf Hc Hs Hne Hp out. subst out.
  apply urls_in_history_spec in Hs.
  unfold run_agent. rewrite Hb. unfold _maybe_close_browser.
  set (st3 := mk_st (world st2) (BrowserController._maybe_close_browser true (browser st2))
                (messages_history st2) (final_structured_blog_data st2)
                (log st2 ++ [EvRelease true])).
  destruct (after_try_placeholders st3 us Hc Hs Hne Hp)
    as (data & H1 & H2 & H3 & H4 & H5 & H6).
  assert (E : let out := after_try O st3 in
              final_structured_blog_data (snd out) = data
              /\ log (snd out)
                 = log st2 ++ [EvRelease true; EvSave data "agent_blog_data_urls_only"]
              /\ fst out = Ok (fst (write_file O data "agent_blog_data_urls_only" (world st2)))).
  { cbn zeta. rewrite H1, H2, H3. unfold st3. cbn [log world].
    now rewrite <- app_assoc. }
  cbn zeta in E. destruct E as (E1 & E2 & E3).
  exists data.
  destruct outcome as [[| |v]|[m| | |n]]; try discriminate Hf; repeat split; assumption.
Qed.

End Facts.

End PipelineFacts.

(** * Concrete runs *)
Module Runs.
Import PyStr Pipeline Scenario PipelineFacts.

(** The end-to-end scenario of the specification: the search finds one
    URL, the fetch sees 400 characters, the service never asks for an
    extraction; the forced extraction adds the one record of the run. *)
Example end_to_end_run :
  let out := run_agent_for_keywords end_to_end ["example"] start in
  fst out = Ok (Some "agent_blog_data_partial.csv")
  /\ List.map (fun r => (Json.get "blog_id" r, Json.get "blog_name" r))
       (final_structured_blog_data (snd out))
     = [(JStr "example_com_testblog", JStr "Test Blog")]
  /\ List.filter (is_tool_event "extract_blog_fields_from_text") (log (snd out))
     = [EvTool "extract_blog_fields_from_text"
          (escalation_args "https://example.com/blog1" (repeat_char "a" 400))]
  /\ forced_of (snd out) = 1.
Proof. repeat split; vm_compute; reflexivity. Qed.

(** The theorem of C1 on the idle service, with a cap of 20 turns. *)
Lemma C1_witness :
  try_body idle 20 (fresh idle)
  = (Ok Break,
     mk_st 1 (BrowserController.mk true 1)
       (messages_history (fresh idle)
        ++ [AssistantMsg (Some "I am still thinking about it.") []])
       [] [EvAcquire; EvTurn 0; EvCapReached]).
Proof.
  exact (C1_noop_turn_stops_the_loop idle 19 (fresh idle)
           (snd (_ensure_browser idle (fresh idle)))
           (Some "I am still thinking about it.") 1
           eq_refl eq_refl eq_refl).
Defined.

(** C1 (as stated) fails: with a cap of 20 turns and a service that answers
    every turn with the same no-op text, the run logs one turn, not 20. *)
Lemma C1_counterexample :
  (forall h w, fst (chat_with_ollama_for_tools idle h true w)
               = (Some "I am still thinking about it.", []))
  /\ (forall h, interpret idle (Some "I am still thinking about it.") [] h = Ok [])
  /\ List.filter is_turn (log (snd (run_agent idle 20 ["example"] start))) = [EvTurn 0]
  /\ List.length (List.filter is_turn (log (snd (run_agent idle 20 ["example"] start)))) <> 20.
Proof.
  split; [reflexivity|]. split; [reflexivity|]. split; [reflexivity|].
  vm_compute. discriminate.
Qed.

(** C2 (failing input).  The service asks for an extraction with
    well-formed arguments; asked to extract, it writes no text, so the
    message it returns has [content] [None] and [len] of it raises
    [TypeError] before the [try] of the branch.  The loop has no handler
    around the dispatch: the invocation is logged, no tool turn is
    appended for it, and the run ends through the failure path. *)
Theorem C2_raised_dispatch_appends_no_result :
  let out := run_agent_for_keywords silent_extraction ["example"] start in
  fst (_execute_tool_call silent_extraction "extract_blog_fields_from_text" extract_args
         (fresh silent_extraction)) = Raise TypeError
  /\ List.filter (is_tool_event "extract_blog_fields_from_text") (log (snd out))
     = [EvTool "extract_blog_fields_from_text" extract_args]
  /\ results_of (snd out) = 0.
Proof. repeat split; vm_compute; reflexivity. Qed.

(** The theorem of C3 on a page of 400 letters. *)
Lemma C3_witness :
  let text := repeat_char "a" 400 in
  let out := after_browse (fetching text) "https://example.com/blog1" (JList [])
               (page_with text) start in
  quality_of (fetch_result "https://example.com/blog1" (JList []) (page_with text))
  = JStr "good"
  /\ log (snd out)
     = [EvTool "extract_blog_fields_from_text"
          (JDict [("text_content", JStr text);
                  ("original_url", JStr "https://example.com/blog1")])].
Proof.
  pose proof (C3_fetch_classifies_trimmed_length (fetching (repeat_char "a" 400))
                "https://example.com/blog1" (JList []) (page_with (repeat_char "a" 400))
                start eq_refl) as H.
  cbv zeta in H. destruct H as (_ & Q & _ & _ & _ & _ & L).
  split; [exact Q | exact L].
Defined.

(** C3 (as stated) fails: the bands apply to the length of the text after
    trimming.  A fetched text of 300 blanks has length 300 and is classified
    [empty]; a text of 310 characters of which 20 are leading line breaks is
    classified [short]; neither triggers the extraction. *)
Lemma C3_counterexample :
  let blank := repeat_char " " 300 in
  let padded := repeat_char newline 20 ^^ repeat_char "a" 290 in
  let run text := _execute_tool_call (fetching text) "get_webpage_content_and_interact"
                    fetch_args start in
  String.length blank = 300
  /\ option_map quality_of (match fst (run blank) with Ok r => Some r | Raise _ => None end)
     = Some (JStr "empty")
  /\ List.filter (is_tool_event "extract_blog_fields_from_text") (log (snd (run blank))) = []
  /\ String.length padded = 310
  /\ option_map quality_of (match fst (run padded) with Ok r => Some r | Raise _ => None end)
     = Some (JStr "short")
  /\ List.filter (is_tool_event "extract_blog_fields_from_text") (log (snd (run padded))) = [].
Proof. repeat split; vm_compute; reflexivity. Qed.

(** C4 (failing input).  The service asks for the finalize tool at its
    first turn.  The branch of a successful finalize releases the browser by
    force before its [return], and the [finally] clause releases it by
    force again: two forced releases on this exit path, and a use count
    of -1. *)
Theorem C4_finalize_path_releases_twice :
  let out := run_agent_for_keywords finalizing ["example"] start in
  fst out = Ok None
  /\ List.filter is_forced_release (log (snd out)) = [EvRelease true; EvRelease true]
  /\ BrowserController.user_count (browser (snd out)) = (-1)%Z.
Proof. repeat split; vm_compute; reflexivity. Qed.

(** The theorem of C6 on a history whose latest successful fetch recorded
    an address, followed by a failed fetch: a request without a [url]
    value gets the address of that fetch, a request with one keeps its
    own. *)
Lemma C6_witness :
  interpret idle (Some request_without_url) [] fetched_history
  = Ok [mk_call
          (CallFromContent (JDict [("text_content", JStr "hello world");
                                   ("original_url", JStr blog1)]))
          "extract_blog_fields_from_text"
          (ArgDumped (JDict [("text_content", JStr "hello world");
                             ("original_url", JStr blog1)]))]
  /\ interpret idle (Some request_with_url) [] fetched_history
     = Ok [mk_call
             (CallFromContent (JDict [("text_content", JStr "hello world");
                                      ("original_url", JStr "https://example.com/blog1")]))
             "extract_blog_fields_from_text"
             (ArgDumped (JDict [("text_content", JStr "hello world");
                                ("original_url", JStr "https://example.com/blog1")]))].
Proof.
  assert (H : latest_fetch_url idle fetched_history (JStr blog1)).
  { refine (fetch_then_none idle
              [SystemMsg "system prompt"; UserMsg "find blogs"]
              (ToolMsg (CallId "call_1") "get_webpage_content_and_interact"
                 (JsonContent (JDict [("status", JStr "success"); ("url", JStr blog1);
                                      ("final_url", JStr blog2)])))
              [("status", JStr "success"); ("url", JStr blog1); ("final_url", JStr blog2)]
              [AssistantMsg (Some "One more page.") [];
               ToolMsg (CallId "call_2") "get_webpage_content_and_interact"
                 (JsonContent (JDict [("status", JStr "error"); ("url", JStr blog3)]))]
              _ _).
    - eexists _, _. repeat split.
    - constructor; [exact I|]. constructor; [intros _; reflexivity|]. constructor. }
  split.
  - exact (C6_fallback_depends_on_text_only idle request_without_url fetched_history
             JNull (JStr blog1) eq_refl eq_refl eq_refl H).
  - exact (C6_fallback_depends_on_text_only idle request_with_url fetched_history
             JNull (JStr blog1) eq_refl eq_refl eq_refl H).
Defined.

(** C6 (as stated) fails: a text that names the extraction tool and holds a
    [text_content] value but no [url] value still yields one invocation,
    with [unknown_url] as its URL. *)
Lemma C6_counterexample :
  text_match request_without_url = Some "hello world"
  /\ url_match request_without_url = None
  /\ interpret idle (Some request_without_url) [] []
     = Ok [mk_call
             (CallFromContent (JDict [("text_content", JStr "hello world");
                                      ("original_url", JStr "unknown_url")]))
             "extract_blog_fields_from_text"
             (ArgDumped (JDict [("text_content", JStr "hello world");
                                ("original_url", JStr "unknown_url")]))].
Proof. repeat split; vm_compute; reflexivity. Qed.

(** The theorem of C7 on a run of two turns with two searches, of which
    the first finds the first and the second address and the second finds
    the second and the third: three records are persisted. *)
Lemma C7_witness :
  let out := run_agent searching_twice 2 ["example"] start in
  List.map (Json.get "url") (final_structured_blog_data (snd out))
  = [JStr blog1; JStr blog2; JStr blog3]
  /\ exists data : list record,
       final_structured_blog_data (snd out) = data
       /\ log (snd out)
          = log (snd (try_body searching_twice 2 (fresh searching_twice)))
            ++ [EvRelease true; EvSave data "agent_blog_data_urls_only"]
       /\ fst out
          = Ok (fst (write_file searching_twice data "agent_blog_data_urls_only"
                       (world (snd (try_body searching_twice 2 (fresh searching_twice))))))
       /\ List.length data = List.length (nodup string_dec [blog1; blog2; blog2; blog3])
       /\ Permutation (List.map (Json.get "url") data)
            (List.map JStr (nodup string_dec [blog1; blog2; blog2; blog3]))
       /\ Forall is_placeholder data.
Proof.
  split; [vm_compute; reflexivity|].
  refine (C7_one_placeholder_per_distinct_url searching_twice 2 ["example"] start
            (snd (try_body searching_twice 2 (fresh searching_twice)))
            (fst (try_body searching_twice 2 (fresh searching_twice)))
            [blog1; blog2; blog2; blog3] _ _ _ _ _ _).
  - apply surjective_pairing.
  - vm_compute. reflexivity.
  - vm_compute. reflexivity.
  - vm_compute.
    apply search_urls_pass; [exact I|].
    apply search_urls_pass; [exact I|].
    apply search_urls_pass; [exact I|].
    refine (search_urls_found _ _ [blog1; blog2] _ [blog2; blog3] _ _).
    { eexists _, _, _. repeat split. discriminate. }
    apply search_urls_pass; [exact I|].
    refine (search_urls_found _ _ [blog2; blog3] _ [] _ _).
    { eexists _, _, _. repeat split. discriminate. }
    apply search_urls_end.
  - discriminate.
  - vm_compute. apply Permutation_refl.
Defined.

(** C7 (as stated) fails.  In the scenario of the specification (cap
    reached after one search that found two URLs, nothing extracted) the
    two records persisted carry the identifier [extraction-failed-url-only],
    not [extraction-failed]; and when the search lists the same URL twice,
    one record is persisted for the two URLs found. *)
Lemma C7_counterexample :
  let two := run_agent (searching ["https://example.com/blog1"; "https://example.com/blog2"])
               1 ["example"] start in
  let same := run_agent (searching ["https://example.com/blog1"; "https://example.com/blog1"])
                1 ["example"] start in
  List.map (Json.get "blog_id") (final_structured_blog_data (snd two))
  = [JStr "extraction-failed-url-only"; JStr "extraction-failed-url-only"]
  /\ JStr "extraction-failed-url-only" <> JStr "extraction-failed"
  /\ List.length (final_structured_blog_data (snd same)) = 1
  /\ List.filter (fun e => match e with EvSave _ _ => true | _ => false end) (log (snd same))
     = [EvSave [placeholder (JStr "https://example.com/blog1")] "agent_blog_data_urls_only"].
Proof. repeat split; try (vm_compute; reflexivity). discriminate. Qed.

(** The theorem of C10 on a fetch whose forced extraction raises, and on
    one whose forced extraction returns an error result. *)
Lemma C10_witness :
  let text := repeat_char "a" 400 in
  let u := "https://example.com/blog1" in
  let raised := execute_extract_call (fetching text) (escalation_args u text) start in
  let refused := execute_extract_call (garbled text) (escalation_args u text) start in
  (fst raised = Raise TypeError
   /\ after_browse (fetching text) u (JList []) (page_with text) start
      = (Ok (fetch_result u (JList []) (page_with text)), snd raised)
   /\ status_of (fetch_result u (JList []) (page_with text)) = JStr "success"
   /\ quality_of (fetch_result u (JList []) (page_with text)) = JStr "good")
  /\ (option_map status_of (match fst refused with Ok r => Some r | Raise _ => None end)
      = Some (JStr "error")
      /\ after_browse (garbled text) u (JList []) (page_with text) start
         = (Ok (fetch_result u (JList []) (page_with text)), snd refused)
      /\ status_of (fetch_result u (JList []) (page_with text)) = JStr "success"
      /\ quality_of (fetch_result u (JList []) (page_with text)) = JStr "good").
Proof.
  split; (split; [vm_compute; reflexivity|]).
  - apply (C10_extraction_outcome_does_not_reach_fetch_result
             (fetching (repeat_char "a" 400)) "https://example.com/blog1" (JList [])
             (page_with (repeat_char "a" 400)) start
             (snd (execute_extract_call (fetching (repeat_char "a" 400))
                     (escalation_args "https://example.com/blog1" (repeat_char "a" 400)) start))
             (fst (execute_extract_call (fetching (repeat_char "a" 400))
                     (escalation_args "https://example.com/blog1" (repeat_char "a" 400)) start))).
    + reflexivity.
    + apply Nat.leb_le. vm_compute. reflexivity.
    + apply surjective_pairing.
  - apply (C10_extraction_outcome_does_not_reach_fetch_result
             (garbled (repeat_char "a" 400)) "https://example.com/blog1" (JList [])
             (page_with (repeat_char "a" 400)) start
             (snd (execute_extract_call (garbled (repeat_char "a" 400))
                     (escalation_args "https://example.com/blog1" (repeat_char "a" 400)) start))
             (fst (execute_extract_call (garbled (repeat_char "a" 400))
                     (escalation_args "https://example.com/blog1" (repeat_char "a" 400)) start))).
    + reflexivity.
    + apply Nat.leb_le. vm_compute. reflexivity.
    + apply surjective_pairing.
Defined.

End Runs.
(* ================================================================== *)
(** * Further properties of the program *)
(* ================================================================== *)

(** ** Trimming and splitting *)
Module TrimFacts.
Import PyStr PyStrFacts.

Lemma lstrip_head (s : string) (c : ascii) (r : string) :
  lstrip s = String c r -> isspace c = false.
Proof.
  induction s as [|a t IH]; cbn [lstrip]; [discriminate|].
  destruct (isspace a) eqn:E; [exact IH|].
  intros H. inversion H; subst. exact E.
Qed.

Lemma rstrip_head (c : ascii) (r : string) :
  isspace c = false -> exists t, rstrip (String c r) = String c t.
Proof.
  intros E. cbn [rstrip]. destruct (rstrip r) as [|a t].
  - rewrite E. now exists EmptyString.
  - now exists (String a t).
Qed.

Lemma rstrip_idem (s : string) : rstrip (rstrip s) = rstrip s.
Proof.
  induction s as [|c r IH]; [reflexivity|].
  cbn [rstrip]. destruct (rstrip r) as [|a t] eqn:E.
  - destruct (isspace c) eqn:S; [reflexivity|]. cbn [rstrip]. now rewrite S.
  - cbn [rstrip]. cbn [rstrip] in IH. now rewrite IH.
Qed.

(** [s.strip().strip() == s.strip()] *)
Lemma strip_idem (s : string) : strip (strip s) = strip s.
Proof.
  unfold strip. destruct (lstrip s) as [|c r] eqn:L; [reflexivity|].
  pose proof (lstrip_head s c r L) as E.
  destruct (rstrip_head c r E) as [t Ht]. rewrite Ht.
  cbn [lstrip]. rewrite E, <- Ht. apply rstrip_idem.
Qed.

Lemma forallb_lstrip (p : ascii -> bool) (s : string) :
  forallb p s = true -> forallb p (lstrip s) = true.
Proof.
  induction s as [|c r IH]; [trivial|]. cbn [lstrip].
  destruct (isspace c); [|trivial].
  cbn [forallb]. intros H. apply andb_prop in H as [_ H]. now apply IH.
Qed.

Lemma forallb_rstrip (p : ascii -> bool) (s : string) :
  forallb p s = true -> forallb p (rstrip s) = true.
Proof.
  induction s as [|c r IH]; [trivial|]. cbn [rstrip forallb].
  intros H. apply andb_prop in H as [H1 H2]. specialize (IH H2).
  destruct (rstrip r) as [|a t].
  - destruct (isspace c); [reflexivity|]. cbn [forallb]. now rewrite H1.
  - cbn [forallb] in *. now rewrite H1, IH.
Qed.

Lemma forallb_strip (p : ascii -> bool) (s : string) :
  forallb p s = true -> forallb p (strip s) = true.
Proof. intros H. unfold strip. now apply forallb_rstrip, forallb_lstrip. Qed.

Lemma forallb_take (p : ascii -> bool) (n : nat) (s : string) :
  forallb p s = true -> forallb p (take n s) = true.
Proof.
  revert s. induction n as [|n IH]; intros [|c r] H; try reflexivity.
  cbn [take forallb] in *. apply andb_prop in H as [H1 H2].
  now rewrite H1, IH.
Qed.

Lemma forallb_filter (p q : ascii -> bool) (s : string) :
  (forall c, q c = true -> p c = true) -> forallb p (filter q s) = true.
Proof.
  intros H. induction s as [|c r IH]; [reflexivity|].
  cbn [filter]. destruct (q c) eqn:E; [|exact IH].
  cbn [forallb]. now rewrite (H c E), IH.
Qed.

Lemma forallb_app (p : ascii -> bool) (s t : string) :
  forallb p (s ^^ t) = forallb p s && forallb p t.
Proof.
  induction s as [|c r IH]; [reflexivity|].
  cbn [String.append forallb]. now rewrite IH, andb_assoc.
Qed.

Lemma length_take (n : nat) (s : string) : String.length (take n s) <= n.
Proof.
  revert s. induction n as [|n IH]; intros [|c r]; cbn [take String.length]; try lia.
  specialize (IH r). lia.
Qed.

Lemma length_append (s t : string) :
  String.length (s ^^ t) = String.length s + String.length t.
Proof. induction s as [|c r IH]; cbn [String.append String.length]; [reflexivity | now rewrite IH]. Qed.


(** What a replacement puts into a text comes from the text or from the
    replacement. *)
Lemma forallb_replace_aux (p : ascii -> bool) (old new : string) (skip : nat) (s : string) :
  forallb p new = true -> forallb p s = true ->
  forallb p (replace_aux old new skip s) = true.
Proof.
  intros Hn. revert skip. induction s as [|c r IH]; intros skip H; [reflexivity|].
  cbn [forallb] in H. apply andb_prop in H as [H1 H2].
  cbn [replace_aux]. destruct skip as [|k]; [|now apply IH].
  destruct (String.prefix old (String c r)).
  - rewrite forallb_app, Hn. now apply IH.
  - cbn [forallb]. rewrite H1. now apply IH.
Qed.

Lemma forallb_replace (p : ascii -> bool) (old new s : string) :
  forallb p new = true -> forallb p s = true -> forallb p (replace old new s) = true.
Proof. apply forallb_replace_aux. Qed.

Lemma forallb_split_first (p : ascii -> bool) (sep : ascii) (s : string) :
  forallb p s = true -> forallb p (split_first sep s) = true.
Proof.
  induction s as [|c r IH]; [trivial|]. cbn [forallb split_first].
  intros H. apply andb_prop in H as [H1 H2].
  destruct (Ascii.eqb c sep); [reflexivity|]. cbn [forallb]. now rewrite H1, IH.
Qed.

Lemma split_first_no_sep (sep : ascii) (s : string) :
  forallb (fun c => negb (Ascii.eqb c sep)) (split_first sep s) = true.
Proof.
  induction s as [|c r IH]; [reflexivity|]. cbn [split_first].
  destruct (Ascii.eqb c sep) eqn:E; [reflexivity|]. cbn [forallb]. now rewrite E, IH.
Qed.

(** A text in which no character is [c] has no occurrence of a text that
    holds [c]. *)
Lemma contains_absent (p : ascii -> bool) (sub s : string) :
  forallb p s = true -> forallb p sub = false -> contains sub s = false.
Proof.
  intros Hs Hsub.
  assert (P : forall a b, forallb p b = true -> String.prefix a b = true -> forallb p a = true).
  { induction a as [|x a IH]; intros [|y b] Hb Hp; try reflexivity; try discriminate.
    rewrite prefix_cons in Hp. apply andb_prop in Hp as [E Hp].
    apply Ascii.eqb_eq in E. subst y. cbn [forallb] in *.
    apply andb_prop in Hb as [Hx Hb]. rewrite Hx. now apply (IH b). }
  induction s as [|c r IH]; cbn [contains].
  - destruct (String.prefix sub EmptyString) eqn:E; [|reflexivity].
    apply P in E; [congruence | reflexivity].
  - destruct (String.prefix sub (String c r)) eqn:E.
    + apply P in E; [congruence | exact Hs].
    + cbn [forallb] in Hs. apply andb_prop in Hs as [_ Hs]. now apply IH.
Qed.

End TrimFacts.

(** ** [main.py]: the keywords handed to the agent *)
Module MainUIFacts.
Import PyStr PyStrFacts TrimFacts MainUI.

Lemma split_no_sep (sep : ascii) (s : string) :
  Forall (fun piece => forallb (fun c => negb (Ascii.eqb c sep)) piece = true) (split sep s).
Proof.
  induction s as [|c r IH]; cbn [split].
  - now repeat constructor.
  - destruct (Ascii.eqb c sep) eqn:E.
    + constructor; [reflexivity | exact IH].
    + destruct (split sep r) as [|piece pieces].
      * repeat constructor. cbn [forallb]. now rewrite E.
      * inversion IH; subst. constructor; [|assumption].
        cbn [forallb]. rewrite E. assumption.
Qed.

Lemma split_forallb (p : ascii -> bool) (sep : ascii) (s : string) :
  forallb p s = true -> Forall (fun piece => forallb p piece = true) (split sep s).
Proof.
  induction s as [|c r IH]; cbn [split forallb]; intros H.
  - now repeat constructor.
  - apply andb_prop in H as [H1 H2]. specialize (IH H2).
    destruct (Ascii.eqb c sep).
    + constructor; [reflexivity | exact IH].
    + destruct (split sep r) as [|piece pieces].
      * repeat constructor. cbn [forallb]. now rewrite H1.
      * inversion IH; subst. constructor; [|assumption].
        cbn [forallb]. rewrite H1. assumption.
Qed.

Lemma keywords_from_line_clean (line : string) :
  forallb (fun c => negb (Ascii.eqb c newline)) line = true ->
  Forall clean (keywords_from_line line).
Proof.
  intros Hnl. unfold keywords_from_line.
  pose proof (split_no_sep "," line) as Hc.
  pose proof (split_forallb _ "," line Hnl) as Hn.
  induction (split "," line) as [|piece pieces IH]; [constructor|].
  inversion Hc; subst. inversion Hn; subst.
  cbn [List.filter]. destruct (String.eqb (strip piece) EmptyString) eqn:E; cbn [negb].
  - now apply IH.
  - cbn [List.map]. constructor; [|now apply IH].
    repeat split.
    + now apply String.eqb_neq.
    + apply strip_idem.
    + now apply forallb_strip.
    + now apply forallb_strip.
Qed.

(** X1.  When the start button launches the agent, the list of keywords it
    passes on is not empty, and every keyword in it is non-empty, carries
    no blank at either end, and holds neither a comma nor a line break. *)
Theorem started_agent_gets_clean_keywords (keywords_input_area : string) (keywords : list string) :
  on_start keywords_input_area = StartAgent keywords ->
  keywords <> [] /\ Forall clean keywords.
Proof.
  unfold on_start. destruct (String.eqb (strip keywords_input_area) EmptyString); [discriminate|].
  destruct (keywords_list keywords_input_area) as [|kw kws] eqn:E; [discriminate|].
  intros H. inversion H; subst keywords. split; [discriminate|].
  rewrite <- E. unfold keywords_list.
  pose proof (split_no_sep newline (strip keywords_input_area)) as Hl.
  induction (split newline (strip keywords_input_area)) as [|line lines IH]; [constructor|].
  inversion Hl; subst. cbn [flat_map]. apply Forall_app. split.
  - now apply keywords_from_line_clean.
  - now apply IH.
Qed.

(** The theorem of X1 on two lines of input. *)
Lemma started_agent_witness :
  on_start ("  python blog , ,rust" ++ String newline " go  ")
  = StartAgent ["python blog"; "rust"; "go"]
  /\ Forall clean ["python blog"; "rust"; "go"].
Proof.
  split; [reflexivity|].
  apply (started_agent_gets_clean_keywords
           ("  python blog , ,rust" ++ String newline " go  ")).
  reflexivity.
Defined.

End MainUIFacts.

(** ** [core/browser_controller.py]: the text taken from a page *)
Module PageTextFacts.
Import PyStr PyStrFacts TrimFacts PageText.

(** The loop over the selectors keeps the text it starts from or moves to
    a sufficient text some selector offers, never to a shorter one, and
    ends on a text no sufficient offer is longer than. *)
Lemma best_primary_spec (page : document) (selectors : list string) (body_text : string) :
  let r := best_primary page selectors body_text in
  (r = body_text
   \/ exists selector text, In selector selectors /\ page selector = Ok (Some text)
                            /\ r = strip text /\ 50 <= String.length r)
  /\ String.length body_text <= String.length r
  /\ (forall selector text, In selector selectors -> page selector = Ok (Some text) ->
        50 <= String.length (strip text) -> String.length (strip text) <= String.length r).
Proof.
  revert body_text. induction selectors as [|sel rest IH]; intros body_text; cbn zeta.
  - cbn [best_primary]. repeat split; [now left | lia | intros ? ? []].
  - cbn [best_primary].
    assert (Skip : forall b, String.length body_text <= String.length b ->
              (b = body_text \/ exists text, page sel = Ok (Some text) /\ b = strip text
                                             /\ 50 <= String.length b) ->
              (forall text, page sel = Ok (Some text) -> 50 <= String.length (strip text) ->
                 String.length (strip text) <= String.length b) ->
              let r := best_primary page rest b in
              (r = body_text
               \/ exists selector text, In selector (sel :: rest) /\ page selector = Ok (Some text)
                                        /\ r = strip text /\ 50 <= String.length r)
              /\ String.length body_text <= String.length r
              /\ (forall selector text, In selector (sel :: rest) ->
                    page selector = Ok (Some text) ->
                    50 <= String.length (strip text) ->
                    String.length (strip text) <= String.length r)).
    { intros b Hlen Hb Hmax. cbn zeta.
      destruct (IH b) as (Hr & Hle & Hall). cbn zeta in *. repeat split.
      - destruct Hr as [Hr | (s & t & I & P & E & L)].
        + rewrite Hr. destruct Hb as [Hb | (t & P & E & L)]; [now left|].
          right. exists sel, t. repeat split; auto. now left.
        + right. exists s, t. repeat split; auto. now right.
      - lia.
      - intros s t [<- | I] P L.
        + specialize (Hmax t P L). lia.
        + now apply (Hall s t). }
    destruct (page sel) as [[text|]|e] eqn:P.
    + destruct ((50 <=? String.length (strip text))
                && (String.length body_text <? String.length (strip text))) eqn:C.
      * apply andb_prop in C as [C1 C2]. apply Nat.leb_le in C1. apply Nat.ltb_lt in C2.
        apply Skip; [lia | |].
        -- right. exists text. repeat split; auto.
        -- intros t Ht _. inversion Ht; subst. lia.
      * apply Skip; [lia | now left |].
        intros t Ht L. inversion Ht; subst.
        apply andb_false_iff in C as [C | C].
        -- apply Nat.leb_gt in C. lia.
        -- apply Nat.ltb_ge in C. exact C.
    + apply Skip; [lia | now left | intros t Ht; discriminate].
    + apply Skip; [lia | now left | intros t Ht; discriminate].
Qed.

(** X2.  When the extraction for a Naver blog returns a text, that text
    is the trimmed first-element text of one of the three primary
    selectors, has at least 50 characters, and no primary selector offers
    a longer one.  It returns nothing exactly when every primary selector
    offers less than 50 characters. *)
Theorem naver_text_is_longest_primary_text (page : document) :
  match _extract_naver_blog_content page with
  | Some body_text =>
      strip body_text = body_text /\ 50 <= String.length body_text
      /\ (exists selector text, In selector primary_selectors
                                /\ page selector = Ok (Some text) /\ body_text = strip text)
      /\ (forall selector text, In selector primary_selectors ->
            page selector = Ok (Some text) ->
            String.length (strip text) <= String.length body_text)
  | None =>
      forall selector text, In selector primary_selectors ->
        page selector = Ok (Some text) -> String.length (strip text) < 50
  end.
Proof.
  unfold _extract_naver_blog_content.
  destruct (best_primary_spec page primary_selectors EmptyString) as (Hr & _ & Hall).
  cbn zeta in *. set (r := best_primary page primary_selectors EmptyString) in *.
  assert (Hs : strip r = r).
  { destruct Hr as [-> | (s & t & _ & _ & -> & _)]; [reflexivity | apply strip_idem]. }
  rewrite Hs. destruct (50 <=? String.length r) eqn:C.
  - apply Nat.leb_le in C. repeat split; auto.
    + destruct Hr as [E | (s & t & I & P & E & _)].
      * rewrite E in C. cbn in C. lia.
      * now exists s, t.
    + intros s t I P.
      destruct (Nat.le_gt_cases 50 (String.length (strip t))) as [L | L].
      * now apply (Hall s t).
      * lia.
  - apply Nat.leb_gt in C. intros s t I P.
    destruct (Nat.le_gt_cases 50 (String.length (strip t))) as [L | L]; [|exact L].
    specialize (Hall s t I P L). lia.
Qed.

Lemma extracted_is_sufficient (page : document) (body_text : string) :
  _extract_naver_blog_content page = Some body_text ->
  (String.length (strip body_text) <? 50) = false.
Proof.
  unfold _extract_naver_blog_content.
  destruct (50 <=? _) eqn:C; [|discriminate].
  intros H. inversion H; subst. apply Nat.leb_le in C. apply Nat.ltb_ge. exact C.
Qed.

(** X3.  On a Naver blog address the text of a fetch without action does
    not depend on the frames of the page: a sufficient text of the main
    document is returned (cut to the limit), and without one the
    extraction's [None] makes the branch fail on [strip], so the frames
    are never consulted and the fetch ends in the error envelope. *)
Theorem naver_fetch_never_reads_frames
    (url : string) (page : document) (frames : res (list (res document))) (body : res string) :
  contains "blog.naver.com" url = true ->
  page_text url page frames body
  = match _extract_naver_blog_content page with
    | Some body_text => Ok (limit body_text)
    | None => Raise AttributeError
    end.
Proof.
  intros H. unfold page_text. rewrite H.
  destruct (_extract_naver_blog_content page) as [body_text|] eqn:E; [|reflexivity].
  now rewrite (extracted_is_sufficient page body_text E).
Qed.

(** The theorem of X3 on a page whose only text sits in a frame. *)
Lemma naver_fetch_witness :
  page_text "https://blog.naver.com/someone/1" (fun _ => Ok None)
    (Ok [Ok (fun _ => Ok (Some "a text that would have been long enough for the extraction to accept it"))])
    (Ok "body")
  = Raise AttributeError.
Proof.
  apply (naver_fetch_never_reads_frames "https://blog.naver.com/someone/1" (fun _ => Ok None)).
  reflexivity.
Defined.




End PageTextFacts.

(** ** [core/web_searcher.py] *)
Module WebSearcherFacts.
Import PyStr WebSearcher.

Lemma collect_spec (ddgs_results : list json) (results : list (list (string * json))) :
  collect ddgs_results = Ok results ->
  Forall (fun item => exists u, Json.get "url" item = JStr u /\ u <> EmptyString
                                /\ web_url u = true) results
  /\ List.length results <= List.length ddgs_results.
Proof.
  revert results. induction ddgs_results as [|r rest IH]; intros results; cbn [collect].
  - intros H. inversion H; subst. split; [constructor | cbn; lia].
  - destruct r as [| | | | |d]; try discriminate.
    destruct (valid_url (Json.get "url" (result_item d))) as [keep|e] eqn:V; [|discriminate].
    destruct (collect rest) as [l|e]; [|discriminate].
    intros H. inversion H; subst. destruct (IH l eq_refl) as [IH1 IH2].
    destruct keep; [|split; [exact IH1 | cbn [List.length]; lia]].
    split; [|cbn [List.length]; lia]. constructor; [|exact IH1].
    unfold valid_url in V.
    destruct (truthy (Json.get "url" (result_item d))) eqn:T; [|discriminate].
    destruct (Json.get "url" (result_item d)) as [| | |u| |] eqn:G; try discriminate.
    inversion V as [V']. exists u. split; [reflexivity|]. split.
    + cbn [truthy] in T. intros ->. discriminate.
    + reflexivity.
Qed.

(** X5.  Every hit a search returns carries a non-empty [url] text that
    starts with [http://] or [https://]; there are no more hits than the
    provider gave; and the list comprehension of the pipeline's search
    branch, which keeps the hits with a true [url], drops none of them. *)
Theorem returned_hits_have_web_urls {W : Type} (ddgs_text : string -> W -> res json * W)
    (query : json) (w w' : W) (search_results : list (list (string * json))) :
  search_links ddgs_text query w = (Ok search_results, w') ->
  Forall (fun item => exists u, Json.get "url" item = JStr u /\ u <> EmptyString
                                /\ web_url u = true) search_results
  /\ urls_for_pipeline search_results = List.map (Json.get "url") search_results.
Proof.
  intros H.
  assert (F : Forall (fun item => exists u, Json.get "url" item = JStr u /\ u <> EmptyString
                                            /\ web_url u = true) search_results).
  { unfold search_links in H.
    destruct (negb (truthy query)); [inversion H; constructor|].
    destruct query as [| | |q| |]; try discriminate.
    destruct (String.eqb (strip q) EmptyString); [inversion H; constructor|].
    destruct (ddgs_text q w) as [[v|e] w1]; [|discriminate].
    destruct (truthy v); [|inversion H; constructor].
    destruct v as [| | | |l|]; try discriminate.
    destruct (collect l) as [results|e] eqn:C; [|discriminate].
    inversion H; subst. now apply collect_spec in C. }
  split; [exact F|]. unfold urls_for_pipeline. f_equal.
  clear H. induction F as [|item l (u & G & N & _) F IH]; [reflexivity|].
  cbn [List.filter]. rewrite G. cbn [truthy].
  apply String.eqb_neq in N. rewrite N. cbn [negb]. now rewrite IH.
Qed.

(** The theorem of X5 on a provider that answers with one good hit, one
    hit without an address and one with a relative address. *)
Lemma returned_hits_witness :
  urls_for_pipeline [result_item [("title", JStr "A blog"); ("href", JStr "https://example.com/blog1")]]
  = [JStr "https://example.com/blog1"].
Proof.
  refine (proj2 (returned_hits_have_web_urls
                   (fun (_ : string) (w : nat) =>
                      (Ok (JList [JDict [("title", JStr "A blog");
                                         ("href", JStr "https://example.com/blog1")];
                                  JDict [("title", JStr "No address")];
                                  JDict [("href", JStr "/relative/path")]]), S w))
                   (JStr "blogs") 0 1
                   [result_item [("title", JStr "A blog"); ("href", JStr "https://example.com/blog1")]]
                   _)).
  reflexivity.
Defined.

(** X6.  A query that is empty, blank or otherwise false is answered with
    the empty list without a call on the provider: the world is as it
    was, whatever the provider would have done. *)
Theorem blank_query_is_not_searched {W : Type} (ddgs_text : string -> W -> res json * W)
    (query : json) (w : W) :
  truthy query = false \/ (exists q, query = JStr q /\ strip q = EmptyString) ->
  search_links ddgs_text query w = (Ok [], w).
Proof.
  intros [H | (q & -> & H)]; unfold search_links.
  - now rewrite H.
  - destruct (negb (truthy (JStr q))); [reflexivity|]. now rewrite H.
Qed.

(** The theorem of X6 on a query of three blanks. *)
Lemma blank_query_witness :
  search_links (fun (_ : string) (w : nat) => (Raise (OtherError "unreachable"), S w))
    (JStr "   ") 0
  = (Ok [], 0).
Proof.
  apply (blank_query_is_not_searched
           (fun (_ : string) (w : nat) => (Raise (OtherError "unreachable"), S w))
           (JStr "   ") 0).
  right. exists "   ". split; reflexivity.
Defined.

End WebSearcherFacts.

(** ** [core/data_extractor.py]: the shape of a record *)
Module RecordFacts.
Import PyStr PyStrFacts TrimFacts DataExtractor DataExtractorFacts Observers.

Lemma keys_set_present (k : string) (v : json) (d : list (string * json)) :
  In k (List.map fst d) -> List.map fst (Json.set k v d) = List.map fst d.
Proof.
  induction d as [|[k' v'] r IH]; cbn [List.map fst In Json.set]; [intros []|].
  destruct (String.eqb k' k) eqn:E.
  - apply String.eqb_eq in E. now subst.
  - intros [H | H]; [apply String.eqb_neq in E; congruence|].
    cbn [List.map fst]. now rewrite IH.
Qed.

Lemma in_fields_In (f : string) :
  in_fields f = true -> In f Settings.DATA_FIELDS_TO_EXTRACT.
Proof.
  unfold in_fields. intros H. apply existsb_exists in H as (x & I & E).
  apply String.eqb_eq in E. now subst.
Qed.

Lemma keys_map_field repr raw sd entry :
  List.map fst sd = Settings.DATA_FIELDS_TO_EXTRACT ->
  List.map fst (map_field repr raw sd entry) = Settings.DATA_FIELDS_TO_EXTRACT.
Proof.
  intros K. destruct entry as [t srcs]. unfold map_field.
  destruct (in_fields t) eqn:F; cbn [negb]; [|exact K].
  apply in_fields_In in F. rewrite <- K in F.
  destruct (usable _); [|exact K].
  destruct (String.eqb t "total_posts"); now rewrite keys_set_present.
Qed.

Lemma keys_fold_map_field repr raw table sd :
  List.map fst sd = Settings.DATA_FIELDS_TO_EXTRACT ->
  List.map fst (fold_left (map_field repr raw) table sd) = Settings.DATA_FIELDS_TO_EXTRACT.
Proof.
  revert sd. induction table as [|e tl IH]; intros sd K; [exact K|].
  cbn [fold_left]. apply IH. now apply keys_map_field.
Qed.

Lemma keys_fill_missing sd f :
  In f Settings.DATA_FIELDS_TO_EXTRACT ->
  List.map fst sd = Settings.DATA_FIELDS_TO_EXTRACT ->
  List.map fst (fill_missing sd f) = Settings.DATA_FIELDS_TO_EXTRACT.
Proof.
  intros I K. unfold fill_missing. rewrite <- K in I.
  destruct (lookup f sd) as [v|]; [destruct (usable v)|]; try exact K;
    now rewrite keys_set_present.
Qed.

Lemma keys_fold_fill_missing fields sd :
  incl fields Settings.DATA_FIELDS_TO_EXTRACT ->
  List.map fst sd = Settings.DATA_FIELDS_TO_EXTRACT ->
  List.map fst (fold_left fill_missing fields sd) = Settings.DATA_FIELDS_TO_EXTRACT.
Proof.
  revert sd. induction fields as [|f fs IH]; intros sd I K; [exact K|].
  cbn [fold_left]. apply IH.
  - intros x Hx. apply I. now right.
  - apply keys_fill_missing; [apply I; now left | exact K].
Qed.

Lemma structured_keys (repr : json -> string) (raw blog_url : json) :
  List.map fst (structure_blog_info repr raw blog_url) = Settings.DATA_FIELDS_TO_EXTRACT.
Proof.
  assert (K0 : List.map fst (initial_structure blog_url) = Settings.DATA_FIELDS_TO_EXTRACT)
    by reflexivity.
  unfold structure_blog_info. destruct raw as [| | | | |d].
  1-5: rewrite !keys_set_present; [exact K0 | rewrite K0; cbn; tauto
                                  | rewrite keys_set_present; rewrite K0; cbn; tauto].
  apply keys_fold_fill_missing; [apply incl_refl|].
  rewrite keys_set_present.
  - now apply keys_fold_map_field.
  - rewrite keys_fold_map_field by exact K0. cbn. tauto.
Qed.

(** X7.  Whatever was decoded and whatever the address, a structured
    record has exactly the nine fields of [DATA_FIELDS_TO_EXTRACT], in
    their order: no alias key and no key of the decoded value leaks into
    it, and no field is missing. *)
Theorem record_has_exactly_the_fields (repr : json -> string) (raw blog_url : json) :
  List.map fst (structure_blog_info repr raw blog_url) = Settings.DATA_FIELDS_TO_EXTRACT.
Proof. apply structured_keys. Qed.

Lemma keys_set_absent (k : string) (v : json) (d : list (string * json)) :
  ~ In k (List.map fst d) -> List.map fst (Json.set k v d) = List.map fst d ++ [k].
Proof.
  induction d as [|[k' v'] r IH]; cbn [List.map fst In Json.set app]; [reflexivity|].
  intros N. destruct (String.eqb k' k) eqn:E.
  - apply String.eqb_eq in E. subst. destruct N. now left.
  - cbn [List.map fst]. rewrite IH; [reflexivity|]. intros I. apply N. now right.
Qed.

Lemma lookup_absent (k : string) (d : list (string * json)) :
  ~ In k (List.map fst d) -> lookup k d = None.
Proof.
  induction d as [|[k' v'] r IH]; cbn [List.map fst In lookup]; [reflexivity|].
  intros N. destruct (String.eqb k' k) eqn:E.
  - apply String.eqb_eq in E. subst. destruct N. now left.
  - apply IH. intros I. apply N. now right.
Qed.

Lemma filled_usable (o : option json) :
  exists v, filled o = Some v /\ usable v = true.
Proof.
  destruct o as [v|]; cbn [filled].
  - destruct (usable v) eqn:E; [now exists v | now exists NOT_FOUND].
  - now exists NOT_FOUND.
Qed.

(** X8.  When the decoded value is a mapping, every field of the record
    holds a value that is neither [None] nor the empty string (a field
    nothing was found for holds the sentinel), and [total_posts] holds a
    text. *)
Theorem record_of_mapping_is_complete
    (repr : json -> string) (d : list (string * json)) (blog_url : json) :
  complete (structure_blog_info repr (JDict d) blog_url)
  /\ exists s, Json.get "total_posts" (structure_blog_info repr (JDict d) blog_url) = JStr s.
Proof.
  split.
  - intros f I. unfold structure_blog_info. rewrite fold_fill_missing.
    assert (E : existsb (fun f0 => String.eqb f0 f) Settings.DATA_FIELDS_TO_EXTRACT = true).
    { apply existsb_exists. exists f. split; [exact I | apply String.eqb_refl]. }
    rewrite E. apply filled_usable.
  - unfold Json.get.
    rewrite (structured_field repr d blog_url "total_posts"
               ["total_posts"; "total_posts_info"; "post_count"; "article_count";
                "number_of_posts"; "posts_count"]) by (cbn; tauto).
    set (v := find_source d _). destruct (usable v).
    + unfold coerced. cbn [String.eqb Ascii.eqb Bool.eqb filled usable].
      destruct (negb _); eexists; reflexivity.
    + cbn. eexists; reflexivity.
Qed.

Lemma replace_char_forallb (p : ascii -> bool) (a b : ascii) (s : string) :
  p b = true -> forallb (fun c => p c || Ascii.eqb c a) s = true ->
  forallb p (replace (String a EmptyString) (String b EmptyString) s) = true.
Proof.
  intros Hb. rewrite replace_char. induction s as [|c r IH]; [reflexivity|].
  cbn [forallb PyStr.map]. intros H. apply andb_prop in H as [H1 H2].
  rewrite (IH H2), andb_true_r.
  destruct (Ascii.eqb a c) eqn:E; [exact Hb|].
  apply orb_prop in H1 as [H1 | H1]; [exact H1|].
  rewrite Ascii.eqb_sym in H1. congruence.
Qed.

(** X9.  The host part of a derived identifier never holds a dot, a
    hyphen or a slash, whatever the address; the name part has at most 20
    characters, all of them alphanumeric. *)
Theorem identifier_parts_are_plain (url blog_name : string) :
  forallb host_id_char (blog_id_part url) = true
  /\ String.length (name_part blog_name) <= 20
  /\ forallb isalnum (name_part blog_name) = true.
Proof.
  repeat split.
  - unfold blog_id_part.
    apply (replace_char_forallb host_id_char "-" "_"); [reflexivity|].
    apply (replace_char_forallb (fun c => host_id_char c || Ascii.eqb c "-") "." "_");
      [reflexivity|].
    apply forallb_replace; [reflexivity|].
    pose proof (split_first_no_sep "/" (strip_scheme url)) as H.
    induction (split_first "/" (strip_scheme url)) as [|c r IH]; [reflexivity|].
    cbn [forallb] in *. apply andb_prop in H as [H1 H2]. rewrite (IH H2), andb_true_r.
    unfold host_id_char. apply negb_true_iff in H1. rewrite H1.
    destruct (Ascii.eqb c "."), (Ascii.eqb c "-"); reflexivity.
  - apply length_take.
  - unfold name_part. apply forallb_take. apply forallb_filter. trivial.
Qed.

End RecordFacts.

(** ** [core/browser_controller.py]: the use count *)
Module SessionFacts.
Import BrowserController BrowserFacts.


End SessionFacts.

(** ** [pipelines/agent_pipeline.py]: what a run does and never does *)
Module RunFacts.
Import PyStr Pipeline PipelineFacts Observers RecordFacts.

Section Facts.
Context {W : Type} (O : Oracles W).

(** *** Counting events *)

Lemma count_app (f : event -> bool) (l : list event) (e : event) :
  List.length (List.filter f (l ++ [e]))
  = List.length (List.filter f l) + (if f e then 1 else 0).
Proof. rewrite filter_app, length_app. cbn [List.filter]. now destruct (f e). Qed.

Lemma count_of_log {A} (f : event -> bool) (m : @M W A) :
  preserves log m -> preserves (count_of f) m.
Proof. intros H st. unfold count_of. now rewrite H. Qed.

Lemma count_emit (f : event -> bool) (e : event) :
  f e = false -> preserves (count_of f) (emit (W:=W) e).
Proof.
  intros H st. unfold count_of, emit. cbn [snd log].
  rewrite count_app, H. apply Nat.add_0_r.
Qed.

Lemma count_ensure (f : event -> bool) :
  f EvAcquire = false -> preserves (count_of f) (_ensure_browser O).
Proof.
  intros H st. unfold _ensure_browser, count_of.
  destruct (BrowserController.driver (browser st)); [|destruct (launch_driver O (world st))];
    destruct (BrowserController._ensure_browser _ _); cbn [snd log];
    rewrite count_app, H; apply Nat.add_0_r.
Qed.

Lemma count_release (f : event -> bool) (b : bool) :
  f (EvRelease b) = false -> preserves (count_of f) (_maybe_close_browser (W:=W) b).
Proof.
  intros H st. unfold _maybe_close_browser, count_of. cbn [snd log].
  rewrite count_app, H. apply Nat.add_0_r.
Qed.

(** *** The store *)

Lemma store_ask {A} (g : W -> A * W) : preserves final_structured_blog_data (ask g).
Proof. intros st. unfold ask. now destruct (g (world st)). Qed.

Lemma store_emit (e : event) : preserves final_structured_blog_data (emit (W:=W) e).
Proof. intros st. reflexivity. Qed.

Lemma store_append_message (m : message) :
  preserves final_structured_blog_data (append_message (W:=W) m).
Proof. intros st. reflexivity. Qed.

Lemma store_ensure : preserves final_structured_blog_data (_ensure_browser O).
Proof.
  intros st. unfold _ensure_browser.
  destruct (BrowserController.driver (browser st)); [|destruct (launch_driver O (world st))];
    destruct (BrowserController._ensure_browser _ _); reflexivity.
Qed.

Lemma store_close (b : bool) :
  preserves final_structured_blog_data (_maybe_close_browser (W:=W) b).
Proof. intros st. reflexivity. Qed.

Create HintDb cov.
Hint Resolve preserves_ret preserves_raise preserves_lift preserves_get_history
  preserves_get_collected log_ask log_append_record log_append_message log_set_collected
  store_ask store_emit store_append_message store_ensure store_close
  log_exec_extract log_exec_search log_exec_analyze log_exec_refine log_exec_finalize : cov.
Hint Extern 2 (preserves (count_of _) _) => (apply count_of_log; solve [auto with cov]) : cov.

Ltac cov_step :=
  match goal with
  | |- preserves _ (bind _ _) => apply preserves_bind; [|intros]
  | |- preserves _ (try_except _ _) => apply preserves_try_except; [|intros]
  | |- preserves _ (if ?b then _ else _) => destruct b
  | |- preserves _ (match ?x with _ => _ end) => destruct x
  | |- preserves _ _ => solve [auto with cov]
  end.

Lemma store_exec_search (tool_args : json) :
  preserves final_structured_blog_data (exec_search O tool_args).
Proof. unfold exec_search. repeat cov_step. Qed.

Lemma store_exec_analyze (tool_args : json) :
  preserves final_structured_blog_data (exec_analyze O tool_args).
Proof. unfold exec_analyze. repeat cov_step. Qed.

Lemma store_exec_refine (tool_args : json) :
  preserves final_structured_blog_data (exec_refine O tool_args).
Proof. unfold exec_refine. repeat cov_step. Qed.

Lemma store_exec_finalize (tool_args : json) :
  preserves final_structured_blog_data (exec_finalize O tool_args).
Proof. unfold exec_finalize. repeat cov_step. Qed.

Lemma store_browse_website (url : string) (action selector input_text : json) :
  preserves final_structured_blog_data (browse_website O url action selector input_text).
Proof. unfold browse_website. repeat cov_step. Qed.

Lemma store_save_data (data : list record) (filename_prefix : string) :
  preserves final_structured_blog_data (save_data O data filename_prefix).
Proof. unfold save_data. repeat cov_step. Qed.

Hint Resolve store_exec_search store_exec_analyze store_exec_refine store_exec_finalize
  store_browse_website store_save_data : cov.

(** *** Events the tools, the session and the writer never log *)

Section Quiet.
Variable f : event -> bool.
Hypothesis Q : quiet f.

Lemma quiet_tool (n : string) (a : json) : preserves (count_of f) (emit (W:=W) (EvTool n a)).
Proof. apply count_emit, Q. Qed.

Lemma quiet_tool_result (n : string) :
  preserves (count_of f) (emit (W:=W) (EvToolResult n)).
Proof. apply count_emit, Q. Qed.

Lemma quiet_cap : preserves (count_of f) (emit (W:=W) EvCapReached).
Proof. apply count_emit, Q. Qed.

Lemma quiet_ensure : preserves (count_of f) (_ensure_browser O).
Proof. apply count_ensure, Q. Qed.

Lemma quiet_release (b : bool) : preserves (count_of f) (_maybe_close_browser (W:=W) b).
Proof. apply count_release, Q. Qed.

Lemma quiet_save (r : record) (l : list record) (p : string) :
  preserves (count_of f) (save_data O (r :: l) p).
Proof.
  unfold save_data. apply preserves_bind; [apply count_emit, Q | intros _].
  auto with cov.
Qed.

Hint Resolve quiet_tool quiet_tool_result quiet_cap quiet_ensure quiet_release quiet_save : cov.

Lemma quiet_execute_tool_call (tool_name : string) (tool_args : json) :
  preserves (count_of f) (_execute_tool_call O tool_name tool_args).
Proof.
  unfold _execute_tool_call, exec_fetch, after_browse, auto_extract, execute_extract_call,
    browse_website.
  repeat cov_step.
Qed.

Lemma quiet_dispatch (tool_calls : list tool_call) :
  preserves (count_of f) (dispatch O tool_calls).
Proof.
  pose proof quiet_execute_tool_call.
  induction tool_calls as [|tc rest IH]; cbn [dispatch]; repeat cov_step; auto.
Qed.

Lemma quiet_after_turn_event (turn_count : nat) (st : St W) :
  count_of f (snd (turn O turn_count st))
  = count_of f (snd (emit (W:=W) (EvTurn turn_count) st)).
Proof.
  pose proof quiet_dispatch.
  unfold turn at 1. unfold bind at 1.
  change (emit (EvTurn turn_count) st)
    with (Ok tt, snd (emit (W:=W) (EvTurn turn_count) st)).
  cbv iota beta.
  match goal with
  | |- count_of f (snd (?m ?s)) = _ =>
      assert (P : preserves (count_of f) m); [|apply P]
  end.
  repeat cov_step; auto.
Qed.

Lemma quiet_after_try : preserves (count_of f) (after_try O).
Proof.
  unfold after_try. repeat cov_step.
  cbn [List.map]. auto with cov.
Qed.

End Quiet.

Lemma quiet_is_turn : quiet is_turn.
Proof. repeat split. Qed.

Lemma quiet_is_empty_save : quiet is_empty_save.
Proof. repeat split. Qed.

Lemma turn_counts_one (turn_count : nat) (st : St W) :
  count_of is_turn (snd (turn O turn_count st)) = count_of is_turn st + 1.
Proof.
  rewrite (quiet_after_turn_event is_turn quiet_is_turn).
  unfold count_of, emit. cbn [snd log]. now rewrite count_app.
Qed.

Lemma turns_count_at_most (remaining turn_count : nat) (st : St W) :
  count_of is_turn (snd (turns O remaining turn_count st)) <= count_of is_turn st + remaining.
Proof.
  revert turn_count st. induction remaining as [|k IH]; intros turn_count st; cbn [turns].
  - cbn. lia.
  - unfold bind. pose proof (turn_counts_one turn_count st) as Ht.
    destruct (turn O turn_count st) as [[[| |v]|e] st1]; cbn [fst snd ret] in *; try lia.
    specialize (IH (S turn_count) st1). lia.
Qed.

Lemma try_body_count_at_most (max_turns : nat) (st : St W) :
  count_of is_turn (snd (try_body O max_turns st)) <= count_of is_turn st + max_turns.
Proof.
  unfold try_body, bind, try_except.
  pose proof (count_ensure is_turn eq_refl st) as He.
  destruct (_ensure_browser O st) as [[[]|e] st1]; cbn [snd raise] in *; [|lia].
  pose proof (turns_count_at_most max_turns 0 st1) as Ht.
  destruct (turns O max_turns 0 st1) as [[[| |v]|e] st2]; cbn [fst snd ret emit] in *;
    try lia;
    unfold count_of in *; cbn [log]; rewrite count_app; cbn; lia.
Qed.

(** X10.  A run asks the reasoning service for at most [max_turns] turns:
    between its start and its end the log gains at most [max_turns] turn
    entries, whatever the service, the tools and the pages do. *)
Theorem run_takes_at_most_max_turns
    (max_turns : nat) (initial_keywords : list string) (st0 : St W) :
  count_of is_turn (snd (run_agent O max_turns initial_keywords st0))
  <= count_of is_turn st0 + max_turns.
Proof.
  unfold run_agent.
  match goal with
  | |- context [try_body O max_turns ?s] =>
      pose proof (try_body_count_at_most max_turns s) as Hb;
      destruct (try_body O max_turns s) as [outcome st2]
  end.
  cbn [snd] in Hb. change (count_of is_turn _ + max_turns)
    with (count_of is_turn st0 + max_turns) in Hb.
  pose proof (count_release is_turn true eq_refl st2) as Hc.
  destruct (_maybe_close_browser true st2) as [r st3]. cbn [snd] in Hc.
  destruct outcome as [[| |v]|[m| | |n]]; cbn [snd];
    try rewrite (quiet_after_try is_turn quiet_is_turn); lia.
Qed.

(** X11.  A run never calls the writer on an empty list: every save it
    logs, on the finalize path, after the loop and for the recovered
    addresses, carries at least one record. *)
Theorem run_never_saves_an_empty_list
    (max_turns : nat) (initial_keywords : list string) (st0 : St W) :
  count_of is_empty_save (snd (run_agent O max_turns initial_keywords st0))
  = count_of is_empty_save st0.
Proof.
  assert (Turns : forall remaining turn_count,
             preserves (count_of is_empty_save) (turns O remaining turn_count)).
  { induction remaining as [|k IH]; intros turn_count; cbn [turns]; [auto with cov|].
    intros st. unfold bind.
    pose proof (quiet_after_turn_event is_empty_save quiet_is_empty_save turn_count st) as Ht.
    rewrite (count_emit is_empty_save (EvTurn turn_count) eq_refl st) in Ht.
    destruct (turn O turn_count st) as [[[| |v]|e] st1]; cbn [fst snd ret] in *; try exact Ht.
    now rewrite IH. }
  assert (Body : preserves (count_of is_empty_save) (try_body O max_turns)).
  { unfold try_body.
    apply preserves_bind.
    { apply preserves_try_except; [apply count_ensure; reflexivity | auto with cov]. }
    intros _. apply preserves_bind; [apply Turns | intros fl].
    destruct fl; auto with cov;
      (apply preserves_bind; [apply count_emit; reflexivity | auto with cov]). }
  unfold run_agent.
  match goal with
  | |- context [try_body O max_turns ?s] =>
      pose proof (Body s) as Hb; destruct (try_body O max_turns s) as [outcome st2]
  end.
  cbn [snd] in Hb. change (count_of is_empty_save st2 = count_of is_empty_save st0) in Hb.
  pose proof (count_release is_empty_save true eq_refl st2) as Hc.
  destruct (_maybe_close_browser true st2) as [r st3]. cbn [snd] in Hc.
  destruct outcome as [[| |v]|[m| | |n]]; cbn [snd];
    try rewrite (quiet_after_try is_empty_save quiet_is_empty_save); congruence.
Qed.


(** *** Lookups *)

Lemma get_default_present (k : string) (dflt : json) (d : list (string * json)) :
  In k (List.map fst d) -> Json.get_default k dflt d = Json.get k d.
Proof.
  unfold Json.get_default, Json.get.
  induction d as [|[k' v'] r IH]; cbn [List.map fst In lookup]; [intros []|].
  destruct (String.eqb k' k) eqn:E; [reflexivity|].
  intros [H | H]; [apply String.eqb_neq in E; congruence | now apply IH].
Qed.

(** *** The extraction tool *)

Lemma exec_extract_effect (tool_args : json) (st : St W) :
  let out := exec_extract O tool_args st in
  match fst out with
  | Ok r =>
      if is_str "success" (status_of r) then
        exists sd summary,
          final_structured_blog_data (snd out) = final_structured_blog_data st ++ [sd]
          /\ List.map fst sd = Settings.DATA_FIELDS_TO_EXTRACT ++ ["source_keyword"]
          /\ dyn_get "extraction_summary" r = Ok (JDict summary)
          /\ Forall (fun k => Json.get k summary = Json.get k sd)
               ["blog_name"; "blog_id"; "recent_post_date"; "total_posts"; "source_keyword"]
      else final_structured_blog_data (snd out) = final_structured_blog_data st
  | Raise _ => final_structured_blog_data (snd out) = final_structured_blog_data st
  end.
Proof.
  cbn zeta. unfold exec_extract, bind, lift, get_history, ret, raise.
  destruct (dyn_get "text_content" tool_args) as [text_content|]; [|reflexivity].
  destruct (dyn_get "original_url" tool_args) as [u1|]; [|reflexivity].
  destruct (dyn_get "url" tool_args) as [u2|]; [|reflexivity].
  destruct (dyn_get_default "source_keyword" _ tool_args) as [sk|]; [|reflexivity].
  destruct (recover_keyword O sk (messages_history st)) as [source_keyword|]; [|reflexivity].
  destruct (negb (truthy text_content)); [reflexivity|].
  destruct (negb (truthy (dyn_or u1 u2))); [reflexivity|].
  destruct text_content as [| | |text| |]; try reflexivity.
  destruct (String.length (strip text) =? 0); [reflexivity|].
  destruct (String.length (strip text) <? 50); [reflexivity|].
  unfold ask. destruct (chat_with_ollama_for_tools O _ false (world st)) as [[reply calls] w].
  cbn [fst snd]. destruct reply as [extracted_json_string|]; [|reflexivity].
  destruct (decode_extraction O extracted_json_string) as [[extracted_info_dict|]|e];
    [|reflexivity|reflexivity].
  set (sd0 := DataExtractor.structure_blog_info (py_repr O) extracted_info_dict (dyn_or u1 u2)).
  assert (K0 : List.map fst sd0 = Settings.DATA_FIELDS_TO_EXTRACT) by apply structured_keys.
  assert (N : ~ In "source_keyword" (List.map fst sd0)).
  { rewrite K0. cbn. intros H. repeat (destruct H as [H|H]; [discriminate H|]). exact H. }
  assert (G : truthy (Json.get "source_keyword" sd0) = false).
  { unfold Json.get. now rewrite (lookup_absent _ _ N). }
  rewrite G.
  set (sd := Json.set "source_keyword" source_keyword sd0).
  assert (K : List.map fst sd = Settings.DATA_FIELDS_TO_EXTRACT ++ ["source_keyword"]).
  { unfold sd. now rewrite keys_set_absent, K0. }
  unfold append_record. cbn [fst snd final_structured_blog_data status_of].
  change (is_str "success" (Json.get "status" _)) with true. cbv iota.
  eexists sd, _. split; [reflexivity|]. split; [exact K|]. split; [reflexivity|].
  repeat constructor;
    (etransitivity; [|apply get_default_present; rewrite K; cbn; tauto]); reflexivity.
Qed.


(** X13.  A text of fewer than 50 characters after trimming is never sent
    to the reasoning service: the extraction tool leaves world, store,
    history and log as they were, and answers with the status [error]
    (or with the exception of the keyword recovery, which runs first). *)
Theorem extraction_rejects_short_text
    (d : list (string * json)) (text : string) (st : St W) :
  Json.get "text_content" d = JStr text ->
  String.length (strip text) < 50 ->
  snd (exec_extract O (JDict d) st) = st
  /\ match recover_keyword O (Json.get_default "source_keyword" (JStr "unknown_keyword") d)
             (messages_history st) with
     | Ok _ => exists r, fst (exec_extract O (JDict d) st) = Ok r
                         /\ status_of r = JStr "error"
     | Raise e => fst (exec_extract O (JDict d) st) = Raise e
     end.
Proof.
  intros Ht Hl. unfold exec_extract, bind, lift, get_history, ret, raise, dyn_get,
    dyn_get_default.
  rewrite Ht. cbn [fst snd].
  destruct (recover_keyword O _ (messages_history st)) as [k|e]; [|split; reflexivity].
  destruct (negb (truthy (JStr text))); [split; [reflexivity | eexists; split; reflexivity]|].
  destruct (negb (truthy _)); [split; [reflexivity | eexists; split; reflexivity]|].
  destruct (String.length (strip text) =? 0);
    [split; [reflexivity | eexists; split; reflexivity]|].
  apply Nat.ltb_lt in Hl. rewrite Hl.
  split; [reflexivity | eexists; split; reflexivity].
Qed.

(** *** Records the tools add *)

Lemma adds_of_preserves {A} (m : @M W A) :
  preserves final_structured_blog_data m -> adds_at_most_one m.
Proof. intros H st. left. apply H. Qed.

Lemma adds_bind_after {A B} (m : @M W A) (k : A -> @M W B) :
  preserves final_structured_blog_data m -> (forall a, adds_at_most_one (k a)) ->
  adds_at_most_one (bind m k).
Proof.
  intros Hm Hk st. unfold bind. specialize (Hm st).
  destruct (m st) as [[a|e] st1]; cbn [snd] in *.
  - rewrite <- Hm. apply Hk.
  - now left.
Qed.

Lemma adds_bind_before {A B} (m : @M W A) (k : A -> @M W B) :
  adds_at_most_one m -> (forall a, preserves final_structured_blog_data (k a)) ->
  adds_at_most_one (bind m k).
Proof.
  intros Hm Hk st. unfold bind. specialize (Hm st).
  destruct (m st) as [[a|e] st1]; cbn [snd] in *.
  - rewrite (Hk a st1). exact Hm.
  - exact Hm.
Qed.

Lemma adds_try_except {A} (m : @M W A) (h : exn -> @M W A) :
  adds_at_most_one m -> (forall e, preserves final_structured_blog_data (h e)) ->
  adds_at_most_one (try_except m h).
Proof.
  intros Hm Hh st. unfold try_except. specialize (Hm st).
  destruct (m st) as [[a|e] st1]; cbn [snd] in *.
  - exact Hm.
  - rewrite (Hh e st1). exact Hm.
Qed.

Lemma adds_exec_extract (tool_args : json) : adds_at_most_one (exec_extract O tool_args).
Proof.
  intros st. pose proof (exec_extract_effect tool_args st) as H. cbn zeta in H.
  destruct (fst (exec_extract O tool_args st)) as [r|e]; [|now left].
  destruct (is_str "success" (status_of r)); [|now left].
  destruct H as (sd & summary & H & _). right. now exists sd.
Qed.

Lemma adds_execute_extract_call (tool_args : json) :
  adds_at_most_one (execute_extract_call O tool_args).
Proof.
  unfold execute_extract_call.
  apply adds_bind_after; [auto with cov | intros _; apply adds_exec_extract].
Qed.

Lemma adds_after_browse (u : string) (fields : json) (raw : browse_result) :
  adds_at_most_one (after_browse O u fields raw).
Proof.
  unfold after_browse.
  destruct (String.eqb (br_status raw) "success"); [|apply adds_of_preserves; auto with cov].
  apply adds_bind_before; [|auto with cov].
  repeat match goal with
         | |- adds_at_most_one (if ?b then _ else _) => destruct b
         end; try solve [apply adds_of_preserves; auto with cov].
  unfold auto_extract. apply adds_try_except; [|auto with cov].
  apply adds_bind_before; [apply adds_execute_extract_call | auto with cov].
Qed.

Lemma adds_exec_fetch (tool_args : json) : adds_at_most_one (exec_fetch O tool_args).
Proof.
  unfold exec_fetch.
  repeat (apply adds_bind_after; [auto with cov | intros]).
  destruct (negb (truthy _)); [apply adds_of_preserves; auto with cov|].
  match goal with
  | |- adds_at_most_one (match ?x with _ => _ end) => destruct x
  end; try solve [apply adds_of_preserves; auto with cov].
  destruct (negb _); [apply adds_of_preserves; auto with cov|].
  apply adds_bind_after; [auto with cov | intros [[action_type selector] input_text]].
  apply adds_bind_after; [auto with cov | intros raw]. apply adds_after_browse.
Qed.

Lemma adds_execute_tool_call (tool_name : string) (tool_args : json) :
  adds_at_most_one (_execute_tool_call O tool_name tool_args).
Proof.
  unfold _execute_tool_call. apply adds_bind_after; [auto with cov | intros _].
  repeat match goal with
         | |- adds_at_most_one (if ?b then _ else _) => destruct b
         end;
    first [apply adds_exec_fetch | apply adds_exec_extract
          | apply adds_of_preserves; auto with cov].
Qed.

(** X14.  One invocation of a tool adds at most one record to the store
    and takes none away: the store afterwards is the store before, or the
    store before with one record appended, for every tool name and every
    argument, also when the tool raises. *)
Theorem tool_call_adds_at_most_one_record (tool_name : string) (tool_args : json) :
  adds_at_most_one (_execute_tool_call O tool_name tool_args).
Proof. apply adds_execute_tool_call. Qed.

(** *** The store along the loop *)

Lemma extends_of_adds {A} (m : @M W A) : adds_at_most_one m -> extends_store m.
Proof.
  intros H st. destruct (H st) as [E | [r E]].
  - exists []. now rewrite app_nil_r.
  - now exists [r].
Qed.

Lemma extends_of_preserves {A} (m : @M W A) :
  preserves final_structured_blog_data m -> extends_store m.
Proof. intros H. now apply extends_of_adds, adds_of_preserves. Qed.

Lemma extends_bind {A B} (m : @M W A) (k : A -> @M W B) :
  extends_store m -> (forall a, extends_store (k a)) -> extends_store (bind m k).
Proof.
  intros Hm Hk st. unfold bind. destruct (Hm st) as [l1 H1].
  destruct (m st) as [[a|e] st1]; cbn [snd] in *.
  - destruct (Hk a st1) as [l2 H2]. exists (l1 ++ l2). now rewrite H2, H1, app_assoc.
  - now exists l1.
Qed.

Lemma extends_dispatch (tool_calls : list tool_call) : extends_store (dispatch O tool_calls).
Proof.
  induction tool_calls as [|tc rest IH]; cbn [dispatch].
  - apply extends_of_preserves. auto with cov.
  - destruct (loads_arguments O (tc_arguments tc)) as [tool_args|].
    + apply extends_bind; [apply extends_of_adds, adds_execute_tool_call | intros r].
      repeat (apply extends_bind; [apply extends_of_preserves; auto with cov | intros]).
      destruct (_ && _); [|exact IH].
      apply extends_of_preserves. repeat cov_step.
    + apply extends_bind; [apply extends_of_preserves; auto with cov | intros _; exact IH].
Qed.

Lemma extends_turn (turn_count : nat) : extends_store (turn O turn_count).
Proof.
  unfold turn.
  repeat (apply extends_bind; [apply extends_of_preserves; auto with cov | intros]).
  match goal with
  | |- extends_store (match ?x with _ => _ end) => destruct x
  end; [apply extends_of_preserves; auto with cov | apply extends_dispatch].
Qed.

Lemma extends_turns (remaining turn_count : nat) :
  extends_store (turns O remaining turn_count).
Proof.
  revert turn_count. induction remaining as [|k IH]; intros turn_count; cbn [turns].
  - apply extends_of_preserves. auto with cov.
  - apply extends_bind; [apply extends_turn | intros [| |v]];
      [apply IH | |]; apply extends_of_preserves; auto with cov.
Qed.

(** X15.  The loop only ever appends to the store: after the [try] block
    of a run, however it ended, the store is the store it started from
    followed by the records added on the way; no record is dropped,
    replaced or reordered. *)
Theorem loop_only_appends_to_the_store (max_turns : nat) (st : St W) :
  exists added,
    final_structured_blog_data (snd (try_body O max_turns st))
    = final_structured_blog_data st ++ added.
Proof.
  assert (H : extends_store (try_body O max_turns)); [|apply H].
  unfold try_body.
  apply extends_bind; [apply extends_of_preserves; repeat cov_step | intros _].
  apply extends_bind; [apply extends_turns | intros fl].
  apply extends_of_preserves. destruct fl; repeat cov_step.
Qed.

(** *** The fetch tool and the session *)



(** *** The finalize tool *)

(** X18.  When the finalize tool returns, its status is [success] and
    [final_blog_count] is the number of records in the store, which it
    leaves as it was together with history and log; on an empty store it
    returns without a call on the reasoning service. *)
Theorem finalize_reports_the_store
    (tool_args r : json) (st st' : St W) :
  exec_finalize O tool_args st = (Ok r, st') ->
  status_of r = JStr "success"
  /\ dyn_get "final_blog_count" r
     = Ok (JInt (Z.of_nat (List.length (final_structured_blog_data st))))
  /\ final_structured_blog_data st' = final_structured_blog_data st
  /\ messages_history st' = messages_history st
  /\ log st' = log st
  /\ (final_structured_blog_data st = [] -> st' = st).
Proof.
  intros H.
  pose proof (store_exec_finalize tool_args st) as Hs.
  pose proof (history_exec_finalize O tool_args st) as Hh.
  pose proof (log_exec_finalize O tool_args st) as Hl.
  rewrite H in Hs, Hh, Hl. cbn [snd] in Hs, Hh, Hl.
  repeat (split; [|assumption]) || split; try assumption.
  all: revert H; unfold exec_finalize, bind, lift, get_collected, ret.
  all: destruct (dyn_get_default "all_tasks_completed" _ tool_args) as [a|]; [|discriminate].
  all: destruct (dyn_get_default "quality_score" _ tool_args) as [q|]; [|discriminate].
  all: destruct (dyn_get_default "recommendations" _ tool_args) as [rc|]; [|discriminate].
  all: destruct (final_structured_blog_data st) as [|first rest] eqn:E.
  all: try (intros H; inversion H; subst; try reflexivity; intros; try reflexivity;
            discriminate).
  all: unfold ask; destruct (chat_with_ollama_for_tools O _ false (world st)) as [[reply calls] w];
    cbn [fst snd]; destruct (loads_reply O reply) as [[v|]|e]; try discriminate.
  all: try (destruct (dyn_get_default "overall_success_rate" q v) as [score|]; [|discriminate]).
  all: intros H; inversion H; subst; try reflexivity; intros; discriminate.
Qed.


(** *** The ends of a run *)

(** X19.  When the browser cannot be started, a run ends before its
    first turn: it returns [None], logs the failed acquisition and the
    forced release of its [finally] clause and nothing else, asks the
    reasoning service nothing, and calls the writer on nothing. *)
Theorem failed_launch_ends_the_run
    (max_turns : nat) (initial_keywords : list string) (st0 : St W) :
  BrowserController.driver (browser st0) = false ->
  fst (launch_driver O (world st0)) = false ->
  let out := run_agent O max_turns initial_keywords st0 in
  fst out = Ok None
  /\ log (snd out) = log st0 ++ [EvAcquire; EvRelease true]
  /\ final_structured_blog_data (snd out) = []
  /\ world (snd out) = snd (launch_driver O (world st0)).
Proof.
  intros Hd Hl. cbn zeta.
  unfold run_agent, try_body, bind, try_except, _ensure_browser, raise.
  cbn [browser world]. rewrite Hd.
  destruct (launch_driver O (world st0)) as [ok w]. cbn [fst] in Hl. subst ok.
  unfold BrowserController._ensure_browser. rewrite Hd.
  cbn [fst snd Pipeline._maybe_close_browser log final_structured_blog_data world].
  repeat split. now rewrite <- app_assoc.
Qed.

(** X20.  A run that leaves its [try] block without a finalize and
    without a [RuntimeError] (by the turn cap, by an assistant turn
    without calls, or by any other exception) and has records in its store
    saves exactly those records under the partial prefix, after the forced
    release, and returns what the writer returns. *)
Theorem unfinished_run_saves_what_it_has
    (max_turns : nat) (initial_keywords : list string) (st0 st2 : St W)
    (outcome : res flow) (r : record) (l : list record) :
  try_body O max_turns
    (mk_st (world st0) (browser st0)
       [SystemMsg (improved_system_prompt O); UserMsg (user_query initial_keywords)]
       [] (log st0))
  = (outcome, st2) ->
  falls_through outcome = true ->
  final_structured_blog_data st2 = r :: l ->
  let out := run_agent O max_turns initial_keywords st0 in
  fst out = Ok (fst (write_file O (r :: l) "agent_blog_data_partial" (world st2)))
  /\ log (snd out)
     = log st2 ++ [EvRelease true; EvSave (r :: l) "agent_blog_data_partial"]
  /\ final_structured_blog_data (snd out) = r :: l.
Proof.
  intros Hb Hf Hs. cbn zeta. unfold run_agent. rewrite Hb.
  unfold Pipeline._maybe_close_browser.
  assert (E : after_try O
                (mk_st (world st2) (BrowserController._maybe_close_browser true (browser st2))
                   (messages_history st2) (final_structured_blog_data st2)
                   (log st2 ++ [EvRelease true]))
              = (Ok (fst (write_file O (r :: l) "agent_blog_data_partial" (world st2))),
                 mk_st (snd (write_file O (r :: l) "agent_blog_data_partial" (world st2)))
                   (BrowserController._maybe_close_browser true (browser st2))
                   (messages_history st2) (r :: l)
                   ((log st2 ++ [EvRelease true])
                    ++ [EvSave (r :: l) "agent_blog_data_partial"]))).
  { unfold after_try, save_data, bind, get_collected, emit, ask.
    cbn [fst snd final_structured_blog_data world browser messages_history log].
    rewrite Hs.
    cbn [fst snd final_structured_blog_data world browser messages_history log].
    now destruct (write_file O (r :: l) "agent_blog_data_partial" (world st2)). }
  destruct outcome as [[| |v]|[m| | |n]]; try discriminate Hf;
    rewrite E; cbn [fst snd log final_structured_blog_data];
    (repeat split; now rewrite <- app_assoc).
Qed.

(** *** The addresses of a search *)

Lemma urls_in_history_snoc (history : list message) (m : message) (found : list json) :
  urls_in_history O [m] = Ok found ->
  urls_in_history O (history ++ [m])
  = match urls_in_history O history with
    | Ok urls => Ok (urls ++ found)
    | Raise e => Raise e
    end.
Proof.
  intros Hm. induction history as [|h rest IH]; [cbn [app]; now rewrite Hm|].
  cbn [app urls_in_history]. rewrite IH.
  destruct h as [t|t|t calls|id name c]; try reflexivity.
  destruct (String.eqb name "search_web_for_blogs"); [|reflexivity].
  destruct (loads_content O c) as [v|]; [|reflexivity].
  destruct (dyn_get "status" v) as [status|]; [|reflexivity].
  destruct (dyn_get "found_urls" v) as [found_urls|]; [|reflexivity].
  destruct (urls_in_history O rest) as [urls|]; [|reflexivity].
  destruct (is_str "success" status && truthy found_urls); [|reflexivity].
  now rewrite app_assoc.
Qed.

(** X21.  Every address a successful search reports is found again by
    the scan that recovers bare addresses after the loop: once the result
    of the search is in the history as a tool turn, the scan yields what
    it yielded before followed by the addresses of that result, none of
    them empty, in the order the search gave them. *)
Theorem search_hits_reach_the_url_scan
    (d : list (string * json)) (st st' : St W) (r : json) (id : call_id)
    (history : list message) (before : list json) :
  exec_search O (JDict d) st = (Ok r, st') ->
  status_of r = JStr "success" ->
  urls_in_history O history = Ok before ->
  exists urls,
    Forall (fun u => u <> EmptyString) urls
    /\ dyn_get "found_urls" r = Ok (JList (List.map JStr urls))
    /\ urls_in_history O (history ++ [ToolMsg id "search_web_for_blogs" (JsonContent r)])
       = Ok (before ++ List.map JStr urls).
Proof.
  intros He Hs Hb. revert He.
  unfold exec_search, bind, lift, dyn_get, ret, ask.
  destruct (negb (truthy (Json.get "keyword" d))).
  { intros H. inversion H; subst. discriminate Hs. }
  destruct (search_links O (Json.get "keyword" d) (world st)) as [search_results w].
  intros H. inversion H; subst. clear H Hs.
  set (urls := List.filter (fun u => negb (String.eqb u EmptyString)) search_results).
  exists urls. split; [|split; [reflexivity|]].
  - apply Forall_forall. intros u I. apply filter_In in I as [_ I].
    apply negb_true_iff in I. now apply String.eqb_neq.
  - rewrite (urls_in_history_snoc history _ (List.map JStr urls)); [now rewrite Hb|].
    cbn [urls_in_history String.eqb Ascii.eqb Bool.eqb loads_content dyn_get].
    change (Json.get "status" _) with (JStr "success").
    change (Json.get "found_urls" _) with (JList (List.map JStr urls)).
    cbn [is_str String.eqb Ascii.eqb Bool.eqb andb insertions].
    rewrite hashable_prefix_strings.
    destruct urls; [reflexivity|]. cbn [List.map truthy]. now rewrite app_nil_r.
Qed.

(** *** The Response Interpreter *)

Lemma is_valid_tool_In (n : string) :
  is_valid_tool (JStr n) = true -> In n Settings.TOOLS_SPEC.
Proof.
  unfold is_valid_tool. intros H. apply existsb_exists in H as (x & I & E).
  cbn [is_str] in E. apply String.eqb_eq in E. now subst.
Qed.

Lemma calls_from_parsed_spec (parsed : json) (calls : list tool_call) :
  calls_from_parsed parsed = Ok calls ->
  calls = []
  \/ exists n args, calls = [mk_call (CallFromContent args) n (ArgDumped args)]
                    /\ In n Settings.TOOLS_SPEC
                    /\ dyn_index "name" parsed = Ok (JStr n)
                    /\ dyn_index "parameters" parsed = Ok args.
Proof.
  unfold calls_from_parsed.
  destruct (truthy parsed); [|intros H; inversion H; now left].
  destruct (dyn_in "name" parsed) as [[|]|]; [|intros H; inversion H; now left|discriminate].
  destruct (dyn_in "parameters" parsed) as [[|]|];
    [|intros H; inversion H; now left|discriminate].
  destruct (dyn_index "name" parsed) as [name|] eqn:En; [|discriminate].
  destruct (dyn_index "parameters" parsed) as [args|]; [|discriminate].
  destruct name as [| | |n| |]; try (intros H; inversion H; now left).
  destruct (is_valid_tool (JStr n)) eqn:V; [|intros H; inversion H; now left].
  intros H. inversion H; subst. right. exists n, args.
  repeat split. now apply is_valid_tool_In.
Qed.

(** X22.  From the text of a reply without structured calls the
    interpreter recovers at most one call, and only for a tool of
    [TOOLS_SPEC]; the call carries the parsed [parameters] as its decoded
    arguments, so its arguments never fail to decode in the dispatcher. *)
Theorem interpreter_recovers_one_known_call
    (content : string) (history : list message) (calls : list tool_call) :
  interpret O (Some content) [] history = Ok calls ->
  List.length calls <= 1
  /\ Forall (fun tc => In (tc_name tc) Settings.TOOLS_SPEC
                       /\ exists args, tc_arguments tc = ArgDumped args
                                       /\ tc_id tc = CallFromContent args
                                       /\ loads_arguments O (tc_arguments tc) = Some args)
       calls.
Proof.
  unfold interpret. destruct (String.eqb content EmptyString).
  { intros H. inversion H; subst. split; [cbn; lia | constructor]. }
  destruct (parse_content O content history) as [parsed|]; [|discriminate].
  intros H. apply calls_from_parsed_spec in H as [-> | (n & args & -> & I & _)].
  - split; [cbn; lia | constructor].
  - split; [cbn; lia|]. constructor; [|constructor].
    split; [exact I|]. exists args. repeat split.
Qed.


(** *** What the narrow fallback recovers *)

Lemma span_noquote_fst (s : string) : forallb not_quote (fst (span_noquote s)) = true.
Proof.
  induction s as [|c r IH]; [reflexivity|]. cbn [span_noquote].
  destruct (Ascii.eqb c (ascii_of_nat 34)) eqn:E; [reflexivity|].
  destruct (span_noquote r) as [a b]. cbn [fst forallb] in *.
  unfold not_quote at 1. now rewrite E, IH.
Qed.

Lemma search_some {A} (m : string -> option A) (s : string) (a : A) :
  search m s = Some a -> exists t, m t = Some a.
Proof.
  induction s as [|c r IH]; cbn [search].
  - destruct (m EmptyString) eqn:E; [|discriminate]. intros H. inversion H; subst.
    now exists EmptyString.
  - destruct (m (String c r)) eqn:E.
    + intros H. inversion H; subst. now exists (String c r).
    + exact IH.
Qed.

Lemma text_match_no_quote (content g : string) :
  text_match content = Some g -> forallb not_quote g = true.
Proof.
  intros H. apply search_some in H as [t H]. unfold text_content_at in H.
  destruct (startswith _ t); [|discriminate].
  destruct (colon_quote _) as [rest|]; [|discriminate].
  inversion H; subst. apply span_noquote_fst.
Qed.

Lemma url_match_no_quote (content u : string) :
  url_match content = Some u -> u <> EmptyString /\ forallb not_quote u = true.
Proof.
  assert (V : forall s, url_value s = Some u -> u <> EmptyString /\ forallb not_quote u = true).
  { intros s. unfold url_value. destruct (colon_quote s) as [t|]; [|discriminate].
    pose proof (span_noquote_fst t) as N.
    destruct (span_noquote t) as [v rest]. cbn [fst] in N.
    destruct v as [|c v]; [discriminate|]. destruct rest; [discriminate|].
    intros H. inversion H; subst. split; [discriminate | exact N]. }
  intros H. apply search_some in H as [t H]. unfold url_at in H.
  destruct (startswith _ t); [now apply V in H|].
  destruct (startswith _ t); [now apply V in H | discriminate].
Qed.

Lemma length_truncate_2000 (s : string) : String.length (truncate_2000 s) <= 2014.
Proof.
  unfold truncate_2000. destruct (2000 <? String.length s) eqn:C.
  - rewrite TrimFacts.length_append. pose proof (TrimFacts.length_take 2000 s).
    change (String.length "...[TRUNCATED]") with 14. lia.
  - apply Nat.ltb_ge in C. lia.
Qed.

(** X23.  The text the narrow fallback recovers from a reply never holds
    a double quote (the capture ends at the first one, escaped or not), so
    of the two unescaping steps only the one for line breaks can change
    it; the text argument of the synthesized call has at most 2014
    characters; and an address recovered from the reply is not empty and
    holds no double quote either. *)
Theorem recovered_text_holds_no_quote (content g : string) :
  text_match content = Some g ->
  forallb not_quote g = true
  /\ unescape g = replace (String bslash "n") (String newline EmptyString) g
  /\ String.length (truncate_2000 (unescape g)) <= 2014
  /\ match url_match content with
     | Some u => u <> EmptyString /\ forallb not_quote u = true
     | None => True
     end.
Proof.
  intros H. pose proof (text_match_no_quote content g H) as N.
  split; [exact N|]. split; [|split; [apply length_truncate_2000|]].
  - unfold unescape. apply PyStrFacts.replace_absent.
    apply (TrimFacts.contains_absent not_quote); [|reflexivity].
    apply TrimFacts.forallb_replace; [reflexivity | exact N].
  - destruct (url_match content) as [u|] eqn:U; [|exact I].
    now apply url_match_no_quote in U.
Qed.

(** *** The keyword of a record *)

Lemma keyword_from_calls_skip (later rest : list message) :
  Forall (names_no_keyword O) later ->
  keyword_from_calls O (later ++ rest) = keyword_from_calls O rest.
Proof.
  induction 1 as [|m later Hm _ IH]; [reflexivity|].
  cbn [app keyword_from_calls]. destruct m as [t|t|t calls|id name c]; try exact IH.
  cbn [names_no_keyword] in Hm. now rewrite Hm.
Qed.

(** X24.  When the extraction tool is called without a keyword, the
    keyword it records is that of the latest search the assistant asked
    for: the first keyword of the calls of the last assistant turn that
    names one, whatever came before that turn. *)
Theorem latest_search_keyword_is_recovered
    (before after : list message) (text : option string) (calls : list tool_call) (k : json) :
  keyword_in_calls O calls = Ok (Some k) ->
  is_str "unknown_keyword" k = false ->
  Forall (names_no_keyword O) after ->
  recover_keyword O (JStr "unknown_keyword") (before ++ AssistantMsg text calls :: after)
  = Ok k.
Proof.
  intros Hk Hu Ha. unfold recover_keyword.
  cbn [is_str String.eqb Ascii.eqb Bool.eqb andb].
  assert (E : match before ++ AssistantMsg text calls :: after with
              | [] => false
              | _ => true
              end = true) by now destruct before.
  rewrite E.
  rewrite rev_app_distr. cbn [rev]. rewrite <- app_assoc. cbn [app].
  rewrite keyword_from_calls_skip by now apply Forall_rev.
  cbn [keyword_from_calls]. now rewrite Hk, Hu, Hu.
Qed.


End Facts.

End RunFacts.

(** ** Concrete cases *)
Module Cases.
Import PyStr Pipeline Scenario Observers RunFacts.


(** The theorem of X18 on an empty store. *)
Lemma finalize_witness :
  exists r, exec_finalize finalizing (JDict []) start = (Ok r, start)
            /\ status_of r = JStr "success".
Proof.
  eexists. split; [reflexivity|].
  refine (proj1 (finalize_reports_the_store finalizing (JDict []) _
                   start start _)).
  reflexivity.
Defined.


(** The theorem of X13 on a text of nine characters between blanks. *)
Lemma short_text_witness :
  snd (exec_extract idle
         (JDict [("text_content", JStr "  too short  "); ("original_url", JStr "https://example.com/")])
         start)
  = start.
Proof.
  refine (proj1 (extraction_rejects_short_text idle
                   [("text_content", JStr "  too short  ");
                    ("original_url", JStr "https://example.com/")]
                   "  too short  " start _ _)).
  - reflexivity.
  - apply Nat.ltb_lt. reflexivity.
Defined.


(** The theorem of X19 on a machine without a browser. *)
Lemma failed_launch_witness :
  fst (run_agent Situations.no_browser 20 ["example"] start) = Ok None.
Proof.
  refine (proj1 (failed_launch_ends_the_run Situations.no_browser 20 ["example"] start _ _));
    reflexivity.
Defined.

(** The theorem of X20 on the end-to-end scenario, which ends by an
    assistant turn without calls after one record was extracted. *)
Lemma unfinished_run_witness :
  fst (run_agent end_to_end 20 ["example"] start) = Ok (Some "agent_blog_data_partial.csv").
Proof.
  refine (proj1 (unfinished_run_saves_what_it_has end_to_end 20 ["example"] start
                   (snd (try_body end_to_end 20 (fresh end_to_end)))
                   (fst (try_body end_to_end 20 (fresh end_to_end)))
                   (hd [] (final_structured_blog_data
                             (snd (try_body end_to_end 20 (fresh end_to_end)))))
                   (tl (final_structured_blog_data
                          (snd (try_body end_to_end 20 (fresh end_to_end)))))
                   _ _ _)).
  - apply surjective_pairing.
  - vm_compute. reflexivity.
  - vm_compute. reflexivity.
Defined.

(** The theorem of X21 on a search with one hit and one empty address. *)
Lemma search_hits_witness :
  exists urls,
    Forall (fun u => u <> EmptyString) urls
    /\ urls_in_history (searching ["https://example.com/blog1"; EmptyString])
         [ToolMsg (CallId "call_1") "search_web_for_blogs"
            (JsonContent
               (JDict [("status", JStr "success");
                       ("found_urls", JList [JStr "https://example.com/blog1"]);
                       ("summary", JStr "1개의 잠재적 블로그 URL을 찾았습니다.")]))]
       = Ok ([] ++ List.map JStr urls).
Proof.
  destruct (search_hits_reach_the_url_scan
              (searching ["https://example.com/blog1"; EmptyString])
              [("keyword", JStr "example")] start start
              (JDict [("status", JStr "success");
                      ("found_urls", JList [JStr "https://example.com/blog1"]);
                      ("summary", JStr "1개의 잠재적 블로그 URL을 찾았습니다.")])
              (CallId "call_1") [] [] eq_refl eq_refl eq_refl) as (urls & F & _ & H).
  exists urls. split; [exact F | exact H].
Defined.

(** The theorem of X22 on a reply that writes an extraction request as
    text. *)
Lemma interpreter_witness :
  List.length [synthesized_call request_without_url JNull "hello world"] <= 1.
Proof.
  refine (proj1 (interpreter_recovers_one_known_call idle request_without_url []
                   [synthesized_call request_without_url JNull "hello world"] _)).
  reflexivity.
Defined.

(** The theorem of X23 on the same reply with an address. *)
Lemma recovered_text_witness :
  forallb not_quote "hello world" = true.
Proof.
  refine (proj1 (recovered_text_holds_no_quote request_with_url "hello world" _)).
  reflexivity.
Defined.

(** The theorem of X24 on a history with one search. *)
Lemma latest_keyword_witness :
  recover_keyword idle (JStr "unknown_keyword") Situations.searched_history
  = Ok (JStr "python blog").
Proof.
  apply (latest_search_keyword_is_recovered idle
           [SystemMsg "system prompt"; UserMsg "find blogs"]
           [ToolMsg (CallId "call_1") "search_web_for_blogs"
              (JsonContent (JDict [("status", JStr "success"); ("found_urls", JList [])]))]
           None
           [mk_call (CallId "call_1") "search_web_for_blogs"
              (ArgDumped (JDict [("keyword", JStr "python blog")]))]
           (JStr "python blog")).
  - reflexivity.
  - reflexivity.
  - repeat constructor.
Defined.

(** The lemma X26 on two calls, of which one has arguments that do not
    decode. *)
Lemma dispatch_answers_witness :
  results_of (snd (dispatch (searching [])
                     [mk_call (CallId "call_1") "search_web_for_blogs"
                        (ArgDumped (JDict [("keyword", JStr "example")]));
                      mk_call (CallId "call_2") "no_such_tool" (ArgText "{")]
                     start))
  = results_of start + 2.
Proof.
  apply (PipelineFacts.dispatch_answers_every_call (searching [])
           [mk_call (CallId "call_1") "search_web_for_blogs"
              (ArgDumped (JDict [("keyword", JStr "example")]));
            mk_call (CallId "call_2") "no_such_tool" (ArgText "{")]
           start).
  reflexivity.
Defined.

End Cases.
